(** * mdServerTlfStorage: on-disk metadata storage of one top-level folder

    A shallow embedding of libkbfs' [mdServerTlfStorage] (the per-TLF storage
    coordinator of the metadata server) together with the properties its
    specification states about it.

    The Go code is a sequence of blocking file operations and in-memory
    checks.  It is embedded as a state-and-error monad over a [World]: the
    receiver's only mutable field [branchJournals], the directory tree below
    [s.dir], and a log of the file-system accesses performed.  Go's
    [(value, error)] results and panics become the three-way [outcome]. *)

From Stdlib Require Import ZArith String List Bool Lia.
From stdpp Require Import base option list functions gmap strings.

Open Scope string_scope.
Open Scope Z_scope.

(** ** Identifiers and plain data

    All identifiers of the package are hashes; the code only compares them,
    tests them against their zero value and prints them in hexadecimal
    ([id.String()]) to build paths.  They are modelled by that hexadecimal
    text: the zero value ([MdID{}], [TLFWriterKeyBundleID{}], ...) prints as
    the empty string. *)

Abbreviation UID := string (only parsing).
Abbreviation VerifyingKey := string (only parsing).
Abbreviation TlfID := string (only parsing).
Abbreviation BranchID := string (only parsing).
Abbreviation MdID := string (only parsing).
Abbreviation TLFWriterKeyBundleID := string (only parsing).
Abbreviation TLFReaderKeyBundleID := string (only parsing).
Abbreviation MetadataVer := Z (only parsing).
Abbreviation Time := Z (only parsing).

(** [MetadataRevision] is Go's [int64]; arithmetic on it wraps around. *)
Abbreviation MetadataRevision := Z (only parsing).

Definition wrap64 (z : Z) : Z := (z + 2 ^ 63) mod 2 ^ 64 - 2 ^ 63.

(** A path is the list of its components, root first. *)
Abbreviation path := (list string) (only parsing).

(** [filepath.Join]: empty elements are ignored. *)
Definition filepath_Join (base : path) (elems : list string) : path :=
  base ++ List.filter (fun e => negb (String.eqb e "")) elems.

(** The reserved branch of the merged history: sixteen zero bytes. *)
Definition NullBranchID : BranchID := "00000000000000000000000000000000".

Inductive MergeStatus := Merged | Unmerged.

Definition MergeStatus_eqb (a b : MergeStatus) : bool :=
  match a, b with
  | Merged, Merged | Unmerged, Unmerged => true
  | _, _ => false
  end.

(** The part of a metadata object the storage looks at through its typed
    accessors; everything else is the opaque [mdBody]. *)
Record RootMetadata := mkRootMetadata {
  RevisionNumber : MetadataRevision;
  BID : BranchID;
  MergedStatus : MergeStatus;
  GetTLFWriterKeyBundleID : TLFWriterKeyBundleID;
  GetTLFReaderKeyBundleID : TLFReaderKeyBundleID;
  Version : MetadataVer;
  mdBody : string
}.

Record RootMetadataSigned := mkRootMetadataSigned {
  MD : RootMetadata;
  SigInfo : string;
  untrustedServerTimestamp : Time
}.

Record TLFWriterKeyBundleV3 := mkWKB { wkbKeys : string }.
Record TLFReaderKeyBundleV3 := mkRKB { rkbKeys : string }.

(** [ExtraMetadata] is an interface; [*ExtraMetadataV3] is the implementation
    the storage accepts, found by a type assertion.  A nil interface value is
    [None] of [option ExtraMetadata]. *)
Inductive ExtraMetadata :=
| ExtraMetadataV3 (wkb : TLFWriterKeyBundleV3) (rkb : TLFReaderKeyBundleV3)
| ExtraMetadataOther (tag : string).

(** [serializedRMDS] is the structure stored in [mdPath(id)]. *)
Record serializedRMDS := mkSerializedRMDS {
  EncodedRMDS : string;
  Timestamp : Time;
  SVersion : MetadataVer
}.

Record mdIDJournalEntry := mkEntry { ID : MdID }.

(** ** Errors

    One constructor per error value the file builds, the two error kinds of
    the operating system the code depends on, and [ErrCollab] for the errors
    of the collaborators (crypto, codec, validation). *)
Inductive error :=
| errMDServerTlfStorageShutdown
| MDServerError (e : error)
| MDServerErrorUnauthorized
| MDServerErrorBadRequest (Reason : string)
| ErrNotExist (p : path)
| ErrNotDir (p : path)
| ErrCodec (p : path)
| ErrMdIDMismatch (expected got : MdID)
| ErrBundleIDsEmptyMismatch (wEmpty rEmpty : bool)
| ErrWKBIDMismatch (expected got : TLFWriterKeyBundleID)
| ErrRKBIDMismatch (expected got : TLFReaderKeyBundleID)
| ErrInvalidExtraMetadata
| ErrExpectedOneMD (got : nat)
| ErrJournalOrder (r expected : MetadataRevision)
| ErrCollab (msg : string).

(** [os.IsNotExist]. *)
Definition os_IsNotExist (e : error) : bool :=
  match e with ErrNotExist _ => true | _ => false end.

(** [err.Error()], as far as the storage uses it (the reason of a bad
    request is the text of a collaborator's error). *)
Fixpoint Error (e : error) : string :=
  match e with
  | errMDServerTlfStorageShutdown => "mdServerTlfStorage is shutdown"
  | MDServerError e' => Error e'
  | MDServerErrorUnauthorized => "Unauthorized"
  | MDServerErrorBadRequest r => r
  | ErrNotExist _ => "no such file or directory"
  | ErrNotDir _ => "not a directory"
  | ErrCodec _ => "codec error"
  | ErrMdIDMismatch _ _ => "Metadata ID mismatch"
  | ErrBundleIDsEmptyMismatch _ _ => "wkbID is empty != rkbID is empty"
  | ErrWKBIDMismatch _ _ => "Expected WKB ID"
  | ErrRKBIDMismatch _ _ => "Expected RKB ID"
  | ErrInvalidExtraMetadata => "Invalid extra metadata"
  | ErrExpectedOneMD _ => "Expected 1 MD block"
  | ErrJournalOrder _ _ => "unexpectedly does not follow"
  | ErrCollab m => m
  end.

(** The generic storage error wraps another error; the typed errors of the
    server do not. *)
Definition isMDServerError (e : error) : bool :=
  match e with MDServerError _ => true | _ => false end.

(** ** Outcomes *)
Inductive outcome (A : Type) :=
| Ok (a : A)
| Err (e : error)
| Panic (msg : string).
Arguments Ok {A} a.
Arguments Err {A} e.
Arguments Panic {A} msg.

(** ** The world the storage runs in *)

Inductive FileData :=
| FileRMDS (srmds : serializedRMDS)
| FileWKB (wkb : TLFWriterKeyBundleV3)
| FileRKB (rkb : TLFReaderKeyBundleV3).

Inductive FsOp :=
| OpRead (p : path)
| OpWrite (p : path)
| OpMkdirAll (p : path)
| OpJournalRead (p : path)
| OpJournalAppend (p : path).

(** What a journal directory holds: the revision of its first entry and the
    entries in order. *)
Record JournalData := mkJournalData {
  jEarliest : MetadataRevision;
  jEntries : list mdIDJournalEntry
}.

(** The in-memory handle of a journal: its directory. *)
Record mdIDJournal := mkJournal { jdir : path }.

(** The directory tree is a function from paths: to the value serialized
    into the file at a path, to whether a directory was made there, and to
    what the journal directory there holds. *)
Record World := mkWorld {
  branchJournals : option (gmap string mdIDJournal);
  files : list string -> option FileData;
  dirs : list string -> bool;
  journals : list string -> option JournalData;
  now : Time;
  accesses : list FsOp
}.

Definition logged (op : FsOp) (w : World) : World :=
  mkWorld (branchJournals w) (files w) (dirs w) (journals w) (now w)
          (op :: accesses w).

Definition set_files (f : list string -> option FileData)
  (d : list string -> bool) (w : World) : World :=
  mkWorld (branchJournals w) f d (journals w) (now w) (accesses w).

Definition set_dirs (d : list string -> bool) (w : World) : World :=
  mkWorld (branchJournals w) (files w) d (journals w) (now w) (accesses w).

Definition set_journals (js : list string -> option JournalData)
  (w : World) : World :=
  mkWorld (branchJournals w) (files w) (dirs w) js (now w) (accesses w).

Definition set_branchJournals (bj : option (gmap string mdIDJournal))
  (w : World) : World :=
  mkWorld bj (files w) (dirs w) (journals w) (now w) (accesses w).

(** ** The monad *)

Definition M (A : Type) : Type := World -> outcome A * World.

Definition ret {A} (a : A) : M A := fun w => (Ok a, w).
Definition throw {A} (e : error) : M A := fun w => (Err e, w).
Definition panic {A} (msg : string) : M A := fun w => (Panic msg, w).

Definition bind {A B} (m : M A) (k : A -> M B) : M B :=
  fun w =>
    match m w with
    | (Ok a, w') => k a w'
    | (Err e, w') => (Err e, w')
    | (Panic s, w') => (Panic s, w')
    end.

Notation "x <- m ;; k" := (bind m (fun x => k))
  (at level 100, m at next level, right associativity).
Notation "m ;;; k" := (bind m (fun _ => k))
  (at level 100, right associativity).

(** A collaborator's [(value, error)] result. *)
Definition lift {A} (r : outcome A) : M A := fun w => (r, w).

(** [if err != nil { return ..., err }] for a function returning only an error. *)
Definition check (r : option error) : M unit :=
  match r with None => ret tt | Some e => throw e end.

(** [if err != nil { return ..., f(err) }]. *)
Definition mapErr {A} (f : error -> error) (m : M A) : M A :=
  fun w =>
    match m w with
    | (Err e, w') => (Err (f e), w')
    | r => r
    end.

(** [v, err := m] where the code goes on to inspect [err]. *)
Definition attempt {A} (m : M A) : M (error + A) :=
  fun w =>
    match m w with
    | (Ok a, w') => (Ok (inr a), w')
    | (Err e, w') => (Ok (inl e), w')
    | (Panic s, w') => (Panic s, w')
    end.

Definition gets {A} (f : World -> A) : M A := fun w => (Ok (f w), w).
Definition modify (f : World -> World) : M unit := fun w => (Ok tt, f w).

(** ** The file system and the codec's file helpers

    Modelled from the spec: [kbfscodec.DeserializeFromFile] and
    [kbfscodec.SerializeToFile] (the codec package is not among the sources;
    the spec gives [deserializeFromFile(path) -> value] and
    [serializeToFile(value, path)]).  A file holds the value serialized into
    it.  Reading a path with no file is the not-exist error of the operating
    system; creating a directory, or a file below a directory, fails when a
    regular file is in the way. *)

Definition is_file (w : World) (p : path) : bool :=
  match files w p with Some _ => true | None => false end.

(** All prefixes of a path, the root first and the path itself last. *)
Definition prefixes (p : path) : list path :=
  List.map (fun n => take n p) (seq 0%nat (S (length p))).

Definition add_dirs (l : list path) (d : list string -> bool) :
  list string -> bool :=
  fun q => if bool_decide (q ∈ l) then true else d q.

(** [os.MkdirAll]. *)
Definition MkdirAll (p : path) : M unit :=
  fun w =>
    let w' := logged (OpMkdirAll p) w in
    match List.find (is_file w) (prefixes p) with
    | Some q => (Err (ErrNotDir q), w')
    | None => (Ok tt, set_dirs (add_dirs (prefixes p) (dirs w)) w')
    end.

Definition DeserializeFromFile (p : path) : M FileData :=
  fun w =>
    let w' := logged (OpRead p) w in
    match files w p with
    | Some d => (Ok d, w')
    | None => (Err (ErrNotExist p), w')
    end.

Definition SerializeToFile (d : FileData) (p : path) : M unit :=
  fun w =>
    let w' := logged (OpWrite p) w in
    match List.find (is_file w) (prefixes (removelast p)) with
    | Some q => (Err (ErrNotDir q), w')
    | None =>
        (Ok tt,
         set_files (<[p := Some d]> (files w))
                   (add_dirs (prefixes (removelast p)) (dirs w)) w')
    end.

(** Decoding a file into a variable of the wrong type is a codec error. *)
Definition asRMDS (p : path) (d : FileData) : M serializedRMDS :=
  match d with FileRMDS s => ret s | _ => throw (ErrCodec p) end.

Definition asWKB (p : path) (d : FileData) : M TLFWriterKeyBundleV3 :=
  match d with FileWKB b => ret b | _ => throw (ErrCodec p) end.

Definition asRKB (p : path) (d : FileData) : M TLFReaderKeyBundleV3 :=
  match d with FileRKB b => ret b | _ => throw (ErrCodec p) end.

(** [s.clock.Now()]. *)
Definition clock_Now : M Time := gets now.

(** ** The branch journal

    Modelled from the spec: [mdIDJournal] (its file is not among the
    sources).  Section 4.3 of the specification gives its contract: [length],
    [append] (the first append fixes the starting revision, every later one
    must carry the previous revision plus one and fails otherwise),
    [latestEntry], and [entryRange] (the entries in [start, stop], clamped to
    what exists, with the first revision actually returned).  A journal lives
    in its directory; the handle only names it. *)

Definition makeMdIDJournal (d : path) : mdIDJournal := mkJournal d.

Definition journal_data (w : World) (j : mdIDJournal) : JournalData :=
  default (mkJournalData 0 []) (journals w (jdir j)).

Definition journal_length (j : mdIDJournal) : M Z :=
  fun w =>
    (Ok (Z.of_nat (length (jEntries (journal_data w j)))),
     logged (OpJournalRead (jdir j)) w).

Definition journal_getLatestEntry (j : mdIDJournal) : M (option mdIDJournalEntry) :=
  fun w =>
    (Ok (last (jEntries (journal_data w j))),
     logged (OpJournalRead (jdir j)) w).

Definition journal_getEntryRange (j : mdIDJournal)
  (start stop : MetadataRevision) :
  M (MetadataRevision * list mdIDJournalEntry) :=
  fun w =>
    let d := journal_data w j in
    let w' := logged (OpJournalRead (jdir j)) w in
    match jEntries d with
    | [] => (Ok (0, []), w')
    | _ :: _ =>
        let latest := jEarliest d + Z.of_nat (length (jEntries d)) - 1 in
        let start' := Z.max start (jEarliest d) in
        let stop' := Z.min stop latest in
        if stop' <? start' then (Ok (0, []), w')
        else
          (Ok (start',
               take (Z.to_nat (stop' - start' + 1))
                    (drop (Z.to_nat (start' - jEarliest d)) (jEntries d))),
           w')
    end.

Definition journal_append (j : mdIDJournal) (r : MetadataRevision)
  (e : mdIDJournalEntry) : M unit :=
  fun w =>
    let d := journal_data w j in
    let w' := logged (OpJournalAppend (jdir j)) w in
    match jEntries d with
    | [] =>
        (Ok tt,
         set_journals (<[jdir j := Some (mkJournalData r [e])]> (journals w))
                      w')
    | _ :: _ =>
        let next := jEarliest d + Z.of_nat (length (jEntries d)) in
        if r =? next then
          (Ok tt,
           set_journals
             (<[jdir j :=
                  Some (mkJournalData (jEarliest d) (jEntries d ++ [e]))]>
                (journals w)) w')
        else (Err (ErrJournalOrder r next), w')
    end.

(** ** Collaborators

    [cryptoPure] and the codec are interfaces held by the storage; the
    validation and authorization predicates are functions of the package
    defined in other files.  All are parameters of the development. *)

Record cryptoPure := mkCrypto {
  MakeMdID : RootMetadata -> outcome MdID;
  MakeTLFWriterKeyBundleID : TLFWriterKeyBundleV3 -> outcome TLFWriterKeyBundleID;
  MakeTLFReaderKeyBundleID : TLFReaderKeyBundleV3 -> outcome TLFReaderKeyBundleID
}.

Record Codec := mkCodec {
  EncodeRootMetadataSigned : RootMetadataSigned -> outcome string;
  DecodeRootMetadataSigned :
    TlfID -> MetadataVer -> MetadataVer -> string -> Time ->
    outcome RootMetadataSigned
}.

Record Package := mkPackage {
  isReader :
    UID -> RootMetadata -> option ExtraMetadata -> outcome bool;
  isWriterOrValidRekey :
    UID -> RootMetadata -> RootMetadata ->
    option ExtraMetadata -> option ExtraMetadata -> outcome bool;
  IsValidAndSigned :
    RootMetadataSigned -> option ExtraMetadata -> option error;
  IsLastModifiedBy :
    RootMetadataSigned -> UID -> VerifyingKey -> option error;
  CheckValidSuccessorForServer :
    RootMetadata -> MdID -> RootMetadata -> option error
}.

(** The immutable fields of the Go struct.  Its lock orders whole
    operations, each of which is one run of the monad here; its
    [branchJournals] field is in the [World]. *)
Record mdServerTlfStorage := mkStorage {
  tlfID : TlfID;
  codec : Codec;
  crypto : cryptoPure;
  mdVer : MetadataVer;
  dir : path
}.

(** [makeMDServerTlfStorage] starts with an empty, non-nil journal map. *)
Definition makeMDServerTlfStorage_world (w : World) : World :=
  set_branchJournals (Some ∅) w.

(** ** The storage *)

Section Storage.

Variable pkg : Package.
Variable s : mdServerTlfStorage.

(** The functions below are for building various paths. *)

Definition branchJournalsPath : path :=
  filepath_Join (dir s) ["md_branch_journals"].

Definition mdsPath : path := filepath_Join (dir s) ["mds"].

Definition writerKeyBundleV3Path (id : TLFWriterKeyBundleID) : path :=
  filepath_Join (dir s) ["wkbv3"; id].

Definition readerKeyBundleV3Path (id : TLFReaderKeyBundleID) : path :=
  filepath_Join (dir s) ["rkbv3"; id].

(** [idStr[:4]] panics on a text shorter than four characters. *)
Definition mdPath (id : MdID) : outcome path :=
  let idStr := id in
  if (String.length idStr <? 4)%nat then Panic "slice bounds out of range"
  else
    Ok (filepath_Join mdsPath
          [substring 0 4 idStr;
           substring 4 (String.length idStr - 4) idStr]).

(** [getMDReadLocked] verifies the MD data (but not the signature) for the
    given ID and returns it. *)
Definition getMDReadLocked (id : MdID) : M RootMetadataSigned :=
  p <- lift (mdPath id) ;;
  srmds <- (d <- DeserializeFromFile p ;; asRMDS p d) ;;
  rmds <- lift (DecodeRootMetadataSigned (codec s) (tlfID s) (SVersion srmds)
                  (mdVer s) (EncodedRMDS srmds) (Timestamp srmds)) ;;
  mdID <- lift (MakeMdID (crypto s) (MD rmds)) ;;
  if negb (String.eqb id mdID) then throw (ErrMdIDMismatch id mdID)
  else ret rmds.

Definition putMDLocked (rmds : RootMetadataSigned) : M MdID :=
  id <- lift (MakeMdID (crypto s) (MD rmds)) ;;
  r <- attempt (getMDReadLocked id) ;;
  match r with
  | inr _ => ret id
  | inl err =>
      if os_IsNotExist err then
        encodedRMDS <- lift (EncodeRootMetadataSigned (codec s) rmds) ;;
        t <- clock_Now ;;
        let srmds := mkSerializedRMDS encodedRMDS t (Version (MD rmds)) in
        p <- lift (mdPath id) ;;
        (SerializeToFile (FileRMDS srmds) p ;;;
         ret id)
      else throw err
  end.

(** [j, ok := s.branchJournals[bid]]; reading a nil map finds nothing. *)
Definition lookupBranchJournal (bid : BranchID) : M (option mdIDJournal) :=
  gets (fun w =>
          match branchJournals w with
          | Some m => m !! bid
          | None => None
          end).

(** [s.branchJournals[bid] = j]; assigning into a nil map panics. *)
Definition storeBranchJournal (bid : BranchID) (j : mdIDJournal) : M unit :=
  fun w =>
    match branchJournals w with
    | Some m => (Ok tt, set_branchJournals (Some (<[bid := j]> m)) w)
    | None => (Panic "assignment to entry in nil map", w)
    end.

Definition getOrCreateBranchJournalLocked (bid : BranchID) : M mdIDJournal :=
  jo <- lookupBranchJournal bid ;;
  match jo with
  | Some j => ret j
  | None =>
      let d := filepath_Join branchJournalsPath [bid] in
      MkdirAll d ;;;
      let j := makeMdIDJournal d in
      storeBranchJournal bid j ;;;
      ret j
  end.

Definition getHeadForTLFReadLocked (bid : BranchID) :
  M (option RootMetadataSigned) :=
  jo <- lookupBranchJournal bid ;;
  match jo with
  | None => ret None
  | Some j =>
      latest <- journal_getLatestEntry j ;;
      match latest with
      | None => ret None
      | Some entry => rmds <- getMDReadLocked (ID entry) ;; ret (Some rmds)
      end
  end.

Definition checkKeyBundlesV3 (c : cryptoPure)
  (wkbID : TLFWriterKeyBundleID) (rkbID : TLFReaderKeyBundleID)
  (wkb : TLFWriterKeyBundleV3) (rkb : TLFReaderKeyBundleV3) : M unit :=
  computedWKBID <- lift (MakeTLFWriterKeyBundleID c wkb) ;;
  if negb (String.eqb wkbID computedWKBID) then
    throw (ErrWKBIDMismatch wkbID computedWKBID)
  else
    computedRKBID <- lift (MakeTLFReaderKeyBundleID c rkb) ;;
    if negb (String.eqb rkbID computedRKBID) then
      throw (ErrRKBIDMismatch rkbID computedRKBID)
    else ret tt.

(** The result [(nil, nil, nil)] is [None]; the code returns either both
    bundles or neither. *)
Definition getKeyBundlesReadLocked
  (wkbID : TLFWriterKeyBundleID) (rkbID : TLFReaderKeyBundleID) :
  M (option (TLFWriterKeyBundleV3 * TLFReaderKeyBundleV3)) :=
  if negb (Bool.eqb (String.eqb wkbID "") (String.eqb rkbID "")) then
    throw (ErrBundleIDsEmptyMismatch (String.eqb wkbID "") (String.eqb rkbID ""))
  else if String.eqb wkbID "" then ret None
  else
    wkb <- (d <- DeserializeFromFile (writerKeyBundleV3Path wkbID) ;;
            asWKB (writerKeyBundleV3Path wkbID) d) ;;
    rkb <- (d <- DeserializeFromFile (readerKeyBundleV3Path rkbID) ;;
            asRKB (readerKeyBundleV3Path rkbID) d) ;;
    checkKeyBundlesV3 (crypto s) wkbID rkbID wkb rkb ;;;
    ret (Some (wkb, rkb)).

Definition getExtraMetadataReadLocked
  (wkbID : TLFWriterKeyBundleID) (rkbID : TLFReaderKeyBundleID) :
  M (option ExtraMetadata) :=
  r <- getKeyBundlesReadLocked wkbID rkbID ;;
  match r with
  | None => ret None
  | Some (wkb, rkb) => ret (Some (ExtraMetadataV3 wkb rkb))
  end.

Definition checkGetParamsReadLocked (currentUID : UID) (bid : BranchID) :
  M unit :=
  mergedMasterHead <-
    mapErr MDServerError (getHeadForTLFReadLocked NullBranchID) ;;
  match mergedMasterHead with
  | Some head =>
      extra <- mapErr MDServerError
                 (getExtraMetadataReadLocked
                    (GetTLFWriterKeyBundleID (MD head))
                    (GetTLFReaderKeyBundleID (MD head))) ;;
      ok <- mapErr MDServerError
              (lift (isReader pkg currentUID (MD head) extra)) ;;
      if negb ok then throw MDServerErrorUnauthorized else ret tt
  | None => ret tt
  end.

(** The loop of [getRangeReadLocked]: entry [i] must carry revision
    [realStart + i]; anything else panics. *)
Fixpoint getRange_loop (realStart : MetadataRevision) (i : nat)
  (entries : list mdIDJournalEntry) (rmdses : list RootMetadataSigned) :
  M (list RootMetadataSigned) :=
  match entries with
  | [] => ret rmdses
  | entry :: rest =>
      let expectedRevision := wrap64 (realStart + Z.of_nat i) in
      rmds <- mapErr MDServerError (getMDReadLocked (ID entry)) ;;
      if negb (expectedRevision =? RevisionNumber (MD rmds)) then
        panic "expected revision mismatch"
      else getRange_loop realStart (S i) rest (rmdses ++ [rmds])
  end.

Definition getRangeReadLocked (currentUID : UID) (bid : BranchID)
  (start stop : MetadataRevision) : M (list RootMetadataSigned) :=
  checkGetParamsReadLocked currentUID bid ;;;
  jo <- lookupBranchJournal bid ;;
  match jo with
  | None => ret []
  | Some j =>
      r <- journal_getEntryRange j start stop ;;
      getRange_loop (fst r) 0%nat (snd r) []
  end.

Definition putExtraMetadataLocked (rmds : RootMetadataSigned)
  (extra : option ExtraMetadata) : M unit :=
  match extra with
  | None => ret tt
  | Some ex =>
      let wkbID := GetTLFWriterKeyBundleID (MD rmds) in
      if String.eqb wkbID "" then panic "writer key bundle ID is empty"
      else
        let rkbID := GetTLFReaderKeyBundleID (MD rmds) in
        if String.eqb rkbID "" then panic "reader key bundle ID is empty"
        else
          match ex with
          | ExtraMetadataOther _ => throw ErrInvalidExtraMetadata
          | ExtraMetadataV3 wkb rkb =>
              checkKeyBundlesV3 (crypto s) wkbID rkbID wkb rkb ;;;
              SerializeToFile (FileWKB wkb) (writerKeyBundleV3Path wkbID) ;;;
              SerializeToFile (FileRKB rkb) (readerKeyBundleV3Path rkbID)
          end
  end.

Definition isShutdownReadLocked : M bool :=
  gets (fun w =>
          match branchJournals w with None => true | Some _ => false end).

(** All functions below are public functions. *)

Definition journalLength (bid : BranchID) : M Z :=
  sd <- isShutdownReadLocked ;;
  if sd then throw errMDServerTlfStorageShutdown
  else
    jo <- lookupBranchJournal bid ;;
    match jo with
    | None => ret 0
    | Some j => journal_length j
    end.

Definition getForTLF (currentUID : UID) (bid : BranchID) :
  M (option RootMetadataSigned) :=
  sd <- isShutdownReadLocked ;;
  if sd then throw errMDServerTlfStorageShutdown
  else
    checkGetParamsReadLocked currentUID bid ;;;
    mapErr MDServerError (getHeadForTLFReadLocked bid).

Definition getRange (currentUID : UID) (bid : BranchID)
  (start stop : MetadataRevision) : M (list RootMetadataSigned) :=
  sd <- isShutdownReadLocked ;;
  if sd then throw errMDServerTlfStorageShutdown
  else getRangeReadLocked currentUID bid start stop.

(** [put], first step: a missing [extra] is looked up from the bundle ids of
    the metadata. *)
Definition put_resolveExtra (rmds : RootMetadataSigned)
  (extra : option ExtraMetadata) : M (option ExtraMetadata) :=
  match extra with
  | None =>
      mapErr MDServerError
        (getExtraMetadataReadLocked
           (GetTLFWriterKeyBundleID (MD rmds))
           (GetTLFReaderKeyBundleID (MD rmds)))
  | Some _ => ret extra
  end.

(** [put]: validity of the object and of its last modifier. *)
Definition put_validate (currentUID : UID) (currentVerifyingKey : VerifyingKey)
  (rmds : RootMetadataSigned) (extra : option ExtraMetadata) : M unit :=
  match IsValidAndSigned pkg rmds extra with
  | Some err => throw (MDServerErrorBadRequest (Error err))
  | None =>
      match IsLastModifiedBy pkg rmds currentUID currentVerifyingKey with
      | Some err => throw (MDServerErrorBadRequest (Error err))
      | None => ret tt
      end
  end.

(** [put]: "Check permissions". *)
Definition put_checkPermissions (currentUID : UID)
  (rmds : RootMetadataSigned) (extra : option ExtraMetadata) : M unit :=
  mergedMasterHead <-
    mapErr MDServerError (getHeadForTLFReadLocked NullBranchID) ;;
  match mergedMasterHead with
  | Some head =>
      prevExtra <- mapErr MDServerError
                     (getExtraMetadataReadLocked
                        (GetTLFWriterKeyBundleID (MD head))
                        (GetTLFReaderKeyBundleID (MD head))) ;;
      ok <- mapErr MDServerError
              (lift (isWriterOrValidRekey pkg currentUID (MD head) (MD rmds)
                       prevExtra extra)) ;;
      if negb ok then throw MDServerErrorUnauthorized else ret tt
  | None => ret tt
  end.

(** [put]: the head the new object is compared with, and [recordBranchID]. *)
Definition put_comparisonHead (currentUID : UID) (rmds : RootMetadataSigned) :
  M (option RootMetadataSigned * bool) :=
  let bid := BID (MD rmds) in
  let mStatus := MergedStatus (MD rmds) in
  head <- mapErr MDServerError (getHeadForTLFReadLocked bid) ;;
  match mStatus, head with
  | Unmerged, None =>
      (* currHead for unmerged history might be on the main branch *)
      let prevRev := wrap64 (RevisionNumber (MD rmds) - 1) in
      rmdses <- mapErr MDServerError
                  (getRangeReadLocked currentUID NullBranchID prevRev prevRev) ;;
      match rmdses with
      | [h] => ret (Some h, true)
      | _ => throw (MDServerError (ErrExpectedOneMD (length rmdses)))
      end
  | _, _ => ret (head, false)
  end.

(** [put]: "Consistency checks". *)
Definition put_checkSuccessor (head : option RootMetadataSigned)
  (rmds : RootMetadataSigned) : M unit :=
  match head with
  | Some h =>
      headID <- mapErr MDServerError (lift (MakeMdID (crypto s) (MD h))) ;;
      check (CheckValidSuccessorForServer pkg (MD h) headID (MD rmds))
  | None => ret tt
  end.

(** [put]: the object, then the bundles, then the journal entry. *)
Definition put_persist (rmds : RootMetadataSigned)
  (extra : option ExtraMetadata) : M unit :=
  id <- mapErr MDServerError (putMDLocked rmds) ;;
  mapErr MDServerError (putExtraMetadataLocked rmds extra) ;;;
  j <- getOrCreateBranchJournalLocked (BID (MD rmds)) ;;
  mapErr MDServerError
    (journal_append j (RevisionNumber (MD rmds)) (mkEntry id)).

(** [put] up to the point where the comparison head is known: the resolved
    [extra], the head, and [recordBranchID]. *)
Definition put_resolve (currentUID : UID) (currentVerifyingKey : VerifyingKey)
  (rmds : RootMetadataSigned) (extra : option ExtraMetadata) :
  M (option ExtraMetadata * (option RootMetadataSigned * bool)) :=
  extra <- put_resolveExtra rmds extra ;;
  put_validate currentUID currentVerifyingKey rmds extra ;;;
  put_checkPermissions currentUID rmds extra ;;;
  hr <- put_comparisonHead currentUID rmds ;;
  ret (extra, hr).

Definition put (currentUID : UID) (currentVerifyingKey : VerifyingKey)
  (rmds : RootMetadataSigned) (extra : option ExtraMetadata) : M bool :=
  sd <- isShutdownReadLocked ;;
  if sd then throw errMDServerTlfStorageShutdown
  else
    st <- put_resolve currentUID currentVerifyingKey rmds extra ;;
    put_checkSuccessor (fst (snd st)) rmds ;;;
    put_persist rmds (fst st) ;;;
    ret (snd (snd st)).

Definition getKeyBundles
  (wkbID : TLFWriterKeyBundleID) (rkbID : TLFReaderKeyBundleID) :
  M (option (TLFWriterKeyBundleV3 * TLFReaderKeyBundleV3)) :=
  getKeyBundlesReadLocked wkbID rkbID.

Definition shutdown : M unit := modify (set_branchJournals None).

End Storage.

(** The world an operation leaves behind. *)
Definition after {A} (m : M A) (w : World) : World := snd (m w).

(** ** A small concrete instance

    Collaborators simple enough to run: the content address of a metadata
    object is ["0100"] followed by its body, a bundle's address is ["01"]
    followed by its keys, the codec knows the objects of a table, readers are
    alice and bob, alice is the only writer, and a successor carries the
    revision after its head's. *)

Module Example.

Definition md (rev : Z) (bid : BranchID) (st : MergeStatus)
  (wkb rkb : string) (body : string) : RootMetadata :=
  mkRootMetadata rev bid st wkb rkb 3 body.

Definition signed (m : RootMetadata) : RootMetadataSigned :=
  mkRootMetadataSigned m "sig" 0.

Definition branch : BranchID := "5f5f5f5f5f5f5f5f5f5f5f5f5f5f5f3d".

Definition md1 := md 1 NullBranchID Merged "" "" "r1".
Definition md2 := md 2 NullBranchID Merged "" "" "r2".
Definition md3 := md 3 NullBranchID Merged "" "" "r3".
Definition md2u := md 2 branch Unmerged "" "" "u2".
Definition md3u := md 3 branch Unmerged "" "" "u3".
Definition md2k := md 2 NullBranchID Merged "01w" "01r" "k2".

Definition table : list (string * RootMetadata) :=
  [("r1", md1); ("r2", md2); ("r3", md3); ("u2", md2u); ("u3", md3u);
   ("k2", md2k)].

Fixpoint lookup_table (l : list (string * RootMetadata)) (k : string) :
  option RootMetadata :=
  match l with
  | [] => None
  | (k', m) :: rest => if String.eqb k k' then Some m else lookup_table rest k
  end.

Definition crypto0 : cryptoPure :=
  mkCrypto (fun m => Ok ("0100" +:+ mdBody m))
           (fun b => Ok ("01" +:+ wkbKeys b))
           (fun b => Ok ("01" +:+ rkbKeys b)).

Definition codec0 : Codec :=
  mkCodec
    (fun r => Ok (mdBody (MD r)))
    (fun _ _ _ bytes t =>
       match lookup_table table bytes with
       | Some m => Ok (mkRootMetadataSigned m "sig" t)
       | None => Err (ErrCollab "cannot decode")
       end).

Definition pkg0 : Package :=
  mkPackage
    (fun uid _ _ => Ok (String.eqb uid "alice" || String.eqb uid "bob"))
    (fun uid _ _ _ _ => Ok (String.eqb uid "alice"))
    (fun _ _ => None)
    (fun _ _ _ => None)
    (fun head _ next =>
       if RevisionNumber next =? RevisionNumber head + 1 then None
       else Some (ErrCollab "MDRevisionMismatch")).

Definition s0 : mdServerTlfStorage :=
  mkStorage "tlf" codec0 crypto0 3 ["tlf"].

(** An empty directory tree, just after [makeMDServerTlfStorage]. *)
Definition w0 : World :=
  mkWorld (Some ∅) (fun _ => None) (fun _ => false) (fun _ => None) 0 [].

Definition w1 : World :=
  after (put pkg0 s0 "alice" "key" (signed md1) None) w0.
Definition w2 : World :=
  after (put pkg0 s0 "alice" "key" (signed md2) None) w1.

Definition wkb0 : TLFWriterKeyBundleV3 := mkWKB "w".
Definition rkb0 : TLFReaderKeyBundleV3 := mkRKB "r".
Definition extra0 : ExtraMetadata := ExtraMetadataV3 wkb0 rkb0.

(** After revision 1, revision 2 arrives with its key bundles. *)
Definition wk : World :=
  after (put pkg0 s0 "alice" "key" (signed md2k) (Some extra0)) w1.

(** An empty tree in which a regular file sits where the directory of the
    branch journals belongs. *)
Definition w_blocked : World :=
  mkWorld (Some ∅)
    (<[ ["tlf"; "md_branch_journals"] := Some (FileWKB wkb0) ]> (fun _ => None))
    (fun _ => false) (fun _ => None) 0 [].

(** A revision that does not follow revision 2. *)
Definition md5 := md 5 NullBranchID Merged "" "" "r5".

(** The same collaborators, except that only the signature ["sig"] is valid. *)
Definition pkg1 : Package :=
  mkPackage (isReader pkg0) (isWriterOrValidRekey pkg0)
    (fun r _ =>
       if String.eqb (SigInfo r) "sig" then None
       else Some (ErrCollab "bad signature"))
    (IsLastModifiedBy pkg0) (CheckValidSuccessorForServer pkg0).

Definition forged (m : RootMetadata) : RootMetadataSigned :=
  mkRootMetadataSigned m "forged" 0.

End Example.

(** ** Predicates used by the statements *)

(** The taxonomy of the specification. *)
Definition isIntegrityError (e : error) : bool :=
  match e with
  | ErrMdIDMismatch _ _ | ErrWKBIDMismatch _ _ | ErrRKBIDMismatch _ _ => true
  | _ => false
  end.

Definition isMalformedRequest (e : error) : bool :=
  match e with ErrBundleIDsEmptyMismatch _ _ => true | _ => false end.

(** Two worlds with the same stores: they may differ in the access log only. *)
Definition same_store (w w' : World) : Prop :=
  branchJournals w' = branchJournals w /\
  files w' = files w /\
  dirs w' = dirs w /\
  journals w' = journals w /\
  now w' = now w.

(** A computation respects a relation on worlds when every run relates the
    world it starts in to the world it ends in. *)
Definition respects (R : World -> World -> Prop) {A} (m : M A) : Prop :=
  forall w r w', m w = (r, w') -> R w w'.

Definition is_read (op : FsOp) : bool :=
  match op with OpRead _ | OpJournalRead _ => true | _ => false end.

(** The accesses of [w'] are those of [w] preceded by accesses satisfying
    [P] (the log has the most recent access first). *)
Definition log_extends (P : FsOp -> Prop) (w w' : World) : Prop :=
  exists l, accesses w' = (l ++ accesses w)%list /\ Forall P l.

(** Below the directories of the key-bundle store. *)
Definition under_keybundles (s : mdServerTlfStorage) (p : path) : Prop :=
  filepath_Join (dir s) ["wkbv3"] `prefix_of` p \/
  filepath_Join (dir s) ["rkbv3"] `prefix_of` p.

Definition no_keybundle_write (s : mdServerTlfStorage) (op : FsOp) : Prop :=
  forall p, op = OpWrite p -> ~ under_keybundles s p.

(** No file below the key-bundle directories changes, and none is written. *)
Definition keybundles_untouched (s : mdServerTlfStorage) (w w' : World) : Prop :=
  (forall p, under_keybundles s p -> files w' p = files w p) /\
  log_extends (no_keybundle_write s) w w'.

(** Every error a computation can return satisfies [P]. *)
Definition errs (P : error -> Prop) {A} (m : M A) : Prop :=
  forall w e w', m w = (Err e, w') -> P e.

(** The errors [put] is specified to return: the shutdown error, the generic
    storage error around a leaf error, the two typed refusals, and the bare
    error of the successor check. *)
Definition put_error_specified (pkg : Package) (rmds : RootMetadataSigned)
  (e : error) : Prop :=
  e = errMDServerTlfStorageShutdown \/
  isMDServerError e = true \/
  (exists reason, e = MDServerErrorBadRequest reason) \/
  e = MDServerErrorUnauthorized \/
  (exists head headID,
     CheckValidSuccessorForServer pkg (MD head) headID (MD rmds) = Some e).

(** The handle of a branch, if the map has one. *)
Definition handle (w : World) (bid : BranchID) : option mdIDJournal :=
  match branchJournals w with
  | Some m => m !! bid
  | None => None
  end.

(** Every journal the map has a handle for holds at least one entry. *)
Definition handles_nonempty (w : World) : Prop :=
  forall bid j, handle w bid = Some j -> jEntries (journal_data w j) <> [].

(** Two worlds with the same journals and the same handles. *)
Definition same_journals (w w' : World) : Prop :=
  branchJournals w' = branchJournals w /\ journals w' = journals w.

(** A step from [w] to [w'] that keeps [handles_nonempty]. *)
Definition keeps_handles_nonempty (w w' : World) : Prop :=
  handles_nonempty w -> handles_nonempty w'.

(** The directory of the journal [put] appends to for a branch: that of the
    branch's handle, or, without a handle, the one a new handle gets. *)
Definition branch_dir (s : mdServerTlfStorage) (w : World) (bid : BranchID) :
  path :=
  match handle w bid with
  | Some j => jdir j
  | None => filepath_Join (branchJournalsPath s) [bid]
  end.

(** From [w] to [w'], files changed at most at the path of the object [rmds]
    and at the paths of its two bundles, journals at most in the directory
    [jd], and handles at most for the branch of [rmds]. *)
Definition within_footprint (s : mdServerTlfStorage) (rmds : RootMetadataSigned)
  (jd : path) (w w' : World) : Prop :=
  (forall q,
     q <> writerKeyBundleV3Path s (GetTLFWriterKeyBundleID (MD rmds)) ->
     q <> readerKeyBundleV3Path s (GetTLFReaderKeyBundleID (MD rmds)) ->
     (forall id, MakeMdID (crypto s) (MD rmds) = Ok id -> mdPath s id <> Ok q) ->
     files w' q = files w q) /\
  (forall d, d <> jd -> journals w' d = journals w d) /\
  (forall b, b <> BID (MD rmds) -> handle w' b = handle w b).

(** * Properties *)

(** ** The monad *)

Lemma bind_Ok {A B} (m : M A) (k : A -> M B) w a w1 :
  m w = (Ok a, w1) -> bind m k w = k a w1.
Proof. intros H. unfold bind. now rewrite H. Qed.

Lemma bind_Err {A B} (m : M A) (k : A -> M B) w e w1 :
  m w = (Err e, w1) -> bind m k w = (Err e, w1).
Proof. intros H. unfold bind. now rewrite H. Qed.

Lemma bind_Panic {A B} (m : M A) (k : A -> M B) w msg w1 :
  m w = (Panic msg, w1) -> bind m k w = (Panic msg, w1).
Proof. intros H. unfold bind. now rewrite H. Qed.

Lemma bind_inv {A B} (m : M A) (k : A -> M B) w r w' :
  bind m k w = (r, w') ->
  (exists a w1, m w = (Ok a, w1) /\ k a w1 = (r, w')) \/
  (exists e, m w = (Err e, w') /\ r = Err e) \/
  (exists msg, m w = (Panic msg, w') /\ r = Panic msg).
Proof.
  unfold bind. destruct (m w) as [[a | e | msg] w1]; intros H.
  - left. eauto.
  - right. left. inversion H. eauto.
  - right. right. inversion H. eauto.
Qed.

Lemma bind_inv_Ok {A B} (m : M A) (k : A -> M B) w b w' :
  bind m k w = (Ok b, w') ->
  exists a w1, m w = (Ok a, w1) /\ k a w1 = (Ok b, w').
Proof.
  intros H. apply bind_inv in H as [H | [[e [_ H]] | [msg [_ H]]]];
    [assumption | discriminate | discriminate].
Qed.

Lemma mapErr_Ok {A} f (m : M A) w a w1 :
  m w = (Ok a, w1) -> mapErr f m w = (Ok a, w1).
Proof. intros H. unfold mapErr. now rewrite H. Qed.

Lemma mapErr_Err {A} f (m : M A) w e w1 :
  m w = (Err e, w1) -> mapErr f m w = (Err (f e), w1).
Proof. intros H. unfold mapErr. now rewrite H. Qed.

Lemma mapErr_inv {A} f (m : M A) w r w' :
  mapErr f m w = (r, w') ->
  (exists a, m w = (Ok a, w') /\ r = Ok a) \/
  (exists e, m w = (Err e, w') /\ r = Err (f e)) \/
  (exists msg, m w = (Panic msg, w') /\ r = Panic msg).
Proof.
  unfold mapErr. destruct (m w) as [[a | e | msg] w1]; intros H;
    inversion H; subst; eauto 6.
Qed.

Lemma mapErr_inv_Ok {A} f (m : M A) w a w' :
  mapErr f m w = (Ok a, w') -> m w = (Ok a, w').
Proof.
  intros H. apply mapErr_inv in H as [[a' [H E]] | [[e [_ E]] | [msg [_ E]]]];
    [ | discriminate | discriminate].
  inversion E. now subst.
Qed.

Lemma attempt_inv {A} (m : M A) w r w' :
  attempt m w = (r, w') ->
  (exists a, m w = (Ok a, w') /\ r = Ok (inr a)) \/
  (exists e, m w = (Err e, w') /\ r = Ok (inl e)) \/
  (exists msg, m w = (Panic msg, w') /\ r = Panic msg).
Proof.
  unfold attempt. destruct (m w) as [[a | e | msg] w1]; intros H;
    inversion H; subst; eauto 6.
Qed.

(** A run is its outcome paired with the world it leaves. *)
Lemma run_eq {A} (m : M A) w r : fst (m w) = r -> m w = (r, after m w).
Proof. intros <-. unfold after. apply surjective_pairing. Qed.

Lemma open_by_computation w :
  match branchJournals w with Some _ => true | None => false end = true ->
  branchJournals w <> None.
Proof. destruct (branchJournals w); [discriminate | intros H _; discriminate]. Qed.

(** ** Computations that respect a relation on worlds *)

Section Respects.

Variable R : World -> World -> Prop.
Hypothesis R_refl : forall w, R w w.
Hypothesis R_trans : forall a b c, R a b -> R b c -> R a c.

Lemma respects_ret {A} (a : A) : respects R (ret a).
Proof. intros w r w' H. inversion H. apply R_refl. Qed.

Lemma respects_throw {A} e : respects R (@throw A e).
Proof. intros w r w' H. inversion H. apply R_refl. Qed.

Lemma respects_panic {A} msg : respects R (@panic A msg).
Proof. intros w r w' H. inversion H. apply R_refl. Qed.

Lemma respects_lift {A} (o : outcome A) : respects R (lift o).
Proof. intros w r w' H. inversion H. apply R_refl. Qed.

Lemma respects_gets {A} (f : World -> A) : respects R (gets f).
Proof. intros w r w' H. inversion H. apply R_refl. Qed.

Lemma respects_check o : respects R (check o).
Proof. destruct o; [apply respects_throw | apply respects_ret]. Qed.

Lemma respects_bind {A B} (m : M A) (k : A -> M B) :
  respects R m -> (forall a, respects R (k a)) -> respects R (bind m k).
Proof.
  intros Hm Hk w r w' H.
  apply bind_inv in H as [[a [w1 [H1 H2]]] | [[e [H1 _]] | [msg [H1 _]]]].
  - eapply R_trans; [eapply Hm | eapply Hk]; eassumption.
  - eapply Hm; eassumption.
  - eapply Hm; eassumption.
Qed.

Lemma respects_mapErr {A} f (m : M A) :
  respects R m -> respects R (mapErr f m).
Proof.
  intros Hm w r w' H.
  apply mapErr_inv in H as [[a [H1 _]] | [[e [H1 _]] | [msg [H1 _]]]];
    eapply Hm; eassumption.
Qed.

Lemma respects_attempt {A} (m : M A) :
  respects R m -> respects R (attempt m).
Proof.
  intros Hm w r w' H.
  apply attempt_inv in H as [[a [H1 _]] | [[e [H1 _]] | [msg [H1 _]]]];
    eapply Hm; eassumption.
Qed.

End Respects.

Create HintDb resp.

#[export] Hint Resolve respects_ret respects_throw respects_panic respects_lift
  respects_gets respects_check respects_mapErr respects_attempt : resp.

(** Splits a goal [respects R m] along the structure of [m]. *)
Ltac resp_side := solve [assumption | auto with resp].

Ltac resp_step :=
  match goal with
  | |- respects _ (bind _ _) => apply respects_bind; [resp_side | | intros ?]
  | |- respects _ (mapErr _ _) => apply respects_mapErr
  | |- respects _ (attempt _) => apply respects_attempt
  | |- respects _ (ret _) => apply respects_ret; resp_side
  | |- respects _ (throw _) => apply respects_throw; resp_side
  | |- respects _ (panic _) => apply respects_panic; resp_side
  | |- respects _ (lift _) => apply respects_lift; resp_side
  | |- respects _ (gets _) => apply respects_gets; resp_side
  | |- respects _ (check _) => apply respects_check; resp_side
  | |- respects _ (match ?x with _ => _ end) => destruct x
  | |- respects _ (if ?x then _ else _) => destruct x
  end.

Ltac resp := repeat (cbv zeta; resp_step); try solve [eauto with resp].

(** ** The reading functions change nothing but the access log

    Stated for any reflexive and transitive relation that holds between a
    world and itself with one more read logged. *)

Section ReadOnly.

Variable pkg : Package.
Variable s : mdServerTlfStorage.
Variable R : World -> World -> Prop.
Hypothesis R_refl : forall w, R w w.
Hypothesis R_trans : forall a b c, R a b -> R b c -> R a c.
Hypothesis R_read : forall op w, is_read op = true -> R w (logged op w).

Lemma respects_DeserializeFromFile p : respects R (DeserializeFromFile p).
Proof.
  intros w r w' H. unfold DeserializeFromFile in H.
  destruct (files w p); inversion H; now apply R_read.
Qed.

Lemma respects_journal_length j : respects R (journal_length j).
Proof. intros w r w' H. inversion H. now apply R_read. Qed.

Lemma respects_journal_getLatestEntry j :
  respects R (journal_getLatestEntry j).
Proof. intros w r w' H. inversion H. now apply R_read. Qed.

Lemma respects_journal_getEntryRange j a b :
  respects R (journal_getEntryRange j a b).
Proof.
  intros w r w' H. unfold journal_getEntryRange in H.
  destruct (jEntries (journal_data w j)); [ | destruct (_ <? _)];
    inversion H; now apply R_read.
Qed.

Lemma respects_asRMDS p d : respects R (asRMDS p d).
Proof. unfold asRMDS. resp. Qed.

Lemma respects_asWKB p d : respects R (asWKB p d).
Proof. unfold asWKB. resp. Qed.

Lemma respects_asRKB p d : respects R (asRKB p d).
Proof. unfold asRKB. resp. Qed.

Hint Resolve respects_DeserializeFromFile respects_journal_length
  respects_journal_getLatestEntry respects_journal_getEntryRange
  respects_asRMDS respects_asWKB respects_asRKB : resp.

Lemma respects_getMDReadLocked id : respects R (getMDReadLocked s id).
Proof. unfold getMDReadLocked. resp. Qed.

Lemma respects_lookupBranchJournal bid : respects R (lookupBranchJournal bid).
Proof. unfold lookupBranchJournal. resp. Qed.

Hint Resolve respects_getMDReadLocked respects_lookupBranchJournal : resp.

Lemma respects_getHeadForTLFReadLocked bid :
  respects R (getHeadForTLFReadLocked s bid).
Proof. unfold getHeadForTLFReadLocked. resp. Qed.

Lemma respects_checkKeyBundlesV3 c wkbID rkbID wkb rkb :
  respects R (checkKeyBundlesV3 c wkbID rkbID wkb rkb).
Proof. unfold checkKeyBundlesV3. resp. Qed.

Hint Resolve respects_getHeadForTLFReadLocked respects_checkKeyBundlesV3 : resp.

Lemma respects_getKeyBundlesReadLocked wkbID rkbID :
  respects R (getKeyBundlesReadLocked s wkbID rkbID).
Proof. unfold getKeyBundlesReadLocked. resp. Qed.

Hint Resolve respects_getKeyBundlesReadLocked : resp.

Lemma respects_getExtraMetadataReadLocked wkbID rkbID :
  respects R (getExtraMetadataReadLocked s wkbID rkbID).
Proof. unfold getExtraMetadataReadLocked. resp. Qed.

Hint Resolve respects_getExtraMetadataReadLocked : resp.

Lemma respects_checkGetParamsReadLocked uid bid :
  respects R (checkGetParamsReadLocked pkg s uid bid).
Proof. unfold checkGetParamsReadLocked. resp. Qed.

Lemma respects_getRange_loop entries : forall realStart i rmdses,
  respects R (getRange_loop s realStart i entries rmdses).
Proof.
  induction entries as [ | entry rest IH]; intros realStart i rmdses; simpl.
  - resp.
  - resp.
Qed.

Hint Resolve respects_checkGetParamsReadLocked respects_getRange_loop : resp.

Lemma respects_getRangeReadLocked uid bid start stop :
  respects R (getRangeReadLocked pkg s uid bid start stop).
Proof. unfold getRangeReadLocked. resp. Qed.

Hint Resolve respects_getRangeReadLocked : resp.

Lemma respects_isShutdownReadLocked : respects R isShutdownReadLocked.
Proof. unfold isShutdownReadLocked. resp. Qed.

Hint Resolve respects_isShutdownReadLocked : resp.

Lemma respects_journalLength bid : respects R (journalLength bid).
Proof. unfold journalLength. resp. Qed.

Lemma respects_getForTLF uid bid : respects R (getForTLF pkg s uid bid).
Proof. unfold getForTLF. resp. Qed.

Lemma respects_getRange uid bid start stop :
  respects R (getRange pkg s uid bid start stop).
Proof. unfold getRange. resp. Qed.

Lemma respects_getKeyBundles wkbID rkbID :
  respects R (getKeyBundles s wkbID rkbID).
Proof. unfold getKeyBundles. resp. Qed.

Lemma respects_put_resolveExtra rmds extra :
  respects R (put_resolveExtra s rmds extra).
Proof. unfold put_resolveExtra. resp. Qed.

Lemma respects_put_validate uid key rmds extra :
  respects R (put_validate pkg uid key rmds extra).
Proof. unfold put_validate. resp. Qed.

Lemma respects_put_checkPermissions uid rmds extra :
  respects R (put_checkPermissions pkg s uid rmds extra).
Proof. unfold put_checkPermissions. resp. Qed.

Lemma respects_put_comparisonHead uid rmds :
  respects R (put_comparisonHead pkg s uid rmds).
Proof. unfold put_comparisonHead. resp. Qed.

Lemma respects_put_checkSuccessor head rmds :
  respects R (put_checkSuccessor pkg s head rmds).
Proof. unfold put_checkSuccessor. resp. Qed.

Hint Resolve respects_put_resolveExtra respects_put_validate
  respects_put_checkPermissions respects_put_comparisonHead
  respects_put_checkSuccessor : resp.

Lemma respects_put_resolve uid key rmds extra :
  respects R (put_resolve pkg s uid key rmds extra).
Proof. unfold put_resolve. resp. Qed.

End ReadOnly.

(** ** [same_store] is such a relation *)

Lemma same_store_refl w : same_store w w.
Proof. repeat split. Qed.

Lemma same_store_trans a b c : same_store a b -> same_store b c -> same_store a c.
Proof.
  unfold same_store. intros (?&?&?&?&?) (?&?&?&?&?).
  repeat split; congruence.
Qed.

Lemma same_store_logged op w : same_store w (logged op w).
Proof. repeat split. Qed.

Lemma same_store_read op w : is_read op = true -> same_store w (logged op w).
Proof. intros _. apply same_store_logged. Qed.

#[export] Hint Resolve same_store_refl same_store_trans same_store_read : resp.

Lemma same_store_handle w w' bid :
  same_store w w' -> handle w' bid = handle w bid.
Proof. intros (Hb & _). unfold handle. now rewrite Hb. Qed.

Lemma same_store_journal_data w w' j :
  same_store w w' -> journal_data w' j = journal_data w j.
Proof. intros (_ & _ & _ & Hj & _). unfold journal_data. now rewrite Hj. Qed.

(** The part of [put] before the successor check only reads. *)
Lemma put_resolve_same_store pkg s uid key rmds extra w r w' :
  put_resolve pkg s uid key rmds extra w = (r, w') -> same_store w w'.
Proof.
  apply (respects_put_resolve pkg s same_store same_store_refl
           same_store_trans same_store_read).
Qed.

(** ** After shutdown *)

Section Shutdown.

Variable pkg : Package.
Variable s : mdServerTlfStorage.

Lemma shutdown_clears_map w :
  exists w', shutdown w = (Ok tt, w') /\ branchJournals w' = None /\
             files w' = files w /\ journals w' = journals w /\
             accesses w' = accesses w.
Proof. eexists. repeat split. Qed.

Lemma journalLength_after_shutdown bid w :
  branchJournals w = None ->
  journalLength bid w = (Err errMDServerTlfStorageShutdown, w).
Proof.
  intros H. unfold journalLength, bind, isShutdownReadLocked, gets.
  now rewrite H.
Qed.

Lemma getForTLF_after_shutdown uid bid w :
  branchJournals w = None ->
  getForTLF pkg s uid bid w = (Err errMDServerTlfStorageShutdown, w).
Proof.
  intros H. unfold getForTLF, bind, isShutdownReadLocked, gets.
  now rewrite H.
Qed.

Lemma getRange_after_shutdown uid bid start stop w :
  branchJournals w = None ->
  getRange pkg s uid bid start stop w = (Err errMDServerTlfStorageShutdown, w).
Proof.
  intros H. unfold getRange, bind, isShutdownReadLocked, gets.
  now rewrite H.
Qed.

Lemma put_after_shutdown uid key rmds extra w :
  branchJournals w = None ->
  put pkg s uid key rmds extra w = (Err errMDServerTlfStorageShutdown, w).
Proof.
  intros H. unfold put, bind, isShutdownReadLocked, gets.
  now rewrite H.
Qed.

End Shutdown.

(** Runs a computation forward along equations in the context. *)
Ltac run_step :=
  first
    [ erewrite bind_Ok by (first [eassumption | apply mapErr_Ok; eassumption])
    | erewrite bind_Err by (first [eassumption | apply mapErr_Err; eassumption])
    | erewrite mapErr_Ok by eassumption
    | erewrite mapErr_Err by eassumption ].

Ltac run := repeat (run_step; cbv beta iota zeta).

(** C1 (code defect).  The specification wants every operation to answer
    ShutdownError after [shutdown] and to leave the file system alone.
    [journalLength], [getForTLF], [getRange] and [put] do (lemmas
    [journalLength_after_shutdown] to [put_after_shutdown]);
    [getKeyBundles] has no such check: after [shutdown] it answers "absent"
    without error for two empty ids, and for the ids of stored bundles it
    reads both files and returns the pair. *)
Theorem getKeyBundles_ignores_shutdown :
  (forall s w,
     branchJournals (after shutdown w) = None /\
     getKeyBundles s "" "" (after shutdown w) = (Ok None, after shutdown w)) /\
  (let w := after shutdown Example.wk in
   fst (getKeyBundles Example.s0 "01w" "01r" w) =
     Ok (Some (Example.wkb0, Example.rkb0)) /\
   firstn 2 (accesses (after (getKeyBundles Example.s0 "01w" "01r") w)) =
     [OpRead ["tlf"; "rkbv3"; "01r"]; OpRead ["tlf"; "wkbv3"; "01w"]] /\
   length (accesses (after (getKeyBundles Example.s0 "01w" "01r") w)) =
     S (S (length (accesses w)))).
Proof.
  split.
  - intros s w. split; reflexivity.
  - cbv zeta. split; [ | split]; vm_compute; reflexivity.
Qed.

(** ** The write path rejects a non-successor without side effects *)

(** C2.  When the metadata given to [put] fails the successor check against
    the comparison head [put] resolved, [put] returns that error, and the
    object store and key-bundle store (the files), every branch journal (the
    journal directories) and the map of journal handles are what they were
    before the call. *)
Theorem put_rejected_successor_changes_nothing
  pkg s uid key rmds extra w extra' head recordBranchID w1 headID e :
  branchJournals w <> None ->
  put_resolve pkg s uid key rmds extra w =
    (Ok (extra', (Some head, recordBranchID)), w1) ->
  MakeMdID (crypto s) (MD head) = Ok headID ->
  CheckValidSuccessorForServer pkg (MD head) headID (MD rmds) = Some e ->
  put pkg s uid key rmds extra w = (Err e, w1) /\
  files w1 = files w /\
  dirs w1 = dirs w /\
  journals w1 = journals w /\
  branchJournals w1 = branchJournals w.
Proof.
  intros Hopen Hres Hid Hchk.
  split.
  - unfold put. unfold bind at 1, isShutdownReadLocked, gets.
    destruct (branchJournals w) as [m | ] eqn:Hm; [ | congruence].
    run. cbn [fst snd].
    unfold put_checkSuccessor, bind, mapErr, lift, check.
    now rewrite Hid, Hchk.
  - apply put_resolve_same_store in Hres.
    destruct Hres as (? & ? & ? & ? & ?). auto.
Qed.

Lemma put_rejected_successor_changes_nothing_witness :
  let w1 := after (put_resolve Example.pkg0 Example.s0 "alice" "key"
                     (Example.signed Example.md5) None) Example.w2 in
  put Example.pkg0 Example.s0 "alice" "key" (Example.signed Example.md5) None
      Example.w2 = (Err (ErrCollab "MDRevisionMismatch"), w1) /\
  files w1 = files Example.w2 /\
  dirs w1 = dirs Example.w2 /\
  journals w1 = journals Example.w2 /\
  branchJournals w1 = branchJournals Example.w2.
Proof.
  apply (put_rejected_successor_changes_nothing
           Example.pkg0 Example.s0 "alice" "key" (Example.signed Example.md5)
           None Example.w2 None (Example.signed Example.md2) false
           (after (put_resolve Example.pkg0 Example.s0 "alice" "key"
                     (Example.signed Example.md5) None) Example.w2)
           "0100r2" (ErrCollab "MDRevisionMismatch")).
  - apply open_by_computation. vm_compute. reflexivity.
  - apply run_eq. vm_compute. reflexivity.
  - reflexivity.
  - reflexivity.
Defined.

(** ** Reading key bundles *)

Lemma eqb_empty_false (x : string) : x <> "" -> String.eqb x "" = false.
Proof. intros H. now apply String.eqb_neq. Qed.

(** C3.  The key-bundle read, for every pair of ids.  Both empty: "absent",
    no error, nothing read.  Exactly one empty: a malformed-request error.
    Both non-empty, with both bundles stored at their paths: both files are
    read and each content address is recomputed; when one of them differs
    from the requested id the result is an integrity error, otherwise it is
    the pair of bundles. *)
Theorem getKeyBundlesReadLocked_cases s wkbID rkbID w :
  (wkbID = "" -> rkbID = "" ->
   getKeyBundlesReadLocked s wkbID rkbID w = (Ok None, w)) /\
  ((wkbID = "" /\ rkbID <> "") \/ (wkbID <> "" /\ rkbID = "") ->
   exists e, getKeyBundlesReadLocked s wkbID rkbID w = (Err e, w) /\
             isMalformedRequest e = true) /\
  (wkbID <> "" -> rkbID <> "" ->
   forall wkb rkb computedWKBID computedRKBID,
     files w (writerKeyBundleV3Path s wkbID) = Some (FileWKB wkb) ->
     files w (readerKeyBundleV3Path s rkbID) = Some (FileRKB rkb) ->
     MakeTLFWriterKeyBundleID (crypto s) wkb = Ok computedWKBID ->
     MakeTLFReaderKeyBundleID (crypto s) rkb = Ok computedRKBID ->
     let w' := logged (OpRead (readerKeyBundleV3Path s rkbID))
                 (logged (OpRead (writerKeyBundleV3Path s wkbID)) w) in
     (computedWKBID = wkbID -> computedRKBID = rkbID ->
      getKeyBundlesReadLocked s wkbID rkbID w = (Ok (Some (wkb, rkb)), w')) /\
     (computedWKBID <> wkbID \/ computedRKBID <> rkbID ->
      exists e, getKeyBundlesReadLocked s wkbID rkbID w = (Err e, w') /\
                isIntegrityError e = true)).
Proof.
  split; [ | split].
  - intros -> ->. reflexivity.
  - intros [[-> Hr] | [Hw ->]]; unfold getKeyBundlesReadLocked.
    + rewrite (eqb_empty_false _ Hr). simpl. eexists. split; reflexivity.
    + rewrite (eqb_empty_false _ Hw). simpl. eexists. split; reflexivity.
  - intros Hw Hr wkb rkb cw cr Fw Fr Cw Cr w'. subst w'.
    assert (Hrun : forall k,
      (wkb' <- (d <- DeserializeFromFile (writerKeyBundleV3Path s wkbID) ;;
                asWKB (writerKeyBundleV3Path s wkbID) d) ;;
       rkb' <- (d <- DeserializeFromFile (readerKeyBundleV3Path s rkbID) ;;
                asRKB (readerKeyBundleV3Path s rkbID) d) ;;
       k wkb' rkb') w =
      k wkb rkb (logged (OpRead (readerKeyBundleV3Path s rkbID))
                   (logged (OpRead (writerKeyBundleV3Path s wkbID)) w))
      :> outcome (option (TLFWriterKeyBundleV3 * TLFReaderKeyBundleV3)) * World).
    { intros k. unfold bind, DeserializeFromFile. rewrite Fw. simpl.
      now rewrite Fr. }
    unfold getKeyBundlesReadLocked.
    rewrite (eqb_empty_false _ Hw), (eqb_empty_false _ Hr). simpl.
    rewrite Hrun. unfold checkKeyBundlesV3, bind, lift. rewrite Cw, Cr.
    split.
    + intros -> ->. now rewrite !String.eqb_refl.
    + intros Hne.
      destruct (String.eqb_spec wkbID cw) as [-> | Hw'].
      * destruct (String.eqb_spec rkbID cr) as [-> | Hr'].
        { destruct Hne; congruence. }
        simpl. eexists. split; reflexivity.
      * simpl. eexists. split; reflexivity.
Qed.

Lemma getKeyBundlesReadLocked_cases_witness :
  getKeyBundlesReadLocked Example.s0 "" "" Example.wk = (Ok None, Example.wk) /\
  (exists e, getKeyBundlesReadLocked Example.s0 "" "01r" Example.wk
             = (Err e, Example.wk) /\ isMalformedRequest e = true) /\
  getKeyBundlesReadLocked Example.s0 "01w" "01r" Example.wk =
    (Ok (Some (Example.wkb0, Example.rkb0)),
     logged (OpRead (readerKeyBundleV3Path Example.s0 "01r"))
       (logged (OpRead (writerKeyBundleV3Path Example.s0 "01w")) Example.wk)).
Proof.
  split; [ | split].
  - apply (getKeyBundlesReadLocked_cases Example.s0 "" "" Example.wk);
      reflexivity.
  - apply (getKeyBundlesReadLocked_cases Example.s0 "" "01r" Example.wk).
    left. split; [reflexivity | discriminate].
  - apply (proj2 (proj2 (getKeyBundlesReadLocked_cases Example.s0 "01w" "01r"
                           Example.wk))
             ltac:(discriminate) ltac:(discriminate)
             Example.wkb0 Example.rkb0 "01w" "01r");
      try (vm_compute; reflexivity); reflexivity.
Defined.

(** ** The authorization gate of the read path *)

Lemma checkGetParamsReadLocked_unauthorized pkg s uid bid w head w1 extra w2 :
  getHeadForTLFReadLocked s NullBranchID w = (Ok (Some head), w1) ->
  getExtraMetadataReadLocked s (GetTLFWriterKeyBundleID (MD head))
    (GetTLFReaderKeyBundleID (MD head)) w1 = (Ok extra, w2) ->
  isReader pkg uid (MD head) extra = Ok false ->
  checkGetParamsReadLocked pkg s uid bid w = (Err MDServerErrorUnauthorized, w2).
Proof.
  intros H1 H2 H3. unfold checkGetParamsReadLocked. run.
  unfold bind, mapErr, lift. now rewrite H3.
Qed.

Lemma checkGetParamsReadLocked_no_head pkg s uid bid w w1 :
  getHeadForTLFReadLocked s NullBranchID w = (Ok None, w1) ->
  checkGetParamsReadLocked pkg s uid bid w = (Ok tt, w1).
Proof. intros H1. unfold checkGetParamsReadLocked. run. reflexivity. Qed.

Lemma not_shutdown_run {A} (k : bool -> M A) w :
  branchJournals w <> None ->
  (sd <- isShutdownReadLocked ;; k sd) w = k false w.
Proof.
  intros H. unfold bind at 1, isShutdownReadLocked, gets.
  destruct (branchJournals w); [reflexivity | congruence].
Qed.

(** C4.  The gate does not look at the requested branch.  When the merged
    history (the null branch) has a head and the caller is not a reader of
    that head's metadata and bundles, [getForTLF] and [getRange] both return
    Unauthorized; when the merged history has no head, the gate lets any
    caller through. *)
Theorem read_gate_unauthorized pkg s uid bid start stop w :
  branchJournals w <> None ->
  (forall head w1 extra w2,
     getHeadForTLFReadLocked s NullBranchID w = (Ok (Some head), w1) ->
     getExtraMetadataReadLocked s (GetTLFWriterKeyBundleID (MD head))
       (GetTLFReaderKeyBundleID (MD head)) w1 = (Ok extra, w2) ->
     isReader pkg uid (MD head) extra = Ok false ->
     getForTLF pkg s uid bid w = (Err MDServerErrorUnauthorized, w2) /\
     getRange pkg s uid bid start stop w = (Err MDServerErrorUnauthorized, w2)) /\
  (forall w1,
     getHeadForTLFReadLocked s NullBranchID w = (Ok None, w1) ->
     checkGetParamsReadLocked pkg s uid bid w = (Ok tt, w1)).
Proof.
  intros Hopen. split.
  - intros head w1 extra w2 H1 H2 H3.
    pose proof (checkGetParamsReadLocked_unauthorized pkg s uid bid _ _ _ _ _
                  H1 H2 H3) as Hgate.
    split.
    + unfold getForTLF. rewrite not_shutdown_run by assumption.
      now rewrite (bind_Err _ _ _ _ _ Hgate).
    + unfold getRange. rewrite not_shutdown_run by assumption.
      unfold getRangeReadLocked. now rewrite (bind_Err _ _ _ _ _ Hgate).
  - intros w1 H1. now apply checkGetParamsReadLocked_no_head.
Qed.

Lemma read_gate_unauthorized_witness :
  let w1 := after (getHeadForTLFReadLocked Example.s0 NullBranchID)
              Example.w2 in
  let w2 := after (getExtraMetadataReadLocked Example.s0 "" "") w1 in
  (getForTLF Example.pkg0 Example.s0 "carol" Example.branch Example.w2 =
     (Err MDServerErrorUnauthorized, w2) /\
   getRange Example.pkg0 Example.s0 "carol" Example.branch 1 2 Example.w2 =
     (Err MDServerErrorUnauthorized, w2)) /\
  checkGetParamsReadLocked Example.pkg0 Example.s0 "carol" Example.branch
    Example.w0 =
    (Ok tt, after (getHeadForTLFReadLocked Example.s0 NullBranchID) Example.w0).
Proof.
  split.
  - apply (proj1 (read_gate_unauthorized Example.pkg0 Example.s0 "carol"
                    Example.branch 1 2 Example.w2
                    (open_by_computation Example.w2 ltac:(vm_compute; reflexivity)))
             (Example.signed Example.md2)
             (after (getHeadForTLFReadLocked Example.s0 NullBranchID)
                Example.w2)
             None).
    + apply run_eq. vm_compute. reflexivity.
    + apply (run_eq (getExtraMetadataReadLocked Example.s0 "" "")).
      vm_compute. reflexivity.
    + reflexivity.
  - apply (proj2 (read_gate_unauthorized Example.pkg0 Example.s0 "carol"
                    Example.branch 1 2 Example.w0
                    (open_by_computation Example.w0 ltac:(reflexivity)))).
    apply run_eq. reflexivity.
Defined.

(** ** The object store *)

Section ObjectStore.

Variable s : mdServerTlfStorage.

(** Unfolds [getMDReadLocked] down to the file lookup. *)
Ltac unfold_getMD :=
  unfold getMDReadLocked, bind, lift, DeserializeFromFile, asRMDS, throw, ret.

(** The outcome of [getMDReadLocked] depends on the files only. *)
Lemma getMDReadLocked_files id w w' :
  files w' = files w ->
  fst (getMDReadLocked s id w') = fst (getMDReadLocked s id w).
Proof.
  intros Hf. unfold_getMD. destruct (mdPath s id) as [p | e | msg]; try reflexivity.
  rewrite Hf. destruct (files w p) as [[srmds | wkb | rkb] | ]; try reflexivity.
  destruct (DecodeRootMetadataSigned _ _ _ _ _ _) as [rmds | e | msg];
    try reflexivity.
  destruct (MakeMdID _ _) as [mdID | e | msg]; try reflexivity.
  destruct (negb _); reflexivity.
Qed.

(** It reads one file, the one at [mdPath id], unless [mdPath] panics. *)
Lemma getMDReadLocked_world id w :
  snd (getMDReadLocked s id w) =
  match mdPath s id with
  | Ok p => logged (OpRead p) w
  | _ => w
  end.
Proof.
  unfold_getMD. destruct (mdPath s id) as [p | e | msg]; try reflexivity.
  destruct (files w p) as [[srmds | wkb | rkb] | ]; try reflexivity.
  destruct (DecodeRootMetadataSigned _ _ _ _ _ _) as [rmds | e | msg];
    try reflexivity.
  destruct (MakeMdID _ _) as [mdID | e | msg]; try reflexivity.
  destruct (negb _); reflexivity.
Qed.

Lemma getMDReadLocked_Ok_inv id w rmds w' :
  getMDReadLocked s id w = (Ok rmds, w') ->
  exists p srmds,
    mdPath s id = Ok p /\
    files w p = Some (FileRMDS srmds) /\
    DecodeRootMetadataSigned (codec s) (tlfID s) (SVersion srmds) (mdVer s)
      (EncodedRMDS srmds) (Timestamp srmds) = Ok rmds /\
    MakeMdID (crypto s) (MD rmds) = Ok id /\
    w' = logged (OpRead p) w.
Proof.
  unfold_getMD. destruct (mdPath s id) as [p | e | msg]; try discriminate.
  destruct (files w p) as [[srmds | wkb | rkb] | ] eqn:Hf; try discriminate.
  destruct (DecodeRootMetadataSigned _ _ _ _ _ _) as [r | e | msg] eqn:Hd;
    try discriminate.
  destruct (MakeMdID _ _) as [mdID | e | msg] eqn:Hm; try discriminate.
  destruct (String.eqb_spec id mdID) as [-> | Hne]; simpl; try discriminate.
  intros H. inversion H; subst. exists p, srmds. auto.
Qed.

(** C7.  [getMDReadLocked], for every id whose text is long enough to be
    split into directory and file name.  It reads the envelope at the path
    derived from the id.  With no file there, it fails with the not-exist
    error (NotFound).  With an envelope there, it decodes it and recomputes
    the content address of the decoded metadata: a different address is an
    integrity error, the same address returns the decoded object. *)
Theorem getMDReadLocked_cases id p w :
  mdPath s id = Ok p ->
  p = filepath_Join (mdsPath s)
        [substring 0 4 id; substring 4 (String.length id - 4) id] /\
  (files w p = None ->
   getMDReadLocked s id w = (Err (ErrNotExist p), logged (OpRead p) w) /\
   os_IsNotExist (ErrNotExist p) = true) /\
  (forall srmds rmds mdID,
     files w p = Some (FileRMDS srmds) ->
     DecodeRootMetadataSigned (codec s) (tlfID s) (SVersion srmds) (mdVer s)
       (EncodedRMDS srmds) (Timestamp srmds) = Ok rmds ->
     MakeMdID (crypto s) (MD rmds) = Ok mdID ->
     (mdID <> id ->
      exists e, getMDReadLocked s id w = (Err e, logged (OpRead p) w) /\
                isIntegrityError e = true) /\
     (mdID = id ->
      getMDReadLocked s id w = (Ok rmds, logged (OpRead p) w))).
Proof.
  intros Hp. split; [ | split].
  - unfold mdPath in Hp. destruct (_ <? _)%nat; [discriminate | ].
    now inversion Hp.
  - intros Hf. split; [ | reflexivity].
    unfold_getMD. now rewrite Hp, Hf.
  - intros srmds rmds mdID Hf Hd Hm. split.
    + intros Hne. exists (ErrMdIDMismatch id mdID). split; [ | reflexivity].
      unfold_getMD. rewrite Hp, Hf, Hd, Hm.
      destruct (String.eqb_spec id mdID); [congruence | reflexivity].
    + intros ->. unfold_getMD. rewrite Hp, Hf, Hd, Hm.
      now rewrite String.eqb_refl.
Qed.

End ObjectStore.

Lemma lift_inv {A} (o : outcome A) w r w' :
  lift o w = (r, w') -> o = r /\ w' = w.
Proof. unfold lift. intros H. now inversion H. Qed.

Lemma ret_inv {A} (a : A) w r w' : ret a w = (r, w') -> r = Ok a /\ w' = w.
Proof. unfold ret. intros H. now inversion H. Qed.

Lemma SerializeToFile_Ok_inv d p w w' :
  SerializeToFile d p w = (Ok tt, w') ->
  files w' = <[p := Some d]> (files w) /\
  journals w' = journals w /\
  branchJournals w' = branchJournals w /\
  now w' = now w /\
  accesses w' = OpWrite p :: accesses w.
Proof.
  unfold SerializeToFile. destruct (find _ _); [discriminate | ].
  intros H. inversion H. repeat split.
Qed.

Section ObjectStorePut.

Variable s : mdServerTlfStorage.

(** The id [putMDLocked] returns is the content address of the metadata. *)
Lemma putMDLocked_returns_hash rmds w id w' :
  putMDLocked s rmds w = (Ok id, w') ->
  MakeMdID (crypto s) (MD rmds) = Ok id.
Proof.
  unfold putMDLocked. intros H.
  apply bind_inv_Ok in H as (id0 & w0 & Hmk & H).
  apply lift_inv in Hmk as [Hmk ->].
  apply bind_inv_Ok in H as (r & w1 & _ & H).
  destruct r as [err | stored].
  - destruct (os_IsNotExist err); [ | discriminate].
    apply bind_inv_Ok in H as (bytes & w2 & _ & H).
    apply bind_inv_Ok in H as (t & w3 & _ & H).
    apply bind_inv_Ok in H as (p & w4 & _ & H).
    apply bind_inv_Ok in H as (u & w5 & _ & H).
    apply ret_inv in H as [H _]. congruence.
  - apply ret_inv in H as [H _]. congruence.
Qed.

(** An object already stored is not written again. *)
Lemma putMDLocked_present rmds id stored w w1 :
  MakeMdID (crypto s) (MD rmds) = Ok id ->
  getMDReadLocked s id w = (Ok stored, w1) ->
  putMDLocked s rmds w = (Ok id, w1).
Proof.
  intros Hmk Hget. unfold putMDLocked.
  unfold bind at 1, lift. rewrite Hmk.
  unfold bind at 1, attempt. now rewrite Hget.
Qed.

(** What a successful [putMDLocked] leaves: either the object was there and
    only a read happened, or its envelope is now at [mdPath id]. *)
Lemma putMDLocked_Ok_inv rmds w id w1 :
  putMDLocked s rmds w = (Ok id, w1) ->
  exists p, mdPath s id = Ok p /\
    ((exists stored, getMDReadLocked s id w = (Ok stored, w1)) \/
     (exists bytes,
        EncodeRootMetadataSigned (codec s) rmds = Ok bytes /\
        files w1 =
          <[p := Some (FileRMDS (mkSerializedRMDS bytes (now w)
                                   (Version (MD rmds))))]> (files w) /\
        journals w1 = journals w /\
        branchJournals w1 = branchJournals w /\
        accesses w1 = OpWrite p :: OpRead p :: accesses w)).
Proof.
  intros H. pose proof (putMDLocked_returns_hash _ _ _ _ H) as Hmk.
  unfold putMDLocked in H.
  apply bind_inv_Ok in H as (id0 & w0 & Hmk0 & H).
  apply lift_inv in Hmk0 as [Hmk0 ->].
  assert (id0 = id) as -> by congruence.
  apply bind_inv_Ok in H as (r & wa & Hatt & H).
  apply attempt_inv in Hatt
    as [(a & Hget & Hr) | [(e & Hget & Hr) | (msg & _ & Hr)]];
    [ | | discriminate]; inversion Hr; subst r; clear Hr.
  - apply ret_inv in H as [_ ->].
    destruct (getMDReadLocked_Ok_inv _ _ _ _ _ Hget) as (p & _ & Hp & _).
    exists p. split; [assumption | ]. left. eauto.
  - destruct (os_IsNotExist e); [ | discriminate].
    apply bind_inv_Ok in H as (bytes & w2 & Henc & H).
    apply lift_inv in Henc as [Henc ->].
    apply bind_inv_Ok in H as (t & w3 & Hnow & H).
    inversion Hnow; subst t w3; clear Hnow.
    apply bind_inv_Ok in H as (p & w4 & Hp & H).
    apply lift_inv in Hp as [Hp ->].
    apply bind_inv_Ok in H as (u & w5 & Hser & H).
    apply ret_inv in H as [_ ->]. destruct u.
    apply SerializeToFile_Ok_inv in Hser as (Hf & Hj & Hb & Hn & Ha).
    pose proof (getMDReadLocked_world s id w) as Hw.
    rewrite Hget, Hp in Hw. simpl in Hw. subst wa.
    exists p. split; [assumption | ]. right. exists bytes.
    repeat split; assumption.
Qed.

(** C6.  The object store's put is content-addressed and idempotent.  The id
    it returns is the content address of the metadata.  When an object with
    that id is stored already, it returns the id after reading only.  Hence,
    for a codec that decodes what it encoded, putting the same metadata a
    second time returns the same id and writes nothing: the two puts
    together changed at most the one file at the object's path. *)
Theorem putMDLocked_content_addressed rmds w :
  (forall id w1, putMDLocked s rmds w = (Ok id, w1) ->
     MakeMdID (crypto s) (MD rmds) = Ok id) /\
  (forall id stored w1,
     MakeMdID (crypto s) (MD rmds) = Ok id ->
     getMDReadLocked s id w = (Ok stored, w1) ->
     putMDLocked s rmds w = (Ok id, w1) /\
     files w1 = files w /\
     exists p, mdPath s id = Ok p /\ accesses w1 = OpRead p :: accesses w) /\
  (forall id w1 rmds',
     MD rmds' = MD rmds ->
     (forall bytes t,
        EncodeRootMetadataSigned (codec s) rmds = Ok bytes ->
        exists back,
          DecodeRootMetadataSigned (codec s) (tlfID s) (Version (MD rmds))
            (mdVer s) bytes t = Ok back /\
          MD back = MD rmds) ->
     putMDLocked s rmds w = (Ok id, w1) ->
     exists p w2,
       mdPath s id = Ok p /\
       putMDLocked s rmds' w1 = (Ok id, w2) /\
       files w2 = files w1 /\
       accesses w2 = OpRead p :: accesses w1 /\
       (exists d, files w2 p = Some d) /\
       (forall q, q <> p -> files w2 q = files w q)).
Proof.
  split; [ | split].
  - intros id w1. apply putMDLocked_returns_hash.
  - intros id stored w1 Hmk Hget. split.
    + eapply putMDLocked_present; eassumption.
    + destruct (getMDReadLocked_Ok_inv _ _ _ _ _ Hget)
        as (p & srmds & Hp & _ & _ & _ & ->).
      split; [reflexivity | ]. exists p. split; [assumption | reflexivity].
  - intros id w1 rmds' Hmd Hround Hput.
    pose proof (putMDLocked_returns_hash _ _ _ _ Hput) as Hmk.
    destruct (putMDLocked_Ok_inv _ _ _ _ Hput)
      as (p & Hp & [(stored & Hget) | (bytes & Henc & Hf & Hj & Hb & Ha)]).
    + (* the object was there before the first put *)
      destruct (getMDReadLocked_Ok_inv _ _ _ _ _ Hget)
        as (p' & srmds & Hp' & Hfile & Hdec & Hid & ->).
      assert (p' = p) as -> by congruence.
      assert (Hget2 : getMDReadLocked s id (logged (OpRead p) w) =
                      (Ok stored, logged (OpRead p) (logged (OpRead p) w))).
      { rewrite (surjective_pairing (getMDReadLocked s id _)).
        rewrite (getMDReadLocked_files s id w (logged (OpRead p) w)) by reflexivity.
        rewrite getMDReadLocked_world, Hp, Hget. reflexivity. }
      exists p, (logged (OpRead p) (logged (OpRead p) w)).
      split; [assumption | ]. split.
      { eapply putMDLocked_present; [ | exact Hget2]. now rewrite Hmd. }
      repeat split. exists (FileRMDS srmds). exact Hfile.
    + (* the first put wrote the envelope *)
      destruct (Hround bytes (now w) Henc) as (back & Hdec & Hback).
      assert (Hfile : files w1 p =
                Some (FileRMDS (mkSerializedRMDS bytes (now w)
                                  (Version (MD rmds))))).
      { rewrite Hf. apply fn_lookup_insert. }
      assert (Hget2 : getMDReadLocked s id w1 = (Ok back, logged (OpRead p) w1)).
      { unfold getMDReadLocked, bind, lift, DeserializeFromFile, asRMDS, ret.
        rewrite Hp, Hfile. simpl. rewrite Hdec, Hback, Hmk.
        now rewrite String.eqb_refl. }
      exists p, (logged (OpRead p) w1).
      split; [assumption | ]. split.
      { eapply putMDLocked_present; [ | exact Hget2]. now rewrite Hmd. }
      repeat split.
      * eexists. exact Hfile.
      * intros q Hq. simpl. rewrite Hf. now apply fn_lookup_insert_ne.
Qed.

End ObjectStorePut.

Lemma getMDReadLocked_cases_witness :
  let p := ["tlf"; "mds"; "0100"; "r1"] in
  let q := ["tlf"; "mds"; "0100"; "zz"] in
  (getMDReadLocked Example.s0 "0100zz" Example.w1 =
     (Err (ErrNotExist q), logged (OpRead q) Example.w1) /\
   os_IsNotExist (ErrNotExist q) = true) /\
  getMDReadLocked Example.s0 "0100r1" Example.w1 =
    (Ok (Example.signed Example.md1), logged (OpRead p) Example.w1).
Proof.
  split.
  - apply (proj1 (proj2 (getMDReadLocked_cases Example.s0 "0100zz"
                           ["tlf"; "mds"; "0100"; "zz"] Example.w1 eq_refl))).
    vm_compute. reflexivity.
  - apply (proj2 (proj2 (proj2 (getMDReadLocked_cases Example.s0 "0100r1"
                                  ["tlf"; "mds"; "0100"; "r1"] Example.w1
                                  eq_refl))
                    (mkSerializedRMDS "r1" 0 3) (Example.signed Example.md1)
                    "0100r1" ltac:(vm_compute; reflexivity) eq_refl eq_refl)).
    reflexivity.
Defined.

Lemma putMDLocked_content_addressed_witness :
  let rmds := Example.signed Example.md1 in
  let w1 := after (putMDLocked Example.s0 rmds) Example.w0 in
  let w2 := after (getMDReadLocked Example.s0 "0100r1") w1 in
  MakeMdID Example.crypto0 (MD rmds) = Ok "0100r1" /\
  (putMDLocked Example.s0 rmds w1 = (Ok "0100r1", w2) /\
   files w2 = files w1 /\
   exists p, mdPath Example.s0 "0100r1" = Ok p /\
             accesses w2 = OpRead p :: accesses w1) /\
  (exists p w2,
     mdPath Example.s0 "0100r1" = Ok p /\
     putMDLocked Example.s0 rmds w1 = (Ok "0100r1", w2) /\
     files w2 = files w1 /\
     accesses w2 = OpRead p :: accesses w1 /\
     (exists d, files w2 p = Some d) /\
     (forall q, q <> p -> files w2 q = files Example.w0 q)).
Proof.
  cbv zeta.
  assert (Hput : putMDLocked Example.s0 (Example.signed Example.md1) Example.w0 =
                 (Ok "0100r1",
                  after (putMDLocked Example.s0 (Example.signed Example.md1))
                    Example.w0)).
  { apply run_eq. vm_compute. reflexivity. }
  split; [ | split].
  - exact (proj1 (putMDLocked_content_addressed Example.s0
                    (Example.signed Example.md1) Example.w0) _ _ Hput).
  - apply (proj1 (proj2 (putMDLocked_content_addressed Example.s0
                           (Example.signed Example.md1)
                           (after (putMDLocked Example.s0
                                     (Example.signed Example.md1))
                              Example.w0)))
             "0100r1" (Example.signed Example.md1)).
    + reflexivity.
    + apply run_eq. vm_compute. reflexivity.
  - apply (proj2 (proj2 (putMDLocked_content_addressed Example.s0
                           (Example.signed Example.md1) Example.w0))
             "0100r1" _ (Example.signed Example.md1) eq_refl).
    + intros bytes t H. inversion H. eexists. split; reflexivity.
    + exact Hput.
Defined.

(** ** The errors of the write path *)

Lemma errs_ret P {A} (a : A) : errs P (ret a).
Proof. intros w e w' H. discriminate. Qed.

Lemma errs_panic P {A} msg : errs P (@panic A msg).
Proof. intros w e w' H. discriminate. Qed.

Lemma errs_gets P {A} (f : World -> A) : errs P (gets f).
Proof. intros w e w' H. discriminate. Qed.

Lemma errs_throw (P : error -> Prop) {A} e : P e -> errs P (@throw A e).
Proof. intros He w e' w' H. inversion H. now subst. Qed.

Lemma errs_bind P {A B} (m : M A) (k : A -> M B) :
  errs P m -> (forall a, errs P (k a)) -> errs P (bind m k).
Proof.
  intros Hm Hk w e w' H.
  apply bind_inv in H as [(a & w1 & _ & H2) | [(e' & H1 & He) | (msg & _ & He)]].
  - eapply Hk; eassumption.
  - inversion He; subst. eapply Hm; eassumption.
  - discriminate.
Qed.

Lemma errs_mapErr (P : error -> Prop) {A} f (m : M A) :
  (forall e, P (f e)) -> errs P (mapErr f m).
Proof.
  intros Hf w e w' H.
  apply mapErr_inv in H as [(a & _ & He) | [(e' & _ & He) | (msg & _ & He)]];
    inversion He. apply Hf.
Qed.

Section PutErrors.

Variable pkg : Package.
Variable s : mdServerTlfStorage.

(** Up to the comparison head, [put] wraps every leaf error. *)
Lemma put_resolve_errors uid key rmds extra :
  errs (put_error_specified pkg rmds) (put_resolve pkg s uid key rmds extra).
Proof.
  assert (Hwrap : forall e, put_error_specified pkg rmds (MDServerError e)).
  { intros e. right. left. reflexivity. }
  unfold put_resolve. apply errs_bind.
  { unfold put_resolveExtra. destruct extra.
    - apply errs_ret.
    - now apply errs_mapErr. }
  intros extra'. apply errs_bind.
  { unfold put_validate.
    destruct (IsValidAndSigned _ _ _).
    - apply errs_throw. right. right. left. eauto.
    - destruct (IsLastModifiedBy _ _ _ _).
      + apply errs_throw. right. right. left. eauto.
      + apply errs_ret. }
  intros _. apply errs_bind.
  { unfold put_checkPermissions. apply errs_bind; [now apply errs_mapErr | ].
    intros [head | ]; [ | apply errs_ret].
    apply errs_bind; [now apply errs_mapErr | ]. intros prevExtra.
    apply errs_bind; [now apply errs_mapErr | ]. intros [ | ]; simpl.
    - apply errs_ret.
    - apply errs_throw. right. right. right. left. reflexivity. }
  intros _. apply errs_bind; [ | intros; apply errs_ret].
  unfold put_comparisonHead. apply errs_bind; [now apply errs_mapErr | ].
  intros head.
  assert (Hspecial :
    errs (put_error_specified pkg rmds)
      (rmdses <- mapErr MDServerError
                   (getRangeReadLocked pkg s uid NullBranchID
                      (wrap64 (RevisionNumber (MD rmds) - 1))
                      (wrap64 (RevisionNumber (MD rmds) - 1))) ;;
       match rmdses with
       | [h] => ret (Some h, true)
       | _ => throw (MDServerError (ErrExpectedOneMD (length rmdses)))
       end)).
  { apply errs_bind; [now apply errs_mapErr | ].
    intros [ | h [ | h' rest]];
      [now apply errs_throw | apply errs_ret | now apply errs_throw]. }
  destruct (MergedStatus (MD rmds)), head; try apply errs_ret. exact Hspecial.
Qed.

(** The successor check returns the error of the check as it is. *)
Lemma put_checkSuccessor_errors head rmds :
  errs (put_error_specified pkg rmds) (put_checkSuccessor pkg s head rmds).
Proof.
  unfold put_checkSuccessor. destruct head as [h | ]; [ | apply errs_ret].
  apply errs_bind.
  { apply errs_mapErr. intros e. right. left. reflexivity. }
  intros headID. unfold check.
  destruct (CheckValidSuccessorForServer _ _ _ _) as [e | ] eqn:Hc.
  - apply errs_throw. do 4 right. eauto.
  - apply errs_ret.
Qed.

(** The last step wraps the errors of both stores and of the journal's
    append, but returns the error of creating the journal directory bare. *)
Lemma put_persist_errors rmds extra :
  errs (fun e => isMDServerError e = true \/ exists q, e = ErrNotDir q)
       (put_persist s rmds extra).
Proof.
  unfold put_persist.
  apply errs_bind; [apply errs_mapErr; intros; now left | intros id].
  apply errs_bind; [apply errs_mapErr; intros; now left | intros _].
  apply errs_bind; [ | intros j; apply errs_mapErr; intros; now left].
  unfold getOrCreateBranchJournalLocked.
  apply errs_bind; [apply errs_gets | ]. intros [j | ]; [apply errs_ret | ].
  apply errs_bind.
  - intros w e w' H. unfold MkdirAll in H.
    destruct (find _ _) as [q | ]; inversion H. right. eauto.
  - intros _. apply errs_bind; [ | intros; apply errs_ret].
    intros w e w' H. unfold storeBranchJournal in H.
    destruct (branchJournals w); discriminate.
Qed.

(** Every error of [put] is one the specification names, or the bare error
    of creating the journal directory. *)
Lemma put_errors uid key rmds extra :
  errs (fun e => put_error_specified pkg rmds e \/ exists q, e = ErrNotDir q)
       (put pkg s uid key rmds extra).
Proof.
  unfold put. apply errs_bind; [apply errs_gets | ]. intros [ | ].
  - apply errs_throw. left. left. reflexivity.
  - apply errs_bind.
    { intros w e w' H. left. eapply put_resolve_errors; eassumption. }
    intros st. apply errs_bind.
    { intros w e w' H. left. eapply put_checkSuccessor_errors; eassumption. }
    intros _. apply errs_bind; [ | intros; apply errs_ret].
    intros w e w' H. apply put_persist_errors in H as [H | H].
    + left. right. left. assumption.
    + right. assumption.
Qed.

End PutErrors.

(** C8 (code defect).  The write path is meant to wrap every leaf error of
    the stores and the journal in the generic storage error, the error of the
    successor check alone being returned bare (lemmas
    [put_checkSuccessor_errors], [put_errors]).  One more error escapes
    unwrapped: when the directory of the branch's journal cannot be created,
    [put] returns the error of [os.MkdirAll] as it is.  Here a regular file
    sits where the directory of the journals belongs. *)
Theorem put_journal_dir_error_unwrapped :
  let e := ErrNotDir ["tlf"; "md_branch_journals"] in
  fst (put Example.pkg0 Example.s0 "alice" "key"
         (Example.signed Example.md1) None Example.w_blocked) = Err e /\
  isMDServerError e = false /\
  ~ put_error_specified Example.pkg0 (Example.signed Example.md1) e.
Proof.
  cbv zeta. split; [vm_compute; reflexivity | ]. split; [reflexivity | ].
  intros [H | [H | [[r H] | [H | (head & headID & H)]]]]; try discriminate.
  unfold Example.pkg0, CheckValidSuccessorForServer in H.
  destruct (_ =? _); discriminate.
Qed.

(** ** The steps of a successful [put] *)

Section PutSteps.

Variable pkg : Package.
Variable s : mdServerTlfStorage.

Lemma put_Ok_inv uid key rmds extra w r w' :
  put pkg s uid key rmds extra w = (Ok r, w') ->
  exists st w1 w2,
    branchJournals w <> None /\
    put_resolve pkg s uid key rmds extra w = (Ok st, w1) /\
    put_checkSuccessor pkg s (fst (snd st)) rmds w1 = (Ok tt, w2) /\
    put_persist s rmds (fst st) w2 = (Ok tt, w') /\
    r = snd (snd st).
Proof.
  unfold put. intros H.
  apply bind_inv_Ok in H as (sd & w0 & Hsd & H).
  unfold isShutdownReadLocked, gets in Hsd. inversion Hsd; subst w0; clear Hsd.
  destruct (branchJournals w) as [m | ] eqn:Hm; subst sd; [ | discriminate].
  apply bind_inv_Ok in H as (st & w1 & Hres & H).
  apply bind_inv_Ok in H as ([] & w2 & Hsucc & H).
  apply bind_inv_Ok in H as ([] & w3 & Hpers & H).
  apply ret_inv in H as [Hr ->]. inversion Hr.
  exists st, w1, w2. repeat split; try assumption. discriminate.
Qed.

Lemma put_persist_Ok_inv rmds extra w w' :
  put_persist s rmds extra w = (Ok tt, w') ->
  exists id w1 w2 j w3,
    putMDLocked s rmds w = (Ok id, w1) /\
    putExtraMetadataLocked s rmds extra w1 = (Ok tt, w2) /\
    getOrCreateBranchJournalLocked s (BID (MD rmds)) w2 = (Ok j, w3) /\
    journal_append j (RevisionNumber (MD rmds)) (mkEntry id) w3 = (Ok tt, w').
Proof.
  unfold put_persist. intros H.
  apply bind_inv_Ok in H as (id & w1 & Hmd & H). apply mapErr_inv_Ok in Hmd.
  apply bind_inv_Ok in H as ([] & w2 & Hex & H). apply mapErr_inv_Ok in Hex.
  apply bind_inv_Ok in H as (j & w3 & Hj & H). apply mapErr_inv_Ok in H.
  exists id, w1, w2, j, w3. auto.
Qed.

(** [getOrCreateBranchJournalLocked] leaves a handle for the branch, the
    one it returns, and no other handle changes. *)
Lemma getOrCreateBranchJournalLocked_Ok_inv bid w j w' :
  getOrCreateBranchJournalLocked s bid w = (Ok j, w') ->
  handle w' bid = Some j /\
  (forall bid', bid' <> bid -> handle w' bid' = handle w bid') /\
  (handle w bid = Some j \/
   handle w bid = None /\
   j = makeMdIDJournal (filepath_Join (branchJournalsPath s) [bid])) /\
  files w' = files w /\
  journals w' = journals w.
Proof.
  unfold getOrCreateBranchJournalLocked. intros H.
  apply bind_inv_Ok in H as (jo & w0 & Hl & H).
  assert (Hh : handle w bid = jo /\ w0 = w).
  { unfold lookupBranchJournal, gets in Hl. now inversion Hl. }
  clear Hl. destruct Hh as [Hh ->]. destruct jo as [j0 | ].
  - apply ret_inv in H as [Hj ->]. inversion Hj; subst j0.
    repeat split; auto.
  - apply bind_inv_Ok in H as ([] & w1 & Hmk & H).
    apply bind_inv_Ok in H as ([] & w2 & Hst & H).
    apply ret_inv in H as [Hj ->]. inversion Hj; subst j; clear Hj.
    unfold MkdirAll in Hmk. destruct (find _ _); [discriminate | ].
    inversion Hmk; subst w1; clear Hmk.
    unfold storeBranchJournal in Hst. simpl in Hst.
    destruct (branchJournals w) as [m | ] eqn:Hm; [ | discriminate].
    inversion Hst; subst w2; clear Hst.
    split; [ | split; [ | split; [ | split; reflexivity]]].
    + unfold handle. simpl. apply lookup_insert_eq.
    + intros bid' Hne. unfold handle. simpl. rewrite Hm.
      now apply lookup_insert_ne.
    + right. split; [exact Hh | reflexivity].
Qed.

Lemma journal_append_branchJournals j r e w o w' :
  journal_append j r e w = (o, w') ->
  branchJournals w' = branchJournals w /\ files w' = files w.
Proof.
  unfold journal_append.
  destruct (jEntries (journal_data w j)); [ | destruct (_ =? _)];
    intros H; inversion H; split; reflexivity.
Qed.

Lemma handle_eq w w' bid :
  branchJournals w' = branchJournals w -> handle w' bid = handle w bid.
Proof. unfold handle. now intros ->. Qed.

Lemma put_Ok_handle uid key rmds extra w r w' :
  put pkg s uid key rmds extra w = (Ok r, w') ->
  exists j, handle w' (BID (MD rmds)) = Some j.
Proof.
  intros H.
  apply put_Ok_inv in H as (st & w1 & w2 & _ & _ & _ & Hpers & _).
  apply put_persist_Ok_inv in Hpers as (id & w3 & w4 & j & w5 & _ & _ & Hj & Happ).
  apply getOrCreateBranchJournalLocked_Ok_inv in Hj as (Hh & _).
  apply journal_append_branchJournals in Happ as [Hb _].
  exists j. now rewrite (handle_eq _ _ _ Hb).
Qed.

Lemma same_store_after {A} (m : M A) w :
  respects same_store m -> branchJournals (after m w) = branchJournals w.
Proof.
  intros Hm. unfold after.
  destruct (Hm w (fst (m w)) (snd (m w)) (surjective_pairing _)) as [Hb _].
  exact Hb.
Qed.

End PutSteps.

(** ** When the handle of a branch comes to exist *)

(** C9, as stated, fails: reading a branch that has no handle succeeds and
    leaves the map without a handle for it. *)
Lemma read_creates_no_handle :
  fst (getForTLF Example.pkg0 Example.s0 "alice" Example.branch Example.w0)
    = Ok None /\
  handle (after (getForTLF Example.pkg0 Example.s0 "alice" Example.branch)
            Example.w0) Example.branch = None.
Proof. split; vm_compute; reflexivity. Qed.

(** C9, amended.  The handle of a branch is created by the write path only:
    after a [put] that returns without error the branch of the metadata has
    a handle in the map; [journalLength], [getForTLF], [getRange] and
    [getKeyBundles] leave the map as it is. *)
Theorem handle_created_by_put_only pkg s :
  (forall uid key rmds extra w r w',
     put pkg s uid key rmds extra w = (Ok r, w') ->
     exists j, handle w' (BID (MD rmds)) = Some j) /\
  (forall uid bid start stop wkbID rkbID w,
     branchJournals (after (journalLength bid) w) = branchJournals w /\
     branchJournals (after (getForTLF pkg s uid bid) w) = branchJournals w /\
     branchJournals (after (getRange pkg s uid bid start stop) w)
       = branchJournals w /\
     branchJournals (after (getKeyBundles s wkbID rkbID) w) = branchJournals w).
Proof.
  split.
  - apply put_Ok_handle.
  - intros uid bid start stop wkbID rkbID w.
    split; [ | split; [ | split]]; apply same_store_after;
      [ apply respects_journalLength | apply respects_getForTLF
      | apply respects_getRange | apply respects_getKeyBundles ];
      first [exact same_store_refl | exact same_store_trans
            | exact same_store_read].
Qed.

Lemma handle_created_by_put_only_witness :
  exists j,
    handle (after (put Example.pkg0 Example.s0 "alice" "key"
                     (Example.signed Example.md1) None) Example.w0)
           NullBranchID = Some j.
Proof.
  apply (proj1 (handle_created_by_put_only Example.pkg0 Example.s0)
           "alice" "key" (Example.signed Example.md1) None Example.w0 false).
  apply run_eq. vm_compute. reflexivity.
Defined.

(** ** Writing without key bundles *)

Section KeyBundlesUntouched.

Variable s : mdServerTlfStorage.

Lemma keybundles_untouched_refl w : keybundles_untouched s w w.
Proof. split; [reflexivity | ]. exists []. split; [reflexivity | constructor]. Qed.

Lemma keybundles_untouched_trans a b c :
  keybundles_untouched s a b -> keybundles_untouched s b c ->
  keybundles_untouched s a c.
Proof.
  intros [Hf1 (l1 & Hl1 & HP1)] [Hf2 (l2 & Hl2 & HP2)]. split.
  - intros p Hp. now rewrite Hf2, Hf1.
  - exists (l2 ++ l1)%list. split.
    + now rewrite Hl2, Hl1, app_assoc.
    + apply Forall_app. now split.
Qed.

(** Logging anything but a write below the key-bundle directories. *)
Lemma keybundles_untouched_logged op w :
  no_keybundle_write s op -> keybundles_untouched s w (logged op w).
Proof.
  intros Hop. split; [reflexivity | ].
  exists [op]. split; [reflexivity | ]. now constructor.
Qed.

Lemma keybundles_untouched_read op w :
  is_read op = true -> keybundles_untouched s w (logged op w).
Proof.
  intros Hop. apply keybundles_untouched_logged.
  intros p ->. discriminate.
Qed.

(** The path of a metadata object is not below the key-bundle directories. *)
Lemma mdPath_not_under_keybundles id p :
  mdPath s id = Ok p -> ~ under_keybundles s p.
Proof.
  unfold mdPath. destruct (_ <? _)%nat; [discriminate | ].
  intros H. inversion H; subst p; clear H.
  unfold under_keybundles, mdsPath, filepath_Join. simpl.
  rewrite <- app_assoc. simpl.
  intros [[k Hk] | [k Hk]]; rewrite <- app_assoc in Hk;
    apply app_inv_head in Hk; discriminate.
Qed.

Lemma respects_putMDLocked rmds :
  respects (keybundles_untouched s) (putMDLocked s rmds).
Proof.
  pose proof keybundles_untouched_refl as Hrefl.
  pose proof keybundles_untouched_trans as Htrans.
  unfold putMDLocked.
  apply respects_bind; [assumption | now apply respects_lift | intros id].
  apply respects_bind; [assumption | | intros r].
  { apply respects_attempt.
    apply respects_getMDReadLocked; auto using keybundles_untouched_read. }
  destruct r as [err | stored]; [ | now apply respects_ret].
  destruct (os_IsNotExist err); [ | now apply respects_throw].
  apply respects_bind; [assumption | now apply respects_lift | intros bytes].
  apply respects_bind; [assumption | now apply respects_gets | intros t].
  intros w r w' H.
  apply bind_inv in H as [(a & w1 & Hp & H) | [(e & Hp & _) | (msg & Hp & _)]];
    apply lift_inv in Hp as [Hp ->]; try apply Hrefl.
  apply mdPath_not_under_keybundles in Hp.
  apply bind_inv in H as [([] & w2 & Hs & H) | [(e & Hs & _) | (msg & Hs & _)]].
  - apply ret_inv in H as [_ ->].
    apply SerializeToFile_Ok_inv in Hs as (Hf & _ & _ & _ & Ha). split.
    + intros q Hq. rewrite Hf. apply fn_lookup_insert_ne. congruence.
    + exists [OpWrite a]. split; [exact Ha | ].
      constructor; [ | constructor]. intros q Hq. congruence.
  - unfold SerializeToFile in Hs. destruct (find _ _); inversion Hs.
    apply keybundles_untouched_logged. intros q Hq. congruence.
  - unfold SerializeToFile in Hs. destruct (find _ _); inversion Hs.
Qed.

Lemma respects_getOrCreateBranchJournalLocked bid :
  respects (keybundles_untouched s) (getOrCreateBranchJournalLocked s bid).
Proof.
  intros w r w' H. unfold getOrCreateBranchJournalLocked in H.
  apply bind_inv in H as [(jo & w0 & Hl & H) | [(e & Hl & _) | (msg & Hl & _)]];
    [ | inversion Hl | inversion Hl].
  assert (w0 = w) as -> by (now inversion Hl). clear Hl.
  destruct jo as [j | ].
  { apply ret_inv in H as [_ ->]. apply keybundles_untouched_refl. }
  assert (Hmk : forall o w1, MkdirAll (filepath_Join (branchJournalsPath s) [bid]) w
                             = (o, w1) -> keybundles_untouched s w w1).
  { intros o w1 Hm. unfold MkdirAll in Hm. destruct (find _ _); inversion Hm.
    - apply keybundles_untouched_logged. intros q Hq. discriminate.
    - split; [reflexivity | ]. exists [OpMkdirAll (filepath_Join (branchJournalsPath s) [bid])].
      split; [reflexivity | ]. constructor; [ | constructor].
      intros q Hq. discriminate. }
  apply bind_inv in H as [([] & w1 & Hm & H) | [(e & Hm & _) | (msg & Hm & _)]];
    try (eapply Hmk; eassumption).
  eapply keybundles_untouched_trans; [eapply Hmk; eassumption | ].
  apply bind_inv in H as [([] & w2 & Hst & H) | [(e & Hst & _) | (msg & Hst & _)]];
    unfold storeBranchJournal in Hst; destruct (branchJournals w1);
    inversion Hst; subst; try apply keybundles_untouched_refl.
  apply ret_inv in H as [_ ->].
  split; [reflexivity | ]. exists []. split; [reflexivity | constructor].
Qed.

Lemma respects_journal_append j r e :
  respects (keybundles_untouched s) (journal_append j r e).
Proof.
  intros w o w' H. unfold journal_append in H.
  assert (Hop : no_keybundle_write s (OpJournalAppend (jdir j))).
  { intros q Hq. discriminate. }
  destruct (jEntries (journal_data w j)); [ | destruct (_ =? _)];
    inversion H; try (now apply keybundles_untouched_logged);
    (split; [reflexivity | ]; exists [OpJournalAppend (jdir j)];
     split; [reflexivity | ]; now constructor).
Qed.

(** With no bundles to persist, the last step of [put] leaves the
    key-bundle directories alone. *)
Lemma respects_put_persist_None rmds :
  respects (keybundles_untouched s) (put_persist s rmds None).
Proof.
  pose proof keybundles_untouched_refl as Hrefl.
  pose proof keybundles_untouched_trans as Htrans.
  unfold put_persist.
  apply respects_bind; [assumption | | intros id].
  { apply respects_mapErr, respects_putMDLocked. }
  apply respects_bind; [assumption | | intros _].
  { apply respects_mapErr. simpl. now apply respects_ret. }
  apply respects_bind; [assumption | | intros j].
  { apply respects_getOrCreateBranchJournalLocked. }
  apply respects_mapErr, respects_journal_append.
Qed.

End KeyBundlesUntouched.

Lemma put_resolve_extra pkg s uid key rmds extra w st w1 :
  put_resolve pkg s uid key rmds extra w = (Ok st, w1) ->
  exists wx, put_resolveExtra s rmds extra w = (Ok (fst st), wx).
Proof.
  unfold put_resolve. intros H.
  apply bind_inv_Ok in H as (extra' & wx & Hex & H).
  apply bind_inv_Ok in H as (? & ? & _ & H).
  apply bind_inv_Ok in H as (? & ? & _ & H).
  apply bind_inv_Ok in H as (hr & ? & _ & H).
  apply ret_inv in H as [H _]. inversion H. simpl. eauto.
Qed.

(** C10.  When the key-bundle pair [put] resolves is absent, persisting the
    bundles does nothing: [putExtraMetadataLocked] returns at once, the whole
    call neither changes nor writes any file below the writer and reader
    bundle directories, and such a call can succeed. *)
Theorem put_without_bundles :
  (forall s rmds w, putExtraMetadataLocked s rmds None w = (Ok tt, w)) /\
  (forall pkg s uid key rmds extra w w0 r w',
     put_resolveExtra s rmds extra w = (Ok None, w0) ->
     put pkg s uid key rmds extra w = (r, w') ->
     keybundles_untouched s w w') /\
  (exists w',
     put_resolveExtra Example.s0 (Example.signed Example.md1) None Example.w0
       = (Ok None, Example.w0) /\
     put Example.pkg0 Example.s0 "alice" "key" (Example.signed Example.md1)
       None Example.w0 = (Ok false, w')).
Proof.
  split; [reflexivity | split].
  - intros pkg s uid key rmds extra w w0 r w' Hex Hput.
    pose proof (keybundles_untouched_refl s) as Hrefl.
    pose proof (keybundles_untouched_trans s) as Htrans.
    pose proof (keybundles_untouched_read s) as Hread.
    unfold put in Hput.
    apply bind_inv in Hput
      as [(sd & wa & Hsd & H) | [(e & Hsd & _) | (msg & Hsd & _)]];
      inversion Hsd; subst wa; clear Hsd.
    destruct sd; [inversion H; apply Hrefl | ].
    apply bind_inv in H
      as [(st & w1 & Hres & H) | [(e & Hres & _) | (msg & Hres & _)]];
      try (eapply (respects_put_resolve pkg s _ Hrefl Htrans Hread);
           eassumption).
    eapply Htrans;
      [eapply (respects_put_resolve pkg s _ Hrefl Htrans Hread); eassumption | ].
    destruct (put_resolve_extra _ _ _ _ _ _ _ _ _ Hres) as (wx & Hex').
    assert (fst st = None) as Hnone by congruence.
    apply bind_inv in H
      as [([] & w2 & Hsucc & H) | [(e & Hsucc & _) | (msg & Hsucc & _)]];
      try (eapply (respects_put_checkSuccessor pkg s _ Hrefl Htrans);
           eassumption).
    eapply Htrans;
      [eapply (respects_put_checkSuccessor pkg s _ Hrefl Htrans); eassumption | ].
    rewrite Hnone in H.
    apply bind_inv in H
      as [([] & w3 & Hpers & H) | [(e & Hpers & _) | (msg & Hpers & _)]];
      try (eapply respects_put_persist_None; eassumption).
    apply ret_inv in H as [_ ->].
    eapply respects_put_persist_None; eassumption.
  - eexists. split; [reflexivity | ]. apply run_eq. vm_compute. reflexivity.
Qed.

Lemma put_without_bundles_witness :
  keybundles_untouched Example.s0 Example.w0
    (after (put Example.pkg0 Example.s0 "alice" "key"
              (Example.signed Example.md1) None) Example.w0).
Proof.
  apply (proj1 (proj2 put_without_bundles) Example.pkg0 Example.s0
           "alice" "key" (Example.signed Example.md1) None Example.w0
           Example.w0 (Ok false)).
  - reflexivity.
  - apply run_eq. vm_compute. reflexivity.
Defined.

(** ** The comparison head of a new unmerged branch *)

Lemma wrap64_idempotent z : wrap64 (wrap64 z + 0) = wrap64 z.
Proof.
  unfold wrap64. rewrite Z.add_0_r.
  replace ((z + 2 ^ 63) mod 2 ^ 64 - 2 ^ 63 + 2 ^ 63)
    with ((z + 2 ^ 63) mod 2 ^ 64) by lia.
  now rewrite Z.mod_mod by lia.
Qed.

(** A range of one revision that is not empty starts at that revision. *)
Lemma journal_getEntryRange_single j r w start entries w' :
  journal_getEntryRange j r r w = (Ok (start, entries), w') ->
  entries <> [] -> start = r.
Proof.
  unfold journal_getEntryRange.
  destruct (jEntries (journal_data w j)) as [ | e0 rest] eqn:He.
  - intros H. inversion H. congruence.
  - destruct (Z.ltb_spec (Z.min r (jEarliest (journal_data w j) +
                                   Z.of_nat (length (e0 :: rest)) - 1))
                         (Z.max r (jEarliest (journal_data w j)))) as [Hlt | Hge].
    + intros H. inversion H. congruence.
    + intros H. inversion H. intros _. lia.
Qed.

Section ComparisonHead.

Variable pkg : Package.
Variable s : mdServerTlfStorage.

(** The loop returns what it was given followed by one object per entry. *)
Lemma getRange_loop_length entries : forall realStart i acc w res w',
  getRange_loop s realStart i entries acc w = (Ok res, w') ->
  exists tl, res = (acc ++ tl)%list /\ length tl = length entries.
Proof.
  induction entries as [ | e rest IH]; intros realStart i acc w res w' H;
    simpl in H.
  - apply ret_inv in H as [H _]. inversion H. exists [].
    now rewrite app_nil_r.
  - apply bind_inv_Ok in H as (rmds & w1 & _ & H).
    destruct (negb _); [discriminate | ].
    apply IH in H as (tl & -> & Hlen). exists (rmds :: tl).
    rewrite <- app_assoc. simpl. now rewrite Hlen.
Qed.

(** A loop that returns one object ran over one entry, and the object
    carries the revision the loop expected. *)
Lemma getRange_loop_single realStart entries w h w' :
  getRange_loop s realStart 0 entries [] w = (Ok [h], w') ->
  exists e, entries = [e] /\
            RevisionNumber (MD h) = wrap64 (realStart + 0) /\
            fst (getMDReadLocked s (ID e) w) = Ok h.
Proof.
  destruct entries as [ | e rest]; simpl; intros H.
  - apply ret_inv in H as [H _]. discriminate.
  - apply bind_inv_Ok in H as (rmds & w1 & Hget & H).
    apply mapErr_inv_Ok in Hget.
    destruct (Z.eqb_spec (wrap64 (realStart + Z.of_nat 0))
                (RevisionNumber (MD rmds)))
      as [Heq | Hne]; simpl in H; [ | discriminate].
    apply getRange_loop_length in H as (tl & Hres & Hlen).
    simpl in Hres. inversion Hres; subst. destruct rest; [ | discriminate].
    exists e. rewrite Hget. simpl in Heq. auto.
Qed.

Lemma getRangeReadLocked_single uid r w h w' :
  getRangeReadLocked pkg s uid NullBranchID r r w = (Ok [h], w') ->
  RevisionNumber (MD h) = wrap64 (r + 0).
Proof.
  unfold getRangeReadLocked. intros H.
  apply bind_inv_Ok in H as ([] & w1 & _ & H).
  apply bind_inv_Ok in H as (jo & w2 & _ & H).
  destruct jo as [j | ]; [ | apply ret_inv in H as [H _]; discriminate].
  apply bind_inv_Ok in H as ([start entries] & w3 & Hrange & H).
  simpl in H. apply getRange_loop_single in H as (e & -> & Hrev & _).
  apply journal_getEntryRange_single in Hrange; [ | discriminate].
  now subst start.
Qed.

(** What [getHeadForTLFReadLocked] found when it returns without error. *)
Lemma getHeadForTLFReadLocked_Ok_inv bid w head w' :
  getHeadForTLFReadLocked s bid w = (Ok head, w') ->
  match head with
  | Some _ => exists j, handle w bid = Some j
  | None =>
      handle w bid = None /\ w' = w \/
      exists j, handle w bid = Some j /\ jEntries (journal_data w j) = []
  end.
Proof.
  unfold getHeadForTLFReadLocked. intros H.
  apply bind_inv_Ok in H as (jo & w0 & Hl & H).
  assert (Hh : handle w bid = jo /\ w0 = w).
  { unfold lookupBranchJournal, gets in Hl. now inversion Hl. }
  clear Hl. destruct Hh as [Hh ->]. destruct jo as [j | ].
  - apply bind_inv_Ok in H as (latest & w1 & Hlat & H).
    unfold journal_getLatestEntry in Hlat. inversion Hlat; subst; clear Hlat.
    destruct (last (jEntries (journal_data w j))) as [entry | ] eqn:Hlast.
    + apply bind_inv_Ok in H as (rmds & w2 & _ & H).
      apply ret_inv in H as [H _]. inversion H. eauto.
    + apply ret_inv in H as [H _]. inversion H. right. exists j.
      split; [assumption | ]. now apply last_None.
  - apply ret_inv in H as [H ->]. inversion H. now left.
Qed.

(** For an unmerged object whose branch has no handle, the comparison head
    is read from the merged branch at the revision before the object's. *)
Lemma put_comparisonHead_new_branch uid rmds w :
  MergedStatus (MD rmds) = Unmerged ->
  handle w (BID (MD rmds)) = None ->
  put_comparisonHead pkg s uid rmds w =
  (rmdses <- mapErr MDServerError
               (getRangeReadLocked pkg s uid NullBranchID
                  (wrap64 (RevisionNumber (MD rmds) - 1))
                  (wrap64 (RevisionNumber (MD rmds) - 1))) ;;
   match rmdses with
   | [h] => ret (Some h, true)
   | _ => throw (MDServerError (ErrExpectedOneMD (length rmdses)))
   end) w.
Proof.
  intros Hst Hh. unfold put_comparisonHead. rewrite Hst.
  assert (Hhead : mapErr MDServerError
                    (getHeadForTLFReadLocked s (BID (MD rmds))) w = (Ok None, w)).
  { unfold mapErr, getHeadForTLFReadLocked, bind, lookupBranchJournal, gets.
    fold (handle w (BID (MD rmds))). now rewrite Hh. }
  now rewrite (bind_Ok _ _ _ _ _ Hhead).
Qed.

(** [recordBranchID] is true exactly for an unmerged object whose branch has
    no head; with every handle's journal non-empty, that is a branch with no
    handle. *)
Lemma put_comparisonHead_record uid rmds w hr w' :
  handles_nonempty w ->
  put_comparisonHead pkg s uid rmds w = (Ok hr, w') ->
  (snd hr = true <->
   MergedStatus (MD rmds) = Unmerged /\ handle w (BID (MD rmds)) = None).
Proof.
  intros Hinv H. unfold put_comparisonHead in H.
  apply bind_inv_Ok in H as (head & w1 & Hhead & H).
  apply mapErr_inv_Ok in Hhead.
  apply getHeadForTLFReadLocked_Ok_inv in Hhead.
  destruct (MergedStatus (MD rmds)) eqn:Hst.
  - assert (hr = (head, false)) as ->.
    { destruct head; apply ret_inv in H as [H _]; now inversion H. }
    simpl. split; [discriminate | intros [? _]; discriminate].
  - destruct head as [h | ].
    + apply ret_inv in H as [H _]. inversion H. simpl.
      destruct Hhead as [j Hj]. split; [discriminate | ].
      intros [_ Hn]. congruence.
    + assert (Hn : handle w (BID (MD rmds)) = None).
      { destruct Hhead as [[Hn _] | (j & Hj & Hempty)]; [assumption | ].
        now apply Hinv in Hj. }
      apply bind_inv_Ok in H as (rmdses & w2 & _ & H).
      destruct rmdses as [ | h [ | h' rest]]; try discriminate.
      apply ret_inv in H as [H _]. inversion H. simpl. tauto.
Qed.

Lemma put_resolve_Ok_inv uid key rmds extra w st w1 :
  put_resolve pkg s uid key rmds extra w = (Ok st, w1) ->
  exists wa wb wc,
    put_resolveExtra s rmds extra w = (Ok (fst st), wa) /\
    put_validate pkg uid key rmds (fst st) wa = (Ok tt, wb) /\
    put_checkPermissions pkg s uid rmds (fst st) wb = (Ok tt, wc) /\
    put_comparisonHead pkg s uid rmds wc = (Ok (snd st), w1) /\
    same_store w wc.
Proof.
  unfold put_resolve. intros H.
  apply bind_inv_Ok in H as (extra' & wa & Hex & H).
  apply bind_inv_Ok in H as ([] & wb & Hval & H).
  apply bind_inv_Ok in H as ([] & wc & Hperm & H).
  apply bind_inv_Ok in H as (hr & wd & Hhead & H).
  apply ret_inv in H as [H ->]. inversion H; subst st; clear H. simpl.
  exists wa, wb, wc. repeat split; try assumption;
    (eapply same_store_trans;
     [eapply (respects_put_resolveExtra s same_store); eauto with resp | ];
     eapply same_store_trans;
     [eapply (respects_put_validate pkg same_store); eauto with resp | ];
     eapply (respects_put_checkPermissions pkg s same_store); eauto with resp).
Qed.

Lemma same_store_handles_nonempty w w' :
  same_store w w' -> handles_nonempty w -> handles_nonempty w'.
Proof.
  intros Hs Hinv bid j Hj.
  rewrite (same_store_handle _ _ _ Hs) in Hj.
  rewrite (same_store_journal_data _ _ _ Hs). eauto.
Qed.

End ComparisonHead.

(** ** Every handle's journal has an entry *)

Lemma same_journals_refl w : same_journals w w.
Proof. split; reflexivity. Qed.

Lemma same_journals_trans a b c :
  same_journals a b -> same_journals b c -> same_journals a c.
Proof. intros [? ?] [? ?]. split; congruence. Qed.

Lemma same_journals_read op w : is_read op = true -> same_journals w (logged op w).
Proof. intros _. split; reflexivity. Qed.

Lemma same_journals_keeps w w' :
  same_journals w w' -> keeps_handles_nonempty w w'.
Proof.
  intros [Hb Hj] Hinv bid j Hh.
  rewrite (handle_eq _ _ _ Hb) in Hh.
  unfold journal_data. rewrite Hj. exact (Hinv bid j Hh).
Qed.

Lemma keeps_handles_nonempty_refl w : keeps_handles_nonempty w w.
Proof. intros H. exact H. Qed.

Lemma keeps_handles_nonempty_trans a b c :
  keeps_handles_nonempty a b -> keeps_handles_nonempty b c ->
  keeps_handles_nonempty a c.
Proof. intros H1 H2 H. exact (H2 (H1 H)). Qed.

Lemma keeps_handles_nonempty_read op w :
  is_read op = true -> keeps_handles_nonempty w (logged op w).
Proof. intros _ H. exact H. Qed.

(** A storage just made has no handle at all. *)
Lemma handles_nonempty_initial w :
  handles_nonempty (makeMDServerTlfStorage_world w).
Proof. intros bid j H. unfold handle in H. simpl in H. discriminate. Qed.

Section HandlesNonempty.

Variable pkg : Package.
Variable s : mdServerTlfStorage.

Lemma SerializeToFile_same_journals d p :
  respects same_journals (SerializeToFile d p).
Proof.
  intros w r w' H. unfold SerializeToFile in H.
  destruct (find _ _); inversion H; split; reflexivity.
Qed.

Lemma putMDLocked_same_journals rmds :
  respects same_journals (putMDLocked s rmds).
Proof.
  pose proof same_journals_refl as Hrefl.
  pose proof same_journals_trans as Htrans.
  pose proof same_journals_read as Hread.
  pose proof SerializeToFile_same_journals as Hser.
  pose proof (respects_getMDReadLocked s same_journals Hrefl Htrans Hread).
  unfold putMDLocked, clock_Now. resp.
Qed.

Lemma putExtraMetadataLocked_same_journals rmds extra :
  respects same_journals (putExtraMetadataLocked s rmds extra).
Proof.
  pose proof same_journals_refl as Hrefl.
  pose proof same_journals_trans as Htrans.
  pose proof SerializeToFile_same_journals as Hser.
  pose proof (fun c a b x y =>
                respects_checkKeyBundlesV3 same_journals Hrefl Htrans c a b x y).
  unfold putExtraMetadataLocked. resp.
Qed.

(** Whatever [getOrCreateBranchJournalLocked] returns, it leaves the
    journals alone; it changes the map only by adding the handle it
    returns. *)
Lemma getOrCreateBranchJournalLocked_inv bid w r w' :
  getOrCreateBranchJournalLocked s bid w = (r, w') ->
  journals w' = journals w /\
  ((exists j, r = Ok j /\ handle w' bid = Some j /\
              forall bid', bid' <> bid -> handle w' bid' = handle w bid') \/
   (forall j, r <> Ok j) /\ branchJournals w' = branchJournals w).
Proof.
  destruct r as [j | e | msg].
  { intros H. apply getOrCreateBranchJournalLocked_Ok_inv in H
      as (Hh & Hother & _ & _ & Hj).
    split; [assumption | ]. left. eauto. }
  all: unfold getOrCreateBranchJournalLocked; intros H.
  all: apply bind_inv in H
         as [(jo & w0 & Hl & H) | [(e' & Hl & _) | (m & Hl & _)]];
         [ | inversion Hl | inversion Hl].
  all: assert (w0 = w) as -> by (now inversion Hl); clear Hl.
  all: destruct jo; [apply ret_inv in H as [H _]; discriminate | ].
  all: apply bind_inv in H
         as [([] & w1 & Hm & H) | [(e' & Hm & Hr) | (m & Hm & Hr)]];
         try discriminate Hr;
         unfold MkdirAll in Hm; destruct (find _ _); inversion Hm; subst;
         clear Hm.
  - (* an error: the store step returns none, so it is MkdirAll's *)
    apply bind_inv in H
      as [([] & w2 & Hst & H) | [(e' & Hst & Hr) | (m & Hst & Hr)]];
      try discriminate Hr.
    + apply ret_inv in H as [H _]. discriminate.
    + revert Hst. unfold storeBranchJournal. simpl.
      destruct (branchJournals w); intros Hst; discriminate Hst.
  - split; [reflexivity | ]. right. split; [discriminate | reflexivity].
  - (* a panic: the map is nil and stays nil *)
    apply bind_inv in H
      as [([] & w2 & Hst & H) | [(e' & Hst & Hr) | (m & Hst & Hr)]];
      try discriminate Hr.
    + apply ret_inv in H as [H _]. discriminate.
    + revert Hst. unfold storeBranchJournal. simpl.
      destruct (branchJournals w) eqn:Hb; intros Hst; inversion Hst; subst.
      split; [reflexivity | ]. right. split; [discriminate | ]. simpl.
      congruence.
Qed.

(** Whatever [append] returns, the journal has an entry afterwards, and the
    other journals are as before. *)
Lemma journal_append_inv j r e w o w' :
  journal_append j r e w = (o, w') ->
  branchJournals w' = branchJournals w /\
  jEntries (journal_data w' j) <> [] /\
  (forall j', jdir j' <> jdir j -> journal_data w' j' = journal_data w j').
Proof.
  unfold journal_append.
  destruct (jEntries (journal_data w j)) as [ | e0 rest] eqn:He.
  - intros H. inversion H. split; [reflexivity | ]. split.
    + unfold journal_data. simpl. rewrite fn_lookup_insert. discriminate.
    + intros j' Hne. unfold journal_data. simpl.
      rewrite fn_lookup_insert_ne by congruence. reflexivity.
  - destruct (_ =? _); intros H; inversion H; (split; [reflexivity | ]); split.
    + unfold journal_data at 1. simpl. rewrite fn_lookup_insert. simpl.
      try rewrite He. discriminate.
    + intros j' Hne. unfold journal_data. simpl.
      rewrite fn_lookup_insert_ne by congruence. reflexivity.
    + change (jEntries (journal_data w j) <> []). rewrite He. discriminate.
    + reflexivity.
Qed.

Lemma journal_data_same_dir w j j' :
  jdir j' = jdir j -> journal_data w j' = journal_data w j.
Proof. unfold journal_data. now intros ->. Qed.

(** Taking the handle of a branch and appending to its journal keeps every
    handle's journal non-empty, whether the append succeeds or not. *)
Lemma getOrCreate_append_keeps bid rev e w j w1 o w2 :
  getOrCreateBranchJournalLocked s bid w = (Ok j, w1) ->
  journal_append j rev e w1 = (o, w2) ->
  keeps_handles_nonempty w w2.
Proof.
  intros Hget Happ Hinv bid' j' Hh.
  apply getOrCreateBranchJournalLocked_Ok_inv in Hget
    as (Hnew & Hother & _ & _ & Hjournals).
  apply journal_append_inv in Happ as (Hb & Hnonempty & Hrest).
  rewrite (handle_eq _ _ _ Hb) in Hh.
  destruct (decide (jdir j' = jdir j)) as [Hdir | Hdir].
  - now rewrite (journal_data_same_dir _ _ _ Hdir).
  - rewrite (Hrest _ Hdir).
    assert (Hbid : bid' <> bid).
    { intros ->. rewrite Hnew in Hh. inversion Hh. congruence. }
    rewrite (Hother _ Hbid) in Hh.
    unfold journal_data. rewrite Hjournals. exact (Hinv bid' j' Hh).
Qed.

Lemma put_persist_keeps rmds extra :
  respects keeps_handles_nonempty (put_persist s rmds extra).
Proof.
  pose proof keeps_handles_nonempty_refl as Hrefl.
  pose proof keeps_handles_nonempty_trans as Htrans.
  unfold put_persist.
  apply respects_bind; [assumption | | intros id].
  { apply respects_mapErr. intros w r w' H.
    apply same_journals_keeps. eapply putMDLocked_same_journals; eassumption. }
  apply respects_bind; [assumption | | intros _].
  { apply respects_mapErr. intros w r w' H. apply same_journals_keeps.
    eapply putExtraMetadataLocked_same_journals; eassumption. }
  intros w r w' H.
  apply bind_inv in H as [(j & w1 & Hj & H) | [(e & Hj & _) | (msg & Hj & _)]].
  - apply mapErr_inv in H
      as [(a & H & _) | [(e & H & _) | (msg & H & _)]];
      eapply getOrCreate_append_keeps; eassumption.
  - apply getOrCreateBranchJournalLocked_inv in Hj
      as (Hjo & [(j & Hr & _) | (_ & Hb)]); [discriminate | ].
    now apply same_journals_keeps.
  - apply getOrCreateBranchJournalLocked_inv in Hj
      as (Hjo & [(j & Hr & _) | (_ & Hb)]); [discriminate | ].
    now apply same_journals_keeps.
Qed.

(** [put] keeps the invariant, whatever it returns. *)
Lemma put_keeps_handles_nonempty uid key rmds extra w r w' :
  put pkg s uid key rmds extra w = (r, w') ->
  handles_nonempty w -> handles_nonempty w'.
Proof.
  pose proof keeps_handles_nonempty_refl as Hrefl.
  pose proof keeps_handles_nonempty_trans as Htrans.
  pose proof keeps_handles_nonempty_read as Hread.
  pose proof (respects_put_resolve pkg s _ Hrefl Htrans Hread) as Hres.
  pose proof (respects_put_checkSuccessor pkg s _ Hrefl Htrans) as Hsucc.
  pose proof put_persist_keeps as Hpers.
  assert (Hput : respects keeps_handles_nonempty (put pkg s uid key rmds extra)).
  { unfold put. resp. }
  intros H. exact (Hput _ _ _ H).
Qed.

(** So does every reading operation, and [shutdown]. *)
Lemma reads_keep_handles_nonempty uid bid start stop wkbID rkbID w :
  handles_nonempty w ->
  handles_nonempty (after (journalLength bid) w) /\
  handles_nonempty (after (getForTLF pkg s uid bid) w) /\
  handles_nonempty (after (getRange pkg s uid bid start stop) w) /\
  handles_nonempty (after (getKeyBundles s wkbID rkbID) w) /\
  handles_nonempty (after shutdown w).
Proof.
  pose proof keeps_handles_nonempty_refl as Hrefl.
  pose proof keeps_handles_nonempty_trans as Htrans.
  pose proof keeps_handles_nonempty_read as Hread.
  intros Hinv. unfold after.
  split; [ | split; [ | split; [ | split]]].
  - exact (respects_journalLength _ Hrefl Htrans Hread bid w _ _
             (surjective_pairing _) Hinv).
  - exact (respects_getForTLF pkg s _ Hrefl Htrans Hread uid bid w _ _
             (surjective_pairing _) Hinv).
  - exact (respects_getRange pkg s _ Hrefl Htrans Hread uid bid start stop w _ _
             (surjective_pairing _) Hinv).
  - exact (respects_getKeyBundles s _ Hrefl Htrans Hread wkbID rkbID w _ _
             (surjective_pairing _) Hinv).
  - intros b j H. unfold handle in H. simpl in H. discriminate.
Qed.

End HandlesNonempty.

(** ** [recordBranchID] *)

(** C5.  Take a [put] that succeeds.  When the object is flagged unmerged
    and its branch has no journal handle yet, the head it was checked
    against is the object of the merged history (the null branch) at the
    revision before the object's own, and the call returns
    [recordBranchID = true].  In every other case it returns [false]: here
    the worlds are those in which every handle's journal holds an entry,
    which is so after [makeMDServerTlfStorage] and kept by every operation
    (lemmas [handles_nonempty_initial], [put_keeps_handles_nonempty],
    [reads_keep_handles_nonempty]). *)
Theorem put_recordBranchID pkg s uid key rmds extra w r w' :
  put pkg s uid key rmds extra w = (Ok r, w') ->
  let prevRev := wrap64 (RevisionNumber (MD rmds) - 1) in
  (MergedStatus (MD rmds) = Unmerged ->
   handle w (BID (MD rmds)) = None ->
   r = true /\
   exists head wa wb wc,
     same_store w wa /\
     getRangeReadLocked pkg s uid NullBranchID prevRev prevRev wa
       = (Ok [head], wb) /\
     RevisionNumber (MD head) = prevRev /\
     put_checkSuccessor pkg s (Some head) rmds wb = (Ok tt, wc)) /\
  (handles_nonempty w ->
   (r = true <->
    MergedStatus (MD rmds) = Unmerged /\ handle w (BID (MD rmds)) = None)).
Proof.
  intros Hput prevRev.
  apply put_Ok_inv in Hput as (st & w1 & w2 & _ & Hres & Hsucc & _ & ->).
  apply put_resolve_Ok_inv in Hres as (wa & wb & wc & _ & _ & _ & Hhead & Hsame).
  split.
  - intros Hst Hnone.
    rewrite <- (same_store_handle _ _ _ Hsame) in Hnone.
    rewrite (put_comparisonHead_new_branch pkg s uid rmds wc Hst Hnone) in Hhead.
    apply bind_inv_Ok in Hhead as (rmdses & wd & Hrange & Hhead).
    apply mapErr_inv_Ok in Hrange.
    destruct rmdses as [ | head [ | h' rest]]; try discriminate.
    apply ret_inv in Hhead as [Hhr ->].
    assert (Hsnd : snd st = (Some head, true)) by congruence.
    rewrite Hsnd in Hsucc |- *. simpl in Hsucc |- *.
    split; [reflexivity | ]. exists head, wc, wd, w2.
    repeat split; try assumption; try apply Hsame.
    rewrite (getRangeReadLocked_single pkg s _ _ _ _ _ Hrange).
    apply wrap64_idempotent.
  - intros Hinv.
    rewrite <- (same_store_handle _ _ _ Hsame).
    apply (put_comparisonHead_record pkg s uid rmds wc (snd st) w1);
      [ | assumption].
    eapply same_store_handles_nonempty; eassumption.
Qed.

Lemma handles_nonempty_example : handles_nonempty Example.w2.
Proof.
  apply (put_keeps_handles_nonempty Example.pkg0 Example.s0 "alice" "key"
           (Example.signed Example.md2) None Example.w1 _ _
           (surjective_pairing _)).
  apply (put_keeps_handles_nonempty Example.pkg0 Example.s0 "alice" "key"
           (Example.signed Example.md1) None Example.w0 _ _
           (surjective_pairing _)).
  intros bid j H. discriminate.
Defined.

Lemma put_recordBranchID_witness :
  (true = true /\
   exists head wa wb wc,
     same_store Example.w2 wa /\
     getRangeReadLocked Example.pkg0 Example.s0 "alice" NullBranchID 2 2 wa
       = (Ok [head], wb) /\
     RevisionNumber (MD head) = 2 /\
     put_checkSuccessor Example.pkg0 Example.s0 (Some head)
       (Example.signed Example.md3u) wb = (Ok tt, wc)) /\
  (false = true <->
   MergedStatus Example.md3 = Unmerged /\ handle Example.w2 NullBranchID = None).
Proof.
  split.
  - apply (proj1 (put_recordBranchID Example.pkg0 Example.s0 "alice" "key"
                    (Example.signed Example.md3u) None Example.w2 true _
                    (run_eq _ _ _ ltac:(vm_compute; reflexivity)))).
    + reflexivity.
    + vm_compute. reflexivity.
  - apply (proj2 (put_recordBranchID Example.pkg0 Example.s0 "alice" "key"
                    (Example.signed Example.md3) None Example.w2 false _
                    (run_eq _ _ _ ltac:(vm_compute; reflexivity)))).
    exact handles_nonempty_example.
Defined.

(** * Further properties of the storage *)

(** ** The life cycle: just made, and shut down *)

Lemma lookupBranchJournal_run bid w :
  lookupBranchJournal bid w = (Ok (handle w bid), w).
Proof. reflexivity. Qed.

Lemma getHeadForTLFReadLocked_no_handle s bid w :
  handle w bid = None -> getHeadForTLFReadLocked s bid w = (Ok None, w).
Proof.
  intros H. unfold getHeadForTLFReadLocked.
  rewrite (bind_Ok _ _ _ _ _ (lookupBranchJournal_run bid w)). now rewrite H.
Qed.

(** X1.  A storage just made by [makeMDServerTlfStorage] has an empty map of
    handles, and the reading operations consult nothing else to find a
    branch: whatever the directory already holds, every branch has length
    zero, no head and an empty range, for every caller, and no file is
    touched. *)
Theorem fresh_storage_sees_no_history pkg s w0 uid bid start stop :
  let w := makeMDServerTlfStorage_world w0 in
  journalLength bid w = (Ok 0, w) /\
  getForTLF pkg s uid bid w = (Ok None, w) /\
  getRange pkg s uid bid start stop w = (Ok [], w).
Proof.
  intros w.
  assert (Hopen : branchJournals w <> None) by discriminate.
  assert (Hnone : forall b, handle w b = None).
  { intros b. unfold handle, w. simpl. apply lookup_empty. }
  assert (Hgate : checkGetParamsReadLocked pkg s uid bid w = (Ok tt, w)).
  { apply checkGetParamsReadLocked_no_head.
    apply getHeadForTLFReadLocked_no_handle, Hnone. }
  split; [ | split].
  - unfold journalLength. rewrite not_shutdown_run by assumption.
    rewrite (bind_Ok _ _ _ _ _ (lookupBranchJournal_run bid w)).
    now rewrite Hnone.
  - unfold getForTLF. rewrite not_shutdown_run by assumption.
    rewrite (bind_Ok _ _ _ _ _ Hgate).
    apply mapErr_Ok, getHeadForTLFReadLocked_no_handle, Hnone.
  - unfold getRange. rewrite not_shutdown_run by assumption.
    unfold getRangeReadLocked. rewrite (bind_Ok _ _ _ _ _ Hgate).
    rewrite (bind_Ok _ _ _ _ _ (lookupBranchJournal_run bid w)).
    now rewrite Hnone.
Qed.

(** X2.  Shutdown is final: once the map is nil, no operation brings it back. *)
Theorem shutdown_is_final pkg s w uid key rmds extra bid start stop wkbID rkbID :
  branchJournals w = None ->
  branchJournals (after (put pkg s uid key rmds extra) w) = None /\
  branchJournals (after (journalLength bid) w) = None /\
  branchJournals (after (getForTLF pkg s uid bid) w) = None /\
  branchJournals (after (getRange pkg s uid bid start stop) w) = None /\
  branchJournals (after (getKeyBundles s wkbID rkbID) w) = None /\
  branchJournals (after shutdown w) = None.
Proof.
  intros H. split; [ | split; [ | split; [ | split; [ | split]]]].
  - unfold after. now rewrite (put_after_shutdown pkg s uid key rmds extra w H).
  - unfold after. now rewrite (journalLength_after_shutdown bid w H).
  - unfold after. now rewrite (getForTLF_after_shutdown pkg s uid bid w H).
  - unfold after.
    now rewrite (getRange_after_shutdown pkg s uid bid start stop w H).
  - rewrite same_store_after; [assumption | ].
    apply respects_getKeyBundles;
      first [exact same_store_refl | exact same_store_trans
            | exact same_store_read].
  - reflexivity.
Qed.

Lemma shutdown_is_final_witness :
  let w := after shutdown Example.w2 in
  branchJournals (after (put Example.pkg0 Example.s0 "alice" "key"
                           (Example.signed Example.md3) None) w) = None /\
  branchJournals (after (journalLength NullBranchID) w) = None /\
  branchJournals (after (getForTLF Example.pkg0 Example.s0 "alice"
                           NullBranchID) w) = None /\
  branchJournals (after (getRange Example.pkg0 Example.s0 "alice"
                           NullBranchID 1 2) w) = None /\
  branchJournals (after (getKeyBundles Example.s0 "" "") w) = None /\
  branchJournals (after shutdown w) = None.
Proof.
  apply (shutdown_is_final Example.pkg0 Example.s0 (after shutdown Example.w2)).
  reflexivity.
Defined.

(** ** The key-bundle store *)

Section KeyBundleStore.

Variable s : mdServerTlfStorage.

Lemma writer_reader_paths_differ a b :
  writerKeyBundleV3Path s a <> readerKeyBundleV3Path s b.
Proof.
  unfold writerKeyBundleV3Path, readerKeyBundleV3Path, filepath_Join.
  simpl. intros H. apply app_inv_head in H. discriminate.
Qed.

Lemma checkKeyBundlesV3_Ok_inv c wkbID rkbID wkb rkb w w' :
  checkKeyBundlesV3 c wkbID rkbID wkb rkb w = (Ok tt, w') ->
  MakeTLFWriterKeyBundleID c wkb = Ok wkbID /\
  MakeTLFReaderKeyBundleID c rkb = Ok rkbID /\
  w' = w.
Proof.
  unfold checkKeyBundlesV3. intros H.
  apply bind_inv_Ok in H as (cw & w1 & Hw & H).
  apply lift_inv in Hw as [Hw ->].
  destruct (String.eqb_spec wkbID cw) as [<- | ]; simpl in H; [ | discriminate].
  apply bind_inv_Ok in H as (cr & w2 & Hr & H).
  apply lift_inv in Hr as [Hr ->].
  destruct (String.eqb_spec rkbID cr) as [<- | ]; simpl in H; [ | discriminate].
  apply ret_inv in H as [_ ->]. auto.
Qed.

Lemma checkKeyBundlesV3_Ok c wkb rkb wkbID rkbID w :
  MakeTLFWriterKeyBundleID c wkb = Ok wkbID ->
  MakeTLFReaderKeyBundleID c rkb = Ok rkbID ->
  checkKeyBundlesV3 c wkbID rkbID wkb rkb w = (Ok tt, w).
Proof.
  intros Hw Hr. unfold checkKeyBundlesV3, bind, lift.
  now rewrite Hw, String.eqb_refl, Hr, String.eqb_refl.
Qed.

(** Two stored bundles whose addresses are the requested ids are returned. *)
Lemma getKeyBundlesReadLocked_stored wkbID rkbID wkb rkb w :
  wkbID <> "" -> rkbID <> "" ->
  files w (writerKeyBundleV3Path s wkbID) = Some (FileWKB wkb) ->
  files w (readerKeyBundleV3Path s rkbID) = Some (FileRKB rkb) ->
  MakeTLFWriterKeyBundleID (crypto s) wkb = Ok wkbID ->
  MakeTLFReaderKeyBundleID (crypto s) rkb = Ok rkbID ->
  fst (getKeyBundlesReadLocked s wkbID rkbID w) = Ok (Some (wkb, rkb)).
Proof.
  intros Hw Hr Fw Fr Cw Cr. unfold getKeyBundlesReadLocked.
  rewrite (eqb_empty_false _ Hw), (eqb_empty_false _ Hr). simpl.
  unfold bind at 1. unfold bind at 1. unfold DeserializeFromFile at 1.
  rewrite Fw. simpl.
  unfold bind at 1. unfold bind at 1. unfold DeserializeFromFile at 1.
  simpl. rewrite Fr. simpl.
  unfold bind.
  now rewrite (checkKeyBundlesV3_Ok _ _ _ _ _ _ Cw Cr).
Qed.

Lemma getKeyBundlesReadLocked_Ok_inv wkbID rkbID w r w' :
  getKeyBundlesReadLocked s wkbID rkbID w = (Ok r, w') ->
  match r with
  | None => wkbID = "" /\ rkbID = "" /\ w' = w
  | Some (wkb, rkb) =>
      wkbID <> "" /\ rkbID <> "" /\
      files w (writerKeyBundleV3Path s wkbID) = Some (FileWKB wkb) /\
      files w (readerKeyBundleV3Path s rkbID) = Some (FileRKB rkb) /\
      MakeTLFWriterKeyBundleID (crypto s) wkb = Ok wkbID /\
      MakeTLFReaderKeyBundleID (crypto s) rkb = Ok rkbID
  end.
Proof.
  unfold getKeyBundlesReadLocked.
  destruct (String.eqb_spec wkbID "") as [-> | Hw];
    destruct (String.eqb_spec rkbID "") as [-> | Hr]; simpl;
    try discriminate.
  - intros H. apply ret_inv in H as [H ->]. inversion H. auto.
  - intros H.
    apply bind_inv_Ok in H as (wkb & w1 & Hrw & H).
    apply bind_inv_Ok in Hrw as (d & w0 & Hd & Hrw).
    unfold DeserializeFromFile in Hd.
    destruct (files w (writerKeyBundleV3Path s wkbID)) as [d0 | ] eqn:Fw;
      [ | discriminate].
    inversion Hd; subst d0 w0; clear Hd.
    destruct d as [ | wkb0 | ]; try discriminate.
    apply ret_inv in Hrw as [Hrw ->]. inversion Hrw; subst wkb0; clear Hrw.
    apply bind_inv_Ok in H as (rkb & w2 & Hrr & H).
    apply bind_inv_Ok in Hrr as (d & w0 & Hd & Hrr).
    unfold DeserializeFromFile in Hd. simpl in Hd.
    destruct (files w (readerKeyBundleV3Path s rkbID)) as [d0 | ] eqn:Fr;
      [ | discriminate].
    inversion Hd; subst d0 w0; clear Hd.
    destruct d as [ | | rkb0]; try discriminate.
    apply ret_inv in Hrr as [Hrr ->]. inversion Hrr; subst rkb0; clear Hrr.
    apply bind_inv_Ok in H as ([] & w3 & Hc & H).
    apply ret_inv in H as [H _]. inversion H; subst r.
    apply checkKeyBundlesV3_Ok_inv in Hc as (Cw & Cr & _). auto 10.
Qed.

(** X3.  [getKeyBundles] never hands out a bundle it has not verified: a pair it
    returns is the pair stored at the two paths of the requested ids, and
    each bundle's recomputed address is the id it was asked for.  It answers
    "absent" only for two empty ids, and then without any access. *)
Theorem getKeyBundles_returns_verified wkbID rkbID w r w' :
  getKeyBundles s wkbID rkbID w = (Ok r, w') ->
  match r with
  | None => wkbID = "" /\ rkbID = "" /\ w' = w
  | Some (wkb, rkb) =>
      wkbID <> "" /\ rkbID <> "" /\
      files w (writerKeyBundleV3Path s wkbID) = Some (FileWKB wkb) /\
      files w (readerKeyBundleV3Path s rkbID) = Some (FileRKB rkb) /\
      MakeTLFWriterKeyBundleID (crypto s) wkb = Ok wkbID /\
      MakeTLFReaderKeyBundleID (crypto s) rkb = Ok rkbID
  end.
Proof. unfold getKeyBundles. apply getKeyBundlesReadLocked_Ok_inv. Qed.

(** What a successful [putExtraMetadataLocked] did. *)
Lemma putExtraMetadataLocked_Ok_inv rmds extra w w' :
  putExtraMetadataLocked s rmds extra w = (Ok tt, w') ->
  extra = None /\ w' = w \/
  exists wkb rkb,
    extra = Some (ExtraMetadataV3 wkb rkb) /\
    GetTLFWriterKeyBundleID (MD rmds) <> "" /\
    GetTLFReaderKeyBundleID (MD rmds) <> "" /\
    MakeTLFWriterKeyBundleID (crypto s) wkb
      = Ok (GetTLFWriterKeyBundleID (MD rmds)) /\
    MakeTLFReaderKeyBundleID (crypto s) rkb
      = Ok (GetTLFReaderKeyBundleID (MD rmds)) /\
    files w' =
      <[readerKeyBundleV3Path s (GetTLFReaderKeyBundleID (MD rmds))
          := Some (FileRKB rkb)]>
        (<[writerKeyBundleV3Path s (GetTLFWriterKeyBundleID (MD rmds))
             := Some (FileWKB wkb)]> (files w)) /\
    journals w' = journals w /\
    branchJournals w' = branchJournals w.
Proof.
  unfold putExtraMetadataLocked. destruct extra as [ex | ].
  2: { intros H. apply ret_inv in H as [_ ->]. now left. }
  destruct (String.eqb_spec (GetTLFWriterKeyBundleID (MD rmds)) "") as [ | Hw];
    [discriminate | ].
  destruct (String.eqb_spec (GetTLFReaderKeyBundleID (MD rmds)) "") as [ | Hr];
    [discriminate | ].
  destruct ex as [wkb rkb | tag]; [ | discriminate].
  intros H. right. exists wkb, rkb.
  apply bind_inv_Ok in H as ([] & w1 & Hc & H).
  apply checkKeyBundlesV3_Ok_inv in Hc as (Cw & Cr & ->).
  apply bind_inv_Ok in H as ([] & w2 & Hsw & Hsr).
  apply SerializeToFile_Ok_inv in Hsw as (Fw & Jw & Bw & _ & _).
  apply SerializeToFile_Ok_inv in Hsr as (Fr & Jr & Br & _ & _).
  repeat split; try assumption; congruence.
Qed.

(** X4.  Bundles written by [putExtraMetadataLocked] are read back by
    [getKeyBundles] under the ids of the metadata: what was stored had been
    verified against those ids, and the two files do not collide. *)
Theorem putExtraMetadataLocked_round_trip rmds wkb rkb w w1 :
  putExtraMetadataLocked s rmds (Some (ExtraMetadataV3 wkb rkb)) w
    = (Ok tt, w1) ->
  fst (getKeyBundles s (GetTLFWriterKeyBundleID (MD rmds))
         (GetTLFReaderKeyBundleID (MD rmds)) w1) = Ok (Some (wkb, rkb)) /\
  fst (getExtraMetadataReadLocked s (GetTLFWriterKeyBundleID (MD rmds))
         (GetTLFReaderKeyBundleID (MD rmds)) w1)
    = Ok (Some (ExtraMetadataV3 wkb rkb)).
Proof.
  intros H.
  apply putExtraMetadataLocked_Ok_inv in H
    as [[H _] | (wkb' & rkb' & Hex & Hw & Hr & Cw & Cr & Hf & _)];
    [discriminate | ].
  inversion Hex; subst wkb' rkb'; clear Hex.
  assert (Hget : fst (getKeyBundlesReadLocked s
                        (GetTLFWriterKeyBundleID (MD rmds))
                        (GetTLFReaderKeyBundleID (MD rmds)) w1)
                 = Ok (Some (wkb, rkb))).
  { apply getKeyBundlesReadLocked_stored; try assumption.
    - rewrite Hf, fn_lookup_insert_ne, fn_lookup_insert; [reflexivity | ].
      intros E. symmetry in E. revert E. apply writer_reader_paths_differ.
    - rewrite Hf. apply fn_lookup_insert. }
  split; [exact Hget | ].
  unfold getExtraMetadataReadLocked, bind.
  destruct (getKeyBundlesReadLocked s _ _ w1) as [o w2]. simpl in Hget.
  now subst o.
Qed.

(** X5.  A bundle is never persisted under an address that is not its own: when
    either recomputed address differs from the id in the metadata,
    [putExtraMetadataLocked] fails with an integrity error before writing
    anything, the matching bundle included. *)
Theorem putExtraMetadataLocked_rejects_wrong_address
  rmds wkb rkb computedWKBID computedRKBID w :
  GetTLFWriterKeyBundleID (MD rmds) <> "" ->
  GetTLFReaderKeyBundleID (MD rmds) <> "" ->
  MakeTLFWriterKeyBundleID (crypto s) wkb = Ok computedWKBID ->
  MakeTLFReaderKeyBundleID (crypto s) rkb = Ok computedRKBID ->
  computedWKBID <> GetTLFWriterKeyBundleID (MD rmds) \/
  computedRKBID <> GetTLFReaderKeyBundleID (MD rmds) ->
  exists e,
    putExtraMetadataLocked s rmds (Some (ExtraMetadataV3 wkb rkb)) w
      = (Err e, w) /\
    isIntegrityError e = true.
Proof.
  intros Hw Hr Cw Cr Hne. unfold putExtraMetadataLocked.
  rewrite (eqb_empty_false _ Hw), (eqb_empty_false _ Hr).
  unfold bind at 1. unfold checkKeyBundlesV3, bind, lift. rewrite Cw.
  destruct (String.eqb_spec (GetTLFWriterKeyBundleID (MD rmds)) computedWKBID)
    as [Ew | Ew]; simpl.
  - rewrite Cr.
    destruct (String.eqb_spec (GetTLFReaderKeyBundleID (MD rmds)) computedRKBID)
      as [Er | Er]; simpl.
    + destruct Hne; congruence.
    + eexists. split; reflexivity.
  - eexists. split; reflexivity.
Qed.

End KeyBundleStore.

Lemma getKeyBundles_returns_verified_witness :
  "01w" <> "" /\ "01r" <> "" /\
  files Example.wk (writerKeyBundleV3Path Example.s0 "01w")
    = Some (FileWKB Example.wkb0) /\
  files Example.wk (readerKeyBundleV3Path Example.s0 "01r")
    = Some (FileRKB Example.rkb0) /\
  MakeTLFWriterKeyBundleID Example.crypto0 Example.wkb0 = Ok "01w" /\
  MakeTLFReaderKeyBundleID Example.crypto0 Example.rkb0 = Ok "01r".
Proof.
  apply (getKeyBundles_returns_verified Example.s0 "01w" "01r" Example.wk
           (Some (Example.wkb0, Example.rkb0))
           (after (getKeyBundles Example.s0 "01w" "01r") Example.wk)).
  apply run_eq. vm_compute. reflexivity.
Defined.

Lemma putExtraMetadataLocked_round_trip_witness :
  let w1 := after (putExtraMetadataLocked Example.s0
                     (Example.signed Example.md2k) (Some Example.extra0))
              Example.w0 in
  fst (getKeyBundles Example.s0 "01w" "01r" w1)
    = Ok (Some (Example.wkb0, Example.rkb0)) /\
  fst (getExtraMetadataReadLocked Example.s0 "01w" "01r" w1)
    = Ok (Some Example.extra0).
Proof.
  apply (putExtraMetadataLocked_round_trip Example.s0
           (Example.signed Example.md2k) Example.wkb0 Example.rkb0 Example.w0).
  apply (run_eq (putExtraMetadataLocked Example.s0
                   (Example.signed Example.md2k) (Some Example.extra0))).
  vm_compute. reflexivity.
Defined.

Lemma putExtraMetadataLocked_rejects_wrong_address_witness :
  exists e,
    putExtraMetadataLocked Example.s0 (Example.signed Example.md2k)
      (Some (ExtraMetadataV3 (mkWKB "forged") Example.rkb0)) Example.w0
      = (Err e, Example.w0) /\
    isIntegrityError e = true.
Proof.
  apply (putExtraMetadataLocked_rejects_wrong_address Example.s0
           (Example.signed Example.md2k) (mkWKB "forged") Example.rkb0
           "01forged" "01r" Example.w0);
    try discriminate; try reflexivity.
  left. discriminate.
Defined.

(** ** The object store, continued *)

Section ObjectStoreMore.

Variable s : mdServerTlfStorage.

(** The path of an id of at least four characters: the first four name the
    directory, the rest, unless empty, the file. *)
Lemma mdPath_Ok_inv id p :
  mdPath s id = Ok p ->
  exists a b c d rest,
    id = String a (String b (String c (String d rest))) /\
    p = (mdsPath s ++
         String a (String b (String c (String d ""))) ::
         match rest with "" => [] | _ => [rest] end)%list.
Proof.
  unfold mdPath.
  destruct id as [ | a [ | b [ | c [ | d rest]]]]; simpl; try discriminate.
  intros H. inversion H; subst p; clear H.
  exists a, b, c, d, rest. split; [reflexivity | ].
  assert (Hrest : forall r : string, substring 0 (String.length r) r = r).
  { induction r as [ | x r IH]; simpl; [reflexivity | now rewrite IH]. }
  unfold filepath_Join. f_equal. simpl. f_equal.
  - now destruct rest.
  - rewrite Nat.sub_0_r, Hrest. now destruct rest.
Qed.

(** X6.  Two ids never share an object file. *)
Theorem mdPath_injective id id' p :
  mdPath s id = Ok p -> mdPath s id' = Ok p -> id = id'.
Proof.
  intros H H'.
  apply mdPath_Ok_inv in H as (a & b & c & d & rest & -> & ->).
  apply mdPath_Ok_inv in H' as (a' & b' & c' & d' & rest' & -> & H').
  apply app_inv_head in H'.
  destruct rest, rest'; inversion H'; reflexivity.
Qed.

(** An object file is never below the directory of the branch journals. *)
Lemma mdPath_not_journal_dir id p :
  mdPath s id = Ok p -> ~ branchJournalsPath s `prefix_of` p.
Proof.
  intros H. apply mdPath_Ok_inv in H as (a & b & c & d & rest & _ & ->).
  unfold branchJournalsPath, mdsPath, filepath_Join. simpl.
  intros [k Hk]. rewrite <- !app_assoc in Hk.
  apply app_inv_head in Hk. discriminate.
Qed.

(** When [getMDReadLocked] fails on a path that holds a file, the error is
    the codec's, a collaborator's, or the id mismatch. *)
Lemma getMDReadLocked_Err_inv id p d w e w' :
  mdPath s id = Ok p ->
  files w p = Some d ->
  getMDReadLocked s id w = (Err e, w') ->
  w' = logged (OpRead p) w /\
  (e = ErrCodec p \/
   (exists srmds,
      d = FileRMDS srmds /\
      (DecodeRootMetadataSigned (codec s) (tlfID s) (SVersion srmds) (mdVer s)
         (EncodedRMDS srmds) (Timestamp srmds) = Err e \/
       exists other,
         DecodeRootMetadataSigned (codec s) (tlfID s) (SVersion srmds)
           (mdVer s) (EncodedRMDS srmds) (Timestamp srmds) = Ok other /\
         (MakeMdID (crypto s) (MD other) = Err e \/
          exists otherID,
            MakeMdID (crypto s) (MD other) = Ok otherID /\
            otherID <> id /\ e = ErrMdIDMismatch id otherID)))).
Proof.
  intros Hp Hf.
  unfold getMDReadLocked, bind, lift, DeserializeFromFile, asRMDS, throw, ret.
  rewrite Hp, Hf.
  destruct d as [srmds | wkb | rkb];
    try (intros H; inversion H; split; [reflexivity | now left]).
  destruct (DecodeRootMetadataSigned _ _ _ _ _ _) as [other | e0 | msg] eqn:Hd;
    [ | intros H; inversion H; subst; split; [reflexivity | ];
        right; exists srmds; split; [reflexivity | now left]
      | discriminate].
  destruct (MakeMdID _ _) as [otherID | e0 | msg] eqn:Hm;
    [ | intros H; inversion H; subst; split; [reflexivity | ];
        right; exists srmds; split; [reflexivity | ];
        right; exists other; split; [exact Hd | now left]
      | discriminate].
  destruct (String.eqb_spec id otherID) as [ | Hne]; simpl; [discriminate | ].
  intros H. inversion H; subst. split; [reflexivity | ].
  right. exists srmds. split; [reflexivity | ].
  right. exists other. split; [exact Hd | ].
  right. exists otherID. auto.
Qed.

(** X7.  [putMDLocked] never overwrites: when a file is already at the path of
    the object's id, be it the object, a damaged envelope or anything else,
    the call changes no file, whatever it returns.  (The collaborators are
    assumed not to report not-exist errors of their own.) *)
Theorem putMDLocked_never_overwrites rmds id p d w r w' :
  (forall v1 v2 bytes t e,
     DecodeRootMetadataSigned (codec s) (tlfID s) v1 v2 bytes t = Err e ->
     os_IsNotExist e = false) ->
  (forall md e, MakeMdID (crypto s) md = Err e -> os_IsNotExist e = false) ->
  MakeMdID (crypto s) (MD rmds) = Ok id ->
  mdPath s id = Ok p ->
  files w p = Some d ->
  putMDLocked s rmds w = (r, w') ->
  w' = logged (OpRead p) w /\ files w' = files w.
Proof.
  intros Hdec Hmk Hid Hp Hf H. unfold putMDLocked in H.
  unfold bind at 1, lift in H. rewrite Hid in H.
  pose proof (getMDReadLocked_world s id w) as Hw. rewrite Hp in Hw.
  apply bind_inv in H
    as [(a & w1 & Hget & H) | [(e & Hget & _) | (msg & Hget & _)]];
    apply attempt_inv in Hget
      as [(x & Hget & Hr) | [(e' & Hget & Hr) | (m & Hget & Hr)]];
    try discriminate Hr; rewrite Hget in Hw; simpl in Hw; subst.
  - inversion Hr; subst a. apply ret_inv in H as [_ ->]. split; reflexivity.
  - inversion Hr; subst a.
    destruct (getMDReadLocked_Err_inv _ _ _ _ _ _ Hp Hf Hget) as (_ & He).
    assert (Hno : os_IsNotExist e' = false).
    { destruct He as [-> | (srmds & _ & [Hd | (other & _ & [Hm | Hmis])])].
      - reflexivity.
      - eapply Hdec; eassumption.
      - eapply Hmk; eassumption.
      - destruct Hmis as (otherID & _ & _ & ->). reflexivity. }
    rewrite Hno in H. inversion H. split; reflexivity.
  - split; reflexivity.
Qed.

End ObjectStoreMore.

Lemma mdPath_injective_witness : "0100r1" = "0100r1".
Proof.
  apply (mdPath_injective Example.s0 "0100r1" "0100r1"
           ["tlf"; "mds"; "0100"; "r1"]); reflexivity.
Defined.

Lemma putMDLocked_never_overwrites_witness :
  let p := ["tlf"; "mds"; "0100"; "r1"] in
  after (putMDLocked Example.s0 (Example.signed Example.md1)) Example.w1
    = logged (OpRead p) Example.w1 /\
  files (after (putMDLocked Example.s0 (Example.signed Example.md1)) Example.w1)
    = files Example.w1.
Proof.
  apply (putMDLocked_never_overwrites Example.s0 (Example.signed Example.md1)
           "0100r1" ["tlf"; "mds"; "0100"; "r1"]
           (FileRMDS (mkSerializedRMDS "r1" 0 3)) Example.w1
           (fst (putMDLocked Example.s0 (Example.signed Example.md1) Example.w1))).
  - intros v1 v2 bytes t e H.
    cbv [Example.s0 codec Example.codec0 DecodeRootMetadataSigned] in H.
    destruct (Example.lookup_table _ _); inversion H. reflexivity.
  - intros md e H. discriminate.
  - reflexivity.
  - reflexivity.
  - vm_compute. reflexivity.
  - apply surjective_pairing.
Defined.

(** ** What the read path returns *)

Section ReadPath.

Variable pkg : Package.
Variable s : mdServerTlfStorage.

(** A gate that lets the caller through found no merged head, or found the
    caller to be a reader of it. *)
Lemma checkGetParamsReadLocked_Ok_inv uid bid w w' :
  checkGetParamsReadLocked pkg s uid bid w = (Ok tt, w') ->
  same_store w w' /\
  (fst (getHeadForTLFReadLocked s NullBranchID w) = Ok None \/
   exists head w1 extra w2,
     getHeadForTLFReadLocked s NullBranchID w = (Ok (Some head), w1) /\
     getExtraMetadataReadLocked s (GetTLFWriterKeyBundleID (MD head))
       (GetTLFReaderKeyBundleID (MD head)) w1 = (Ok extra, w2) /\
     isReader pkg uid (MD head) extra = Ok true).
Proof.
  intros H. split.
  { eapply (respects_checkGetParamsReadLocked pkg s same_store);
      eauto using same_store_refl, same_store_trans, same_store_read. }
  unfold checkGetParamsReadLocked in H.
  apply bind_inv_Ok in H as (mh & w1 & Hhead & H).
  apply mapErr_inv_Ok in Hhead. destruct mh as [head | ].
  - right.
    apply bind_inv_Ok in H as (extra & w2 & Hex & H).
    apply mapErr_inv_Ok in Hex.
    apply bind_inv_Ok in H as (ok & w3 & Hok & H).
    apply mapErr_inv_Ok, lift_inv in Hok as [Hok ->].
    destruct ok; [ | discriminate]. eauto 8.
  - left. now rewrite Hhead.
Qed.

(** X8.  [getForTLF] and [getRange] answer readers only: a call that returns
    without error either found no merged head at all, or checked that the
    caller reads the merged head with its bundles. *)
Theorem reads_only_for_readers uid bid start stop w :
  (forall o w', getForTLF pkg s uid bid w = (Ok o, w') ->
     fst (getHeadForTLFReadLocked s NullBranchID w) = Ok None \/
     exists head w1 extra w2,
       getHeadForTLFReadLocked s NullBranchID w = (Ok (Some head), w1) /\
       getExtraMetadataReadLocked s (GetTLFWriterKeyBundleID (MD head))
         (GetTLFReaderKeyBundleID (MD head)) w1 = (Ok extra, w2) /\
       isReader pkg uid (MD head) extra = Ok true) /\
  (forall l w', getRange pkg s uid bid start stop w = (Ok l, w') ->
     fst (getHeadForTLFReadLocked s NullBranchID w) = Ok None \/
     exists head w1 extra w2,
       getHeadForTLFReadLocked s NullBranchID w = (Ok (Some head), w1) /\
       getExtraMetadataReadLocked s (GetTLFWriterKeyBundleID (MD head))
         (GetTLFReaderKeyBundleID (MD head)) w1 = (Ok extra, w2) /\
       isReader pkg uid (MD head) extra = Ok true).
Proof.
  split.
  - intros o w' H. unfold getForTLF in H.
    apply bind_inv_Ok in H as (sd & w0 & Hsd & H).
    inversion Hsd; subst w0. destruct sd; [discriminate | ].
    apply bind_inv_Ok in H as ([] & w1 & Hgate & _).
    now apply checkGetParamsReadLocked_Ok_inv in Hgate as [_ Hgate].
  - intros l w' H. unfold getRange in H.
    apply bind_inv_Ok in H as (sd & w0 & Hsd & H).
    inversion Hsd; subst w0. destruct sd; [discriminate | ].
    unfold getRangeReadLocked in H.
    apply bind_inv_Ok in H as ([] & w1 & Hgate & _).
    now apply checkGetParamsReadLocked_Ok_inv in Hgate as [_ Hgate].
Qed.

(** The head of a branch is the object of its journal's latest entry, and
    has passed the integrity check against that entry's id. *)
Lemma getHeadForTLFReadLocked_Some_inv bid w h w' :
  getHeadForTLFReadLocked s bid w = (Ok (Some h), w') ->
  exists j e,
    handle w bid = Some j /\
    last (jEntries (journal_data w j)) = Some e /\
    MakeMdID (crypto s) (MD h) = Ok (ID e).
Proof.
  unfold getHeadForTLFReadLocked. intros H.
  apply bind_inv_Ok in H as (jo & w0 & Hl & H).
  assert (Hh : handle w bid = jo /\ w0 = w).
  { unfold lookupBranchJournal, gets in Hl. now inversion Hl. }
  clear Hl. destruct Hh as [Hh ->].
  destruct jo as [j | ]; [ | apply ret_inv in H as [H _]; discriminate].
  apply bind_inv_Ok in H as (latest & w1 & Hlat & H).
  unfold journal_getLatestEntry in Hlat. inversion Hlat; subst; clear Hlat.
  destruct (last (jEntries (journal_data w j))) as [e | ] eqn:Hlast;
    [ | apply ret_inv in H as [H _]; discriminate].
  apply bind_inv_Ok in H as (rmds & w2 & Hget & H).
  apply ret_inv in H as [H _]. inversion H; subst rmds.
  apply getMDReadLocked_Ok_inv in Hget as (_ & _ & _ & _ & _ & Hid & _).
  eauto.
Qed.

(** X9.  What [getForTLF] returns is the verified object of the latest entry of
    the branch's journal; it returns none only for a branch without a handle
    or with an empty journal. *)
Theorem getForTLF_returns_latest_verified uid bid w o w' :
  getForTLF pkg s uid bid w = (Ok o, w') ->
  match o with
  | Some h =>
      exists j e,
        handle w bid = Some j /\
        last (jEntries (journal_data w j)) = Some e /\
        MakeMdID (crypto s) (MD h) = Ok (ID e)
  | None =>
      handle w bid = None \/
      exists j, handle w bid = Some j /\ jEntries (journal_data w j) = []
  end.
Proof.
  unfold getForTLF. intros H.
  apply bind_inv_Ok in H as (sd & w0 & Hsd & H).
  inversion Hsd; subst w0. destruct sd; [discriminate | ].
  apply bind_inv_Ok in H as ([] & w1 & Hgate & H).
  apply checkGetParamsReadLocked_Ok_inv in Hgate as [Hsame _].
  apply mapErr_inv_Ok in H. destruct o as [h | ].
  - apply getHeadForTLFReadLocked_Some_inv in H as (j & e & Hj & Hlast & Hid).
    exists j, e. rewrite <- (same_store_handle _ _ _ Hsame).
    rewrite <- (same_store_journal_data _ _ _ Hsame). auto.
  - apply getHeadForTLFReadLocked_Ok_inv in H.
    rewrite (same_store_handle _ _ _ Hsame) in H.
    destruct H as [[H _] | (j & Hj & He)]; [now left | right].
    exists j. now rewrite <- (same_store_journal_data _ _ _ Hsame).
Qed.

(** The loop of [getRangeReadLocked] returns one verified object per entry,
    the [k]-th carrying revision [realStart + i + k]. *)
Lemma getRange_loop_spec entries : forall realStart i acc w res w',
  getRange_loop s realStart i entries acc w = (Ok res, w') ->
  exists tl,
    res = (acc ++ tl)%list /\
    length tl = length entries /\
    forall (k : nat) h,
      tl !! k = Some h ->
      RevisionNumber (MD h) = wrap64 (realStart + Z.of_nat (i + k)) /\
      exists e, entries !! k = Some e /\
                MakeMdID (crypto s) (MD h) = Ok (ID e).
Proof.
  induction entries as [ | e rest IH]; intros realStart i acc w res w' H;
    simpl in H.
  - apply ret_inv in H as [H _]. inversion H. exists [].
    rewrite app_nil_r. split; [reflexivity | split; [reflexivity | ]].
    intros k h Hk. now rewrite lookup_nil in Hk.
  - apply bind_inv_Ok in H as (rmds & w1 & Hget & H).
    apply mapErr_inv_Ok in Hget.
    apply getMDReadLocked_Ok_inv in Hget as (_ & _ & _ & _ & _ & Hid & _).
    destruct (Z.eqb_spec (wrap64 (realStart + Z.of_nat i))
                (RevisionNumber (MD rmds))) as [Hrev | ];
      simpl in H; [ | discriminate].
    apply IH in H as (tl & -> & Hlen & Htl). exists (rmds :: tl).
    rewrite <- app_assoc. split; [reflexivity | ].
    split; [simpl; now rewrite Hlen | ].
    intros [ | k] h Hk; simpl in Hk.
    + inversion Hk; subst h. rewrite Nat.add_0_r. split; [now symmetry | ].
      exists e. auto.
    + destruct (Htl k h Hk) as (Hr & e' & He' & Hid').
      split; [ | exists e'; auto].
      rewrite Hr. f_equal. lia.
Qed.

(** X10.  A range returned by [getRange] holds, for each journal entry of the
    range and in order, the object stored under that entry's id, verified,
    and the objects' own revisions count up by one from the first revision of
    the range.  A branch without a handle has the empty range. *)
Theorem getRange_consecutive_verified uid bid start stop w l w' :
  getRange pkg s uid bid start stop w = (Ok l, w') ->
  match handle w bid with
  | None => l = []
  | Some j =>
      exists realStart entries,
        fst (journal_getEntryRange j start stop w) = Ok (realStart, entries) /\
        length l = length entries /\
        forall (k : nat) h,
          l !! k = Some h ->
          RevisionNumber (MD h) = wrap64 (realStart + Z.of_nat k) /\
          exists e, entries !! k = Some e /\
                    MakeMdID (crypto s) (MD h) = Ok (ID e)
  end.
Proof.
  unfold getRange. intros H.
  apply bind_inv_Ok in H as (sd & w0 & Hsd & H).
  inversion Hsd; subst w0. destruct sd; [discriminate | ].
  unfold getRangeReadLocked in H.
  apply bind_inv_Ok in H as ([] & w1 & Hgate & H).
  apply checkGetParamsReadLocked_Ok_inv in Hgate as [Hsame _].
  apply bind_inv_Ok in H as (jo & w2 & Hl & H).
  assert (Hh : handle w1 bid = jo /\ w2 = w1).
  { unfold lookupBranchJournal, gets in Hl. now inversion Hl. }
  clear Hl. destruct Hh as [Hh ->].
  rewrite (same_store_handle _ _ _ Hsame) in Hh. rewrite Hh.
  destruct jo as [j | ].
  - apply bind_inv_Ok in H as ([realStart entries] & w3 & Hrange & H).
    simpl in H. apply getRange_loop_spec in H as (tl & -> & Hlen & Htl).
    exists realStart, entries. split; [ | split; [exact Hlen | exact Htl]].
    assert (Hdata : journal_data w1 j = journal_data w j)
      by now apply same_store_journal_data.
    unfold journal_getEntryRange in Hrange |- *. rewrite Hdata in Hrange.
    destruct (jEntries (journal_data w j)); [ | destruct (_ <? _)];
      inversion Hrange; reflexivity.
  - apply ret_inv in H as [H _]. now inversion H.
Qed.

End ReadPath.

Lemma reads_only_for_readers_witness :
  fst (getHeadForTLFReadLocked Example.s0 NullBranchID Example.w2) = Ok None \/
  exists head w1 extra w2,
    getHeadForTLFReadLocked Example.s0 NullBranchID Example.w2
      = (Ok (Some head), w1) /\
    getExtraMetadataReadLocked Example.s0 (GetTLFWriterKeyBundleID (MD head))
      (GetTLFReaderKeyBundleID (MD head)) w1 = (Ok extra, w2) /\
    isReader Example.pkg0 "bob" (MD head) extra = Ok true.
Proof.
  apply (proj1 (reads_only_for_readers Example.pkg0 Example.s0 "bob"
                  NullBranchID 1 2 Example.w2)
           (Some (Example.signed Example.md2))
           (after (getForTLF Example.pkg0 Example.s0 "bob" NullBranchID)
              Example.w2)).
  apply run_eq. vm_compute. reflexivity.
Defined.

Lemma getForTLF_returns_latest_verified_witness :
  exists j e,
    handle Example.w2 NullBranchID = Some j /\
    last (jEntries (journal_data Example.w2 j)) = Some e /\
    MakeMdID Example.crypto0 Example.md2 = Ok (ID e).
Proof.
  apply (getForTLF_returns_latest_verified Example.pkg0 Example.s0 "bob"
           NullBranchID Example.w2 (Some (Example.signed Example.md2))
           (after (getForTLF Example.pkg0 Example.s0 "bob" NullBranchID)
              Example.w2)).
  apply run_eq. vm_compute. reflexivity.
Defined.

Lemma getRange_consecutive_verified_witness :
  match handle Example.w2 NullBranchID with
  | None => [Example.signed Example.md1; Example.signed Example.md2] = []
  | Some j =>
      exists realStart entries,
        fst (journal_getEntryRange j 1 2 Example.w2) = Ok (realStart, entries) /\
        length [Example.signed Example.md1; Example.signed Example.md2]
          = length entries /\
        forall (k : nat) h,
          [Example.signed Example.md1; Example.signed Example.md2] !! k
            = Some h ->
          RevisionNumber (MD h) = wrap64 (realStart + Z.of_nat k) /\
          exists e, entries !! k = Some e /\
                    MakeMdID (crypto Example.s0) (MD h) = Ok (ID e)
  end.
Proof.
  apply (getRange_consecutive_verified Example.pkg0 Example.s0 "alice"
           NullBranchID 1 2 Example.w2
           [Example.signed Example.md1; Example.signed Example.md2]
           (after (getRange Example.pkg0 Example.s0 "alice" NullBranchID 1 2)
              Example.w2)).
  apply run_eq. vm_compute. reflexivity.
Defined.

(** ** Refusals of the write path *)

Section PutRefusals.

Variable pkg : Package.
Variable s : mdServerTlfStorage.

(** X11.  Every refusal of [put] is all-or-nothing: when it returns an error that
    is neither the generic storage error nor the error of creating the
    journal directory (so: shutdown, bad request, unauthorized, or the error
    of the successor check), no file, no journal and no handle has changed. *)
Theorem put_refusals_change_nothing uid key rmds extra w e w' :
  put pkg s uid key rmds extra w = (Err e, w') ->
  isMDServerError e = false ->
  (forall q, e <> ErrNotDir q) ->
  files w' = files w /\
  dirs w' = dirs w /\
  journals w' = journals w /\
  branchJournals w' = branchJournals w.
Proof.
  intros H Hwrap Hdir.
  assert (Hsame : same_store w w').
  { unfold put in H.
    apply bind_inv in H as [(sd & w0 & Hsd & H) | [(e0 & Hsd & _) | (m & Hsd & _)]];
      inversion Hsd; subst w0; clear Hsd.
    destruct sd; [inversion H; apply same_store_refl | ].
    apply bind_inv in H as [(st & w1 & Hres & H) | [(e0 & Hres & _) | (m & _ & Hr)]];
      [ | eapply put_resolve_same_store; eassumption | discriminate Hr].
    apply put_resolve_same_store in Hres.
    apply bind_inv in H as [([] & w2 & Hs & H) | [(e0 & Hs & _) | (m & _ & Hr)]];
      [ | | discriminate Hr].
    - apply bind_inv in H
        as [([] & w3 & Hp & H) | [(e0 & Hp & He) | (m & _ & Hr)]];
        [apply ret_inv in H as [H _]; discriminate | | discriminate Hr].
      inversion He; subst e0. exfalso.
      apply put_persist_errors in Hp as [Hp | [q Hq]].
      + congruence.
      + exact (Hdir q Hq).
    - eapply same_store_trans; [exact Hres | ].
      eapply (respects_put_checkSuccessor pkg s same_store);
        eauto using same_store_refl, same_store_trans. }
  destruct Hsame as (? & ? & ? & ? & ?). auto.
Qed.

(** X12.  A caller who is neither a writer of the merged head nor the author of a
    valid rekey is refused with Unauthorized, for any branch, once the
    object itself has been found valid. *)
Theorem put_unauthorized uid key rmds extra w extra' wa head wb prevExtra wc :
  branchJournals w <> None ->
  put_resolveExtra s rmds extra w = (Ok extra', wa) ->
  IsValidAndSigned pkg rmds extra' = None ->
  IsLastModifiedBy pkg rmds uid key = None ->
  getHeadForTLFReadLocked s NullBranchID wa = (Ok (Some head), wb) ->
  getExtraMetadataReadLocked s (GetTLFWriterKeyBundleID (MD head))
    (GetTLFReaderKeyBundleID (MD head)) wb = (Ok prevExtra, wc) ->
  isWriterOrValidRekey pkg uid (MD head) (MD rmds) prevExtra extra' = Ok false ->
  put pkg s uid key rmds extra w = (Err MDServerErrorUnauthorized, wc).
Proof.
  intros Hopen Hex Hvalid Hlast Hhead Hprev Hw.
  unfold put. rewrite not_shutdown_run by assumption.
  unfold put_resolve.
  assert (Hperm : put_checkPermissions pkg s uid rmds extra' wa
                  = (Err MDServerErrorUnauthorized, wc)).
  { unfold put_checkPermissions. run. unfold bind, mapErr, lift.
    now rewrite Hw. }
  assert (Hval : put_validate pkg uid key rmds extra' wa = (Ok tt, wa)).
  { unfold put_validate. now rewrite Hvalid, Hlast. }
  assert (Hres : (extra0 <- put_resolveExtra s rmds extra ;;
                  put_validate pkg uid key rmds extra0 ;;;
                  put_checkPermissions pkg s uid rmds extra0 ;;;
                  hr <- put_comparisonHead pkg s uid rmds ;;
                  ret (extra0, hr)) w = (Err MDServerErrorUnauthorized, wc)).
  { rewrite (bind_Ok _ _ _ _ _ Hex). rewrite (bind_Ok _ _ _ _ _ Hval).
    now rewrite (bind_Err _ _ _ _ _ Hperm). }
  now rewrite (bind_Err _ _ _ _ _ Hres).
Qed.

(** X13.  An object that is not valid and signed, or not last modified by the
    caller, is refused as a bad request carrying the text of the validation
    error.  This is decided before the permission check, and after no more
    disk access than the lookup of the object's bundles. *)
Theorem put_bad_request uid key rmds extra w extra' wa err :
  branchJournals w <> None ->
  put_resolveExtra s rmds extra w = (Ok extra', wa) ->
  IsValidAndSigned pkg rmds extra' = Some err \/
  IsValidAndSigned pkg rmds extra' = None /\
  IsLastModifiedBy pkg rmds uid key = Some err ->
  put pkg s uid key rmds extra w
    = (Err (MDServerErrorBadRequest (Error err)), wa).
Proof.
  intros Hopen Hex Hbad.
  unfold put. rewrite not_shutdown_run by assumption.
  unfold put_resolve.
  assert (Hval : put_validate pkg uid key rmds extra' wa
                 = (Err (MDServerErrorBadRequest (Error err)), wa)).
  { unfold put_validate. destruct Hbad as [-> | [-> ->]]; reflexivity. }
  assert (Hres : (extra0 <- put_resolveExtra s rmds extra ;;
                  put_validate pkg uid key rmds extra0 ;;;
                  put_checkPermissions pkg s uid rmds extra0 ;;;
                  hr <- put_comparisonHead pkg s uid rmds ;;
                  ret (extra0, hr)) w
                 = (Err (MDServerErrorBadRequest (Error err)), wa)).
  { rewrite (bind_Ok _ _ _ _ _ Hex). now rewrite (bind_Err _ _ _ _ _ Hval). }
  now rewrite (bind_Err _ _ _ _ _ Hres).
Qed.

End PutRefusals.

Lemma put_refusals_change_nothing_witness :
  let w' := after (put Example.pkg0 Example.s0 "bob" "key"
                     (Example.signed Example.md3) None) Example.w2 in
  files w' = files Example.w2 /\
  dirs w' = dirs Example.w2 /\
  journals w' = journals Example.w2 /\
  branchJournals w' = branchJournals Example.w2.
Proof.
  apply (put_refusals_change_nothing Example.pkg0 Example.s0 "bob" "key"
           (Example.signed Example.md3) None Example.w2
           MDServerErrorUnauthorized).
  - apply run_eq. vm_compute. reflexivity.
  - reflexivity.
  - discriminate.
Defined.

Lemma put_unauthorized_witness :
  let wb := after (getHeadForTLFReadLocked Example.s0 NullBranchID)
              Example.w2 in
  let wc := after (getExtraMetadataReadLocked Example.s0 "" "") wb in
  put Example.pkg0 Example.s0 "bob" "key" (Example.signed Example.md3) None
    Example.w2 = (Err MDServerErrorUnauthorized, wc).
Proof.
  apply (put_unauthorized Example.pkg0 Example.s0 "bob" "key"
           (Example.signed Example.md3) None Example.w2 None Example.w2
           (Example.signed Example.md2)
           (after (getHeadForTLFReadLocked Example.s0 NullBranchID) Example.w2)
           None).
  - apply open_by_computation. vm_compute. reflexivity.
  - reflexivity.
  - reflexivity.
  - reflexivity.
  - apply run_eq. vm_compute. reflexivity.
  - apply (run_eq (getExtraMetadataReadLocked Example.s0 "" "")).
    vm_compute. reflexivity.
  - reflexivity.
Defined.

Lemma put_bad_request_witness :
  put Example.pkg1 Example.s0 "alice" "key" (Example.forged Example.md3) None
    Example.w2 = (Err (MDServerErrorBadRequest "bad signature"), Example.w2).
Proof.
  apply (put_bad_request Example.pkg1 Example.s0 "alice" "key"
           (Example.forged Example.md3) None Example.w2 None Example.w2
           (ErrCollab "bad signature")).
  - apply open_by_computation. vm_compute. reflexivity.
  - reflexivity.
  - left. reflexivity.
Defined.

(** ** What a successful [put] leaves behind *)

Lemma journal_append_Ok_inv j r e w w' :
  journal_append j r e w = (Ok tt, w') ->
  jEntries (journal_data w' j) = (jEntries (journal_data w j) ++ [e])%list /\
  (jEntries (journal_data w j) <> [] ->
   r = jEarliest (journal_data w j) +
       Z.of_nat (length (jEntries (journal_data w j)))) /\
  files w' = files w /\
  branchJournals w' = branchJournals w /\
  (forall d, d <> jdir j -> journals w' d = journals w d).
Proof.
  unfold journal_append.
  destruct (jEntries (journal_data w j)) as [ | e0 rest] eqn:He.
  - intros H. inversion H. unfold journal_data at 1. simpl.
    rewrite fn_lookup_insert. simpl.
    split; [reflexivity | ]. split; [intros Hne; now destruct Hne | ].
    split; [reflexivity | ]. split; [reflexivity | ].
    intros d Hd. now apply fn_lookup_insert_ne.
  - destruct (Z.eqb_spec r (jEarliest (journal_data w j) +
                            Z.of_nat (length (e0 :: rest)))) as [Hr | ];
      [ | discriminate].
    intros H. inversion H. unfold journal_data at 1. simpl.
    rewrite fn_lookup_insert. simpl.
    split; [reflexivity | ]. split; [intros _; exact Hr | ].
    split; [reflexivity | ]. split; [reflexivity | ].
    intros d Hd. now apply fn_lookup_insert_ne.
Qed.

Section PutEffects.

Variable pkg : Package.
Variable s : mdServerTlfStorage.

Lemma writer_path_under_keybundles id :
  under_keybundles s (writerKeyBundleV3Path s id).
Proof.
  left. unfold writerKeyBundleV3Path, filepath_Join. simpl.
  exists (if negb (id =? "")%string then [id] else []).
  now rewrite <- app_assoc.
Qed.

Lemma reader_path_under_keybundles id :
  under_keybundles s (readerKeyBundleV3Path s id).
Proof.
  right. unfold readerKeyBundleV3Path, filepath_Join. simpl.
  exists (if negb (id =? "")%string then [id] else []).
  now rewrite <- app_assoc.
Qed.

(** A stored envelope that decodes to an object of the requested address is
    what [getMDReadLocked] returns. *)
Lemma getMDReadLocked_stored id p srmds rmds w :
  mdPath s id = Ok p ->
  files w p = Some (FileRMDS srmds) ->
  DecodeRootMetadataSigned (codec s) (tlfID s) (SVersion srmds) (mdVer s)
    (EncodedRMDS srmds) (Timestamp srmds) = Ok rmds ->
  MakeMdID (crypto s) (MD rmds) = Ok id ->
  getMDReadLocked s id w = (Ok rmds, logged (OpRead p) w).
Proof.
  intros Hp Hf Hd Hm.
  unfold getMDReadLocked, bind, lift, DeserializeFromFile, asRMDS, ret.
  rewrite Hp, Hf. simpl. rewrite Hd, Hm. now rewrite String.eqb_refl.
Qed.

Lemma getHeadForTLFReadLocked_run bid w j e h w1 :
  handle w bid = Some j ->
  last (jEntries (journal_data w j)) = Some e ->
  getMDReadLocked s (ID e) (logged (OpJournalRead (jdir j)) w) = (Ok h, w1) ->
  getHeadForTLFReadLocked s bid w = (Ok (Some h), w1).
Proof.
  intros Hj Hlast Hget. unfold getHeadForTLFReadLocked.
  rewrite (bind_Ok _ _ _ _ _ (lookupBranchJournal_run bid w)). rewrite Hj.
  unfold bind at 1, journal_getLatestEntry. rewrite Hlast.
  now rewrite (bind_Ok _ _ _ _ _ Hget).
Qed.

(** The steps of a successful [put], with what each left in the stores. *)
Lemma put_Ok_effects uid key rmds extra w r w' :
  put pkg s uid key rmds extra w = (Ok r, w') ->
  exists id p j w2 w3 w4,
    MakeMdID (crypto s) (MD rmds) = Ok id /\
    mdPath s id = Ok p /\
    same_store w w2 /\
    putMDLocked s rmds w2 = (Ok id, w3) /\
    files w4 p = files w3 p /\
    files w' = files w4 /\
    handle w' (BID (MD rmds)) = Some j /\
    (handle w (BID (MD rmds)) = Some j \/
     handle w (BID (MD rmds)) = None /\
     j = makeMdIDJournal
           (filepath_Join (branchJournalsPath s) [BID (MD rmds)])) /\
    jEntries (journal_data w' j)
      = (jEntries (journal_data w j) ++ [mkEntry id])%list /\
    (jEntries (journal_data w j) <> [] ->
     RevisionNumber (MD rmds)
       = jEarliest (journal_data w j) +
         Z.of_nat (length (jEntries (journal_data w j)))).
Proof.
  intros H.
  apply put_Ok_inv in H as (st & w1 & w2 & _ & Hres & Hsucc & Hpers & _).
  apply put_resolve_same_store in Hres.
  assert (Hsame : same_store w w2).
  { eapply same_store_trans; [exact Hres | ].
    eapply (respects_put_checkSuccessor pkg s same_store);
      eauto using same_store_refl, same_store_trans. }
  apply put_persist_Ok_inv in Hpers
    as (id & w3 & w4 & j & w5 & Hmd & Hex & Hj & Happ).
  pose proof (putMDLocked_returns_hash s _ _ _ _ Hmd) as Hid.
  destruct (putMDLocked_Ok_inv s _ _ _ _ Hmd) as (p & Hp & _).
  pose proof (putMDLocked_same_journals s rmds _ _ _ Hmd) as [Hb3 Hj3].
  pose proof (putExtraMetadataLocked_same_journals s rmds _ _ _ _ Hex)
    as [Hb4 Hj4].
  assert (Hfp : files w4 p = files w3 p).
  { apply putExtraMetadataLocked_Ok_inv in Hex
      as [[_ ->] | (wkb & rkb & _ & _ & _ & _ & _ & Hf & _)];
      [reflexivity | ].
    rewrite Hf.
    rewrite !fn_lookup_insert_ne; [reflexivity | | ];
      intros E; apply (mdPath_not_under_keybundles s _ _ Hp); rewrite <- E;
      [apply writer_path_under_keybundles | apply reader_path_under_keybundles]. }
  apply getOrCreateBranchJournalLocked_Ok_inv in Hj
    as (Hnew & _ & Hwas & Hf5 & Hj5).
  apply journal_append_Ok_inv in Happ as (Hent & Hrev & Hf' & Hb' & _).
  assert (Hdata : journal_data w5 j = journal_data w j).
  { unfold journal_data. rewrite Hj5, Hj4, Hj3.
    destruct Hsame as (_ & _ & _ & Hjw & _). now rewrite Hjw. }
  assert (Hh4 : forall b, handle w4 b = handle w b).
  { intros b. rewrite (handle_eq _ _ _ Hb4), (handle_eq _ _ _ Hb3).
    now apply same_store_handle. }
  exists id, p, j, w2, w3, w4.
  rewrite Hdata in Hent, Hrev. rewrite Hh4 in Hwas.
  repeat split; try assumption; try apply Hsame.
  - congruence.
  - now rewrite (handle_eq _ _ _ Hb').
Qed.

(** X14.  A successful [put] appends exactly one entry to the journal of the
    object's branch, the content address of the object; when the journal had
    entries, the object's revision is the one after the latest; and
    [journalLength] of the branch is one more than before. *)
Theorem put_appends_one_entry uid key rmds extra w r w' :
  put pkg s uid key rmds extra w = (Ok r, w') ->
  exists id j,
    MakeMdID (crypto s) (MD rmds) = Ok id /\
    handle w' (BID (MD rmds)) = Some j /\
    jEntries (journal_data w' j)
      = (jEntries (journal_data w j) ++ [mkEntry id])%list /\
    (jEntries (journal_data w j) <> [] ->
     RevisionNumber (MD rmds)
       = jEarliest (journal_data w j) +
         Z.of_nat (length (jEntries (journal_data w j)))) /\
    fst (journalLength (BID (MD rmds)) w')
      = Ok (Z.of_nat (length (jEntries (journal_data w j))) + 1).
Proof.
  intros H.
  destruct (put_Ok_effects _ _ _ _ _ _ _ H)
    as (id & p & j & w2 & w3 & w4 & Hid & _ & _ & _ & _ & _ & Hj & _ & Hent & Hrev).
  exists id, j. repeat split; try assumption.
  unfold journalLength.
  assert (Hopen : branchJournals w' <> None).
  { unfold handle in Hj. destruct (branchJournals w'); discriminate. }
  rewrite not_shutdown_run by assumption.
  rewrite (bind_Ok _ _ _ _ _ (lookupBranchJournal_run _ w')). rewrite Hj.
  unfold journal_length. simpl. rewrite Hent, length_app. simpl.
  f_equal. lia.
Qed.

(** X15.  Read your write: after a successful [put], with a codec that decodes
    what it encoded, the head of the object's branch is an object with the
    content address of the one just put, and [getForTLF] returns it to every
    caller the gate lets through. *)
Theorem put_read_your_write uid key rmds extra w r w' :
  (forall bytes t,
     EncodeRootMetadataSigned (codec s) rmds = Ok bytes ->
     exists back,
       DecodeRootMetadataSigned (codec s) (tlfID s) (Version (MD rmds))
         (mdVer s) bytes t = Ok back /\
       MD back = MD rmds) ->
  put pkg s uid key rmds extra w = (Ok r, w') ->
  exists id back,
    MakeMdID (crypto s) (MD rmds) = Ok id /\
    MakeMdID (crypto s) (MD back) = Ok id /\
    fst (getHeadForTLFReadLocked s (BID (MD rmds)) w') = Ok (Some back) /\
    forall reader w'',
      checkGetParamsReadLocked pkg s reader (BID (MD rmds)) w' = (Ok tt, w'') ->
      exists back',
        fst (getForTLF pkg s reader (BID (MD rmds)) w') = Ok (Some back') /\
        MakeMdID (crypto s) (MD back') = Ok id.
Proof.
  intros Hround H.
  destruct (put_Ok_effects _ _ _ _ _ _ _ H)
    as (id & p & j & w2 & w3 & w4 & Hid & Hp & Hsame & Hmd & Hf4 & Hf' & Hj
        & _ & Hent & _).
  (* the envelope at the object's path, once [put] is over *)
  assert (Hfile : exists srmds back,
            files w' p = Some (FileRMDS srmds) /\
            DecodeRootMetadataSigned (codec s) (tlfID s) (SVersion srmds)
              (mdVer s) (EncodedRMDS srmds) (Timestamp srmds) = Ok back /\
            MakeMdID (crypto s) (MD back) = Ok id).
  { rewrite Hf', Hf4.
    destruct (putMDLocked_Ok_inv s _ _ _ _ Hmd)
      as (p' & Hp' & [(stored & Hget) | (bytes & Henc & Hf & _)]);
      assert (p' = p) as -> by congruence.
    - apply getMDReadLocked_Ok_inv in Hget
        as (p' & srmds & Hp'' & Hfile & Hdec & Hm & ->).
      assert (p' = p) as -> by congruence.
      exists srmds, stored. auto.
    - destruct (Hround bytes (now w2) Henc) as (back & Hdec & Hback).
      exists (mkSerializedRMDS bytes (now w2) (Version (MD rmds))), back.
      rewrite Hf, fn_lookup_insert. simpl.
      repeat split; [exact Hdec | now rewrite Hback]. }
  destruct Hfile as (srmds & back & Hfile & Hdec & Hm).
  assert (Hlast : last (jEntries (journal_data w' j)) = Some (mkEntry id)).
  { rewrite Hent. apply last_snoc. }
  assert (Hhead : forall w1,
            same_store w' w1 ->
            fst (getHeadForTLFReadLocked s (BID (MD rmds)) w1)
              = Ok (Some back)).
  { intros w1 Hs1.
    erewrite getHeadForTLFReadLocked_run; [reflexivity | | | ].
    - rewrite (same_store_handle _ _ _ Hs1). exact Hj.
    - rewrite (same_store_journal_data _ _ _ Hs1). exact Hlast.
    - simpl. apply getMDReadLocked_stored with (srmds := srmds).
      + exact Hp.
      + simpl. destruct Hs1 as (_ & Hfs & _). now rewrite Hfs.
      + exact Hdec.
      + exact Hm. }
  exists id, back. repeat split; try assumption.
  - apply Hhead, same_store_refl.
  - intros reader w'' Hgate. exists back. split; [ | assumption].
    assert (Hopen : branchJournals w' <> None).
    { unfold handle in Hj. destruct (branchJournals w'); discriminate. }
    unfold getForTLF. rewrite not_shutdown_run by assumption.
    rewrite (bind_Ok _ _ _ _ _ Hgate).
    apply checkGetParamsReadLocked_Ok_inv in Hgate as [Hs1 _].
    specialize (Hhead w'' Hs1).
    unfold mapErr.
    destruct (getHeadForTLFReadLocked s (BID (MD rmds)) w'') as [o wx].
    simpl in Hhead. now subst o.
Qed.

End PutEffects.

Lemma put_appends_one_entry_witness :
  let rmds := Example.signed Example.md3 in
  let w' := after (put Example.pkg0 Example.s0 "alice" "key" rmds None)
              Example.w2 in
  exists id j,
    MakeMdID (crypto Example.s0) (MD rmds) = Ok id /\
    handle w' (BID (MD rmds)) = Some j /\
    jEntries (journal_data w' j)
      = (jEntries (journal_data Example.w2 j) ++ [mkEntry id])%list /\
    (jEntries (journal_data Example.w2 j) <> [] ->
     RevisionNumber (MD rmds)
       = jEarliest (journal_data Example.w2 j) +
         Z.of_nat (length (jEntries (journal_data Example.w2 j)))) /\
    fst (journalLength (BID (MD rmds)) w')
      = Ok (Z.of_nat (length (jEntries (journal_data Example.w2 j))) + 1).
Proof.
  apply (put_appends_one_entry Example.pkg0 Example.s0 "alice" "key"
           (Example.signed Example.md3) None Example.w2 false).
  apply run_eq. vm_compute. reflexivity.
Defined.

Lemma put_read_your_write_witness :
  let rmds := Example.signed Example.md3 in
  let w' := after (put Example.pkg0 Example.s0 "alice" "key" rmds None)
              Example.w2 in
  exists id back,
    MakeMdID (crypto Example.s0) (MD rmds) = Ok id /\
    MakeMdID (crypto Example.s0) (MD back) = Ok id /\
    fst (getHeadForTLFReadLocked Example.s0 (BID (MD rmds)) w')
      = Ok (Some back) /\
    forall reader w'',
      checkGetParamsReadLocked Example.pkg0 Example.s0 reader (BID (MD rmds)) w'
        = (Ok tt, w'') ->
      exists back',
        fst (getForTLF Example.pkg0 Example.s0 reader (BID (MD rmds)) w')
          = Ok (Some back') /\
        MakeMdID (crypto Example.s0) (MD back') = Ok id.
Proof.
  apply (put_read_your_write Example.pkg0 Example.s0 "alice" "key"
           (Example.signed Example.md3) None Example.w2 false).
  - intros bytes t H. inversion H. eexists. split; reflexivity.
  - apply run_eq. vm_compute. reflexivity.
Defined.

(** ** The first write of a branch *)

Lemma find_ext_in {A} (f g : A -> bool) (l : list A) :
  (forall x, In x l -> f x = g x) -> find f l = find g l.
Proof.
  induction l as [ | a l IH]; intros H; simpl; [reflexivity | ].
  rewrite (H a (or_introl eq_refl)). destruct (g a); [reflexivity | ].
  apply IH. intros x Hx. apply H. now right.
Qed.

Lemma in_prefixes_prefix (q d : list string) :
  In q (prefixes d) -> q `prefix_of` d.
Proof.
  unfold prefixes. rewrite in_map_iff. intros (n & <- & _).
  exists (drop n d). symmetry. apply take_drop.
Qed.

Section FirstWrite.

Variable pkg : Package.
Variable s : mdServerTlfStorage.

(** An absent object is written: one read, then one write at its path. *)
Lemma putMDLocked_writes rmds id p bytes w :
  MakeMdID (crypto s) (MD rmds) = Ok id ->
  mdPath s id = Ok p ->
  files w p = None ->
  EncodeRootMetadataSigned (codec s) rmds = Ok bytes ->
  find (is_file w) (prefixes (removelast p)) = None ->
  putMDLocked s rmds w =
    (Ok id,
     set_files
       (<[p := Some (FileRMDS (mkSerializedRMDS bytes (now w)
                                 (Version (MD rmds))))]> (files w))
       (add_dirs (prefixes (removelast p)) (dirs w))
       (logged (OpWrite p) (logged (OpRead p) w))).
Proof.
  intros Hid Hp Hf Henc Hfree. unfold putMDLocked.
  unfold bind at 1, lift. rewrite Hid.
  assert (Hget : attempt (getMDReadLocked s id) w
                 = (Ok (inl (ErrNotExist p)), logged (OpRead p) w)).
  { unfold attempt, getMDReadLocked, bind, lift, DeserializeFromFile.
    now rewrite Hp, Hf. }
  rewrite (bind_Ok _ _ _ _ _ Hget). simpl.
  unfold bind at 1, lift. rewrite Henc.
  unfold bind at 1, clock_Now, gets.
  unfold bind at 1, lift. rewrite Hp.
  unfold bind, SerializeToFile.
  change (is_file (logged (OpRead p) w)) with (is_file w).
  now rewrite Hfree.
Qed.

(** A branch without a handle gets one for its directory. *)
Lemma getOrCreateBranchJournalLocked_creates bid m w :
  branchJournals w = Some m ->
  m !! bid = None ->
  find (is_file w) (prefixes (filepath_Join (branchJournalsPath s) [bid]))
    = None ->
  getOrCreateBranchJournalLocked s bid w =
    (Ok (makeMdIDJournal (filepath_Join (branchJournalsPath s) [bid])),
     set_branchJournals
       (Some (<[bid := makeMdIDJournal
                         (filepath_Join (branchJournalsPath s) [bid])]> m))
       (set_dirs
          (add_dirs (prefixes (filepath_Join (branchJournalsPath s) [bid]))
             (dirs w))
          (logged (OpMkdirAll (filepath_Join (branchJournalsPath s) [bid]))
             w))).
Proof.
  intros Hm Hnone Hfree. unfold getOrCreateBranchJournalLocked.
  rewrite (bind_Ok _ _ _ _ _ (lookupBranchJournal_run bid w)).
  unfold handle. rewrite Hm, Hnone.
  unfold bind at 1, MkdirAll. rewrite Hfree.
  unfold bind, storeBranchJournal. simpl. now rewrite Hm.
Qed.

(** X16.  The first write of a branch, on a namespace with no merged history yet:
    whoever the caller is, a valid merged object that references no bundles
    is stored, provided no regular file is in the way of the two directories
    that have to exist.  [put] returns [recordBranchID = false]; afterwards
    the envelope is at the path of the object's content address, the branch
    has a handle for its directory, and its journal starts at the object's
    revision with the one entry. *)
Theorem put_first_write uid key rmds id p bytes m w :
  branchJournals w = Some m ->
  m !! NullBranchID = None ->
  m !! BID (MD rmds) = None ->
  MergedStatus (MD rmds) = Merged ->
  GetTLFWriterKeyBundleID (MD rmds) = "" ->
  GetTLFReaderKeyBundleID (MD rmds) = "" ->
  IsValidAndSigned pkg rmds None = None ->
  IsLastModifiedBy pkg rmds uid key = None ->
  MakeMdID (crypto s) (MD rmds) = Ok id ->
  mdPath s id = Ok p ->
  files w p = None ->
  EncodeRootMetadataSigned (codec s) rmds = Ok bytes ->
  find (is_file w) (prefixes (removelast p)) = None ->
  find (is_file w)
    (prefixes (filepath_Join (branchJournalsPath s) [BID (MD rmds)])) = None ->
  journals w (filepath_Join (branchJournalsPath s) [BID (MD rmds)]) = None ->
  exists w',
    put pkg s uid key rmds None w = (Ok false, w') /\
    files w' =
      <[p := Some (FileRMDS (mkSerializedRMDS bytes (now w)
                               (Version (MD rmds))))]> (files w) /\
    branchJournals w' =
      Some (<[BID (MD rmds) :=
                makeMdIDJournal
                  (filepath_Join (branchJournalsPath s) [BID (MD rmds)])]> m) /\
    journals w' =
      <[filepath_Join (branchJournalsPath s) [BID (MD rmds)] :=
          Some (mkJournalData (RevisionNumber (MD rmds)) [mkEntry id])]>
        (journals w).
Proof.
  intros Hm Hnull Hbid Hmerged Hwkb Hrkb Hvalid Hlast Hid Hp Hf Henc
         Hfree1 Hfree2 Hjournal.
  set (d := filepath_Join (branchJournalsPath s) [BID (MD rmds)]) in *.
  assert (Hopen : branchJournals w <> None) by (rewrite Hm; discriminate).
  assert (Hhandle : forall b, m !! b = None -> handle w b = None).
  { intros b Hb. unfold handle. now rewrite Hm. }
  (* the steps before anything is persisted *)
  assert (Hres : put_resolve pkg s uid key rmds None w
                 = (Ok (None, (None, false)), w)).
  { unfold put_resolve.
    assert (H1 : put_resolveExtra s rmds None w = (Ok None, w)).
    { unfold put_resolveExtra. now rewrite Hwkb, Hrkb. }
    assert (H2 : put_validate pkg uid key rmds None w = (Ok tt, w)).
    { unfold put_validate. now rewrite Hvalid, Hlast. }
    assert (H3 : put_checkPermissions pkg s uid rmds None w = (Ok tt, w)).
    { unfold put_checkPermissions.
      erewrite bind_Ok
        by (apply mapErr_Ok, getHeadForTLFReadLocked_no_handle, Hhandle, Hnull).
      reflexivity. }
    assert (H4 : put_comparisonHead pkg s uid rmds w = (Ok (None, false), w)).
    { unfold put_comparisonHead. rewrite Hmerged.
      erewrite bind_Ok
        by (apply mapErr_Ok, getHeadForTLFReadLocked_no_handle, Hhandle, Hbid).
      reflexivity. }
    rewrite (bind_Ok _ _ _ _ _ H1), (bind_Ok _ _ _ _ _ H2).
    rewrite (bind_Ok _ _ _ _ _ H3), (bind_Ok _ _ _ _ _ H4). reflexivity. }
  (* the object *)
  pose proof (putMDLocked_writes rmds id p bytes w Hid Hp Hf Henc Hfree1) as Hmd.
  set (w3 := set_files _ _ _) in Hmd.
  (* the handle: the new object file is not in the way *)
  assert (Hfree3 : find (is_file w3) (prefixes d) = None).
  { rewrite <- Hfree2. apply find_ext_in. intros q Hq.
    unfold is_file, w3. simpl. rewrite fn_lookup_insert_ne; [reflexivity | ].
    intros ->. apply in_prefixes_prefix in Hq.
    apply (mdPath_not_journal_dir s _ _ Hp).
    destruct Hq as [k Hk].
    apply mdPath_Ok_inv in Hp as (a & b & c & e & rest & _ & Hpp).
    exfalso. revert Hk. rewrite Hpp. unfold d, branchJournalsPath, mdsPath,
      filepath_Join. simpl. rewrite <- !app_assoc. intros Hk.
    apply app_inv_head in Hk. simpl in Hk.
    destruct (negb _); discriminate. }
  pose proof (getOrCreateBranchJournalLocked_creates (BID (MD rmds)) m w3
                Hm Hbid Hfree3) as Hj.
  fold d in Hj. set (w5 := set_branchJournals _ _) in Hj.
  assert (Happ : journal_append (makeMdIDJournal d) (RevisionNumber (MD rmds))
                   (mkEntry id) w5
                 = (Ok tt,
                    set_journals
                      (<[d := Some (mkJournalData (RevisionNumber (MD rmds))
                                      [mkEntry id])]> (journals w5))
                      (logged (OpJournalAppend d) w5))).
  { unfold journal_append, journal_data. simpl. now rewrite Hjournal. }
  eexists. split; [ | split; [ | split]].
  - unfold put. rewrite not_shutdown_run by assumption.
    rewrite (bind_Ok _ _ _ _ _ Hres). simpl.
    unfold bind at 1, ret. unfold put_persist.
    erewrite (bind_Ok (bind _ _)); [reflexivity | ].
    erewrite bind_Ok by (apply mapErr_Ok; exact Hmd).
    erewrite bind_Ok by (apply mapErr_Ok; reflexivity).
    rewrite (bind_Ok _ _ _ _ _ Hj).
    apply mapErr_Ok. exact Happ.
  - reflexivity.
  - reflexivity.
  - reflexivity.
Qed.

End FirstWrite.

Lemma put_first_write_witness :
  exists w',
    put Example.pkg0 Example.s0 "mallory" "key" (Example.signed Example.md1)
      None Example.w0 = (Ok false, w') /\
    files w' =
      <[ ["tlf"; "mds"; "0100"; "r1"] :=
           Some (FileRMDS (mkSerializedRMDS "r1" (now Example.w0) 3))]>
        (files Example.w0) /\
    branchJournals w' =
      Some (<[NullBranchID :=
                makeMdIDJournal
                  (filepath_Join (branchJournalsPath Example.s0)
                     [NullBranchID])]> ∅) /\
    journals w' =
      <[filepath_Join (branchJournalsPath Example.s0) [NullBranchID] :=
          Some (mkJournalData 1 [mkEntry "0100r1"])]>
        (journals Example.w0).
Proof.
  apply (put_first_write Example.pkg0 Example.s0 "mallory" "key"
           (Example.signed Example.md1) "0100r1"
           ["tlf"; "mds"; "0100"; "r1"] "r1" ∅ Example.w0);
    try reflexivity; try apply lookup_empty.
Defined.

(** ** Further edges of the write path *)

Section PutEdges.

Variable pkg : Package.
Variable s : mdServerTlfStorage.

(** X17.  An unmerged branch cannot be the first thing written: with no merged
    history to branch off, [put] of an unmerged object on a new branch finds
    no object at the preceding revision and fails, having changed nothing. *)
Theorem put_unmerged_needs_merged_history uid key rmds extra w extra' wa :
  branchJournals w <> None ->
  put_resolveExtra s rmds extra w = (Ok extra', wa) ->
  IsValidAndSigned pkg rmds extra' = None ->
  IsLastModifiedBy pkg rmds uid key = None ->
  handle w NullBranchID = None ->
  handle w (BID (MD rmds)) = None ->
  MergedStatus (MD rmds) = Unmerged ->
  put pkg s uid key rmds extra w
    = (Err (MDServerError (ErrExpectedOneMD 0)), wa) /\
  same_store w wa.
Proof.
  intros Hopen Hex Hvalid Hlast Hnull Hbid Hst.
  assert (Hsame : same_store w wa).
  { eapply (respects_put_resolveExtra s same_store);
      eauto using same_store_refl, same_store_trans, same_store_read. }
  split; [ | exact Hsame].
  assert (Hnull' : handle wa NullBranchID = None)
    by now rewrite (same_store_handle _ _ _ Hsame).
  assert (Hbid' : handle wa (BID (MD rmds)) = None)
    by now rewrite (same_store_handle _ _ _ Hsame).
  assert (Hval : put_validate pkg uid key rmds extra' wa = (Ok tt, wa)).
  { unfold put_validate. now rewrite Hvalid, Hlast. }
  assert (Hperm : put_checkPermissions pkg s uid rmds extra' wa = (Ok tt, wa)).
  { unfold put_checkPermissions.
    erewrite bind_Ok
      by (apply mapErr_Ok, getHeadForTLFReadLocked_no_handle, Hnull').
    reflexivity. }
  assert (Hhead : put_comparisonHead pkg s uid rmds wa
                  = (Err (MDServerError (ErrExpectedOneMD 0)), wa)).
  { rewrite (put_comparisonHead_new_branch pkg s uid rmds wa Hst Hbid').
    assert (Hrange : mapErr MDServerError
                       (getRangeReadLocked pkg s uid NullBranchID
                          (wrap64 (RevisionNumber (MD rmds) - 1))
                          (wrap64 (RevisionNumber (MD rmds) - 1))) wa
                     = (Ok [], wa)).
    { apply mapErr_Ok. unfold getRangeReadLocked.
      erewrite bind_Ok
        by (apply checkGetParamsReadLocked_no_head,
              getHeadForTLFReadLocked_no_handle, Hnull').
      rewrite (bind_Ok _ _ _ _ _ (lookupBranchJournal_run _ wa)).
      now rewrite Hnull'. }
    now rewrite (bind_Ok _ _ _ _ _ Hrange). }
  unfold put. rewrite not_shutdown_run by assumption.
  assert (Hres : put_resolve pkg s uid key rmds extra w
                 = (Err (MDServerError (ErrExpectedOneMD 0)), wa)).
  { unfold put_resolve.
    rewrite (bind_Ok _ _ _ _ _ Hex), (bind_Ok _ _ _ _ _ Hval).
    rewrite (bind_Ok _ _ _ _ _ Hperm). now rewrite (bind_Err _ _ _ _ _ Hhead). }
  now rewrite (bind_Err _ _ _ _ _ Hres).
Qed.

(** X18.  Bundles supplied with an object that names no writer or no reader
    bundle make [put] panic, and only after the object has been stored:
    the world the panic leaves is the one after [putMDLocked]. *)
Theorem put_bundles_without_ids_panics uid key rmds ex w st w1 w2 id w3 :
  branchJournals w <> None ->
  put_resolve pkg s uid key rmds (Some ex) w = (Ok st, w1) ->
  put_checkSuccessor pkg s (fst (snd st)) rmds w1 = (Ok tt, w2) ->
  putMDLocked s rmds w2 = (Ok id, w3) ->
  GetTLFWriterKeyBundleID (MD rmds) = "" \/
  GetTLFReaderKeyBundleID (MD rmds) = "" ->
  exists msg, put pkg s uid key rmds (Some ex) w = (Panic msg, w3).
Proof.
  intros Hopen Hres Hsucc Hmd Hempty.
  destruct (put_resolve_extra _ _ _ _ _ _ _ _ _ Hres) as (wx & Hex).
  assert (Hfst : fst st = Some ex).
  { unfold put_resolveExtra in Hex. apply ret_inv in Hex as [Hex _].
    now inversion Hex. }
  assert (Hpanic : exists msg,
            putExtraMetadataLocked s rmds (Some ex) w3 = (Panic msg, w3)).
  { unfold putExtraMetadataLocked.
    destruct (String.eqb_spec (GetTLFWriterKeyBundleID (MD rmds)) "") as [ | Hw].
    - eexists. reflexivity.
    - destruct Hempty as [Hw' | Hr]; [contradiction | ].
      rewrite Hr. simpl. eexists. reflexivity. }
  destruct Hpanic as (msg & Hpanic). exists msg.
  unfold put. rewrite not_shutdown_run by assumption.
  rewrite (bind_Ok _ _ _ _ _ Hres), (bind_Ok _ _ _ _ _ Hsucc).
  rewrite Hfst. unfold put_persist.
  apply bind_Panic.
  erewrite bind_Ok by (apply mapErr_Ok; exact Hmd).
  apply bind_Panic. unfold mapErr. now rewrite Hpanic.
Qed.

End PutEdges.

Lemma put_unmerged_needs_merged_history_witness :
  put Example.pkg0 Example.s0 "alice" "key" (Example.signed Example.md2u) None
    Example.w0 = (Err (MDServerError (ErrExpectedOneMD 0)), Example.w0) /\
  same_store Example.w0 Example.w0.
Proof.
  apply (put_unmerged_needs_merged_history Example.pkg0 Example.s0 "alice" "key"
           (Example.signed Example.md2u) None Example.w0 None Example.w0);
    try reflexivity; try apply lookup_empty.
  discriminate.
Defined.

Lemma put_bundles_without_ids_panics_witness :
  exists msg,
    put Example.pkg0 Example.s0 "alice" "key" (Example.signed Example.md1)
      (Some Example.extra0) Example.w0
    = (Panic msg,
       after (putMDLocked Example.s0 (Example.signed Example.md1)) Example.w0).
Proof.
  apply (put_bundles_without_ids_panics Example.pkg0 Example.s0 "alice" "key"
           (Example.signed Example.md1) Example.extra0 Example.w0
           (Some Example.extra0, (None, false)) Example.w0 Example.w0 "0100r1").
  - discriminate.
  - reflexivity.
  - reflexivity.
  - apply run_eq. vm_compute. reflexivity.
  - left. reflexivity.
Defined.

(** ** The footprint of [put] *)

Section PutFootprint.

Variable pkg : Package.
Variable s : mdServerTlfStorage.
Variable rmds : RootMetadataSigned.

Lemma within_footprint_refl jd w : within_footprint s rmds jd w w.
Proof. split; [ | split]; intros; reflexivity. Qed.

Lemma within_footprint_trans jd a b c :
  within_footprint s rmds jd a b -> within_footprint s rmds jd b c ->
  within_footprint s rmds jd a c.
Proof.
  intros (F1 & J1 & H1) (F2 & J2 & H2). split; [ | split].
  - intros q Hw Hr Hm. now rewrite F2, F1.
  - intros d Hd. now rewrite J2, J1.
  - intros b' Hb. now rewrite H2, H1.
Qed.

(** A step that keeps handles and journals is within the footprint as soon
    as its file writes are. *)
Lemma within_footprint_files jd w w' :
  same_journals w w' ->
  (forall q,
     q <> writerKeyBundleV3Path s (GetTLFWriterKeyBundleID (MD rmds)) ->
     q <> readerKeyBundleV3Path s (GetTLFReaderKeyBundleID (MD rmds)) ->
     (forall id, MakeMdID (crypto s) (MD rmds) = Ok id -> mdPath s id <> Ok q) ->
     files w' q = files w q) ->
  within_footprint s rmds jd w w'.
Proof.
  intros [Hb Hj] Hf. split; [exact Hf | split].
  - intros d _. now rewrite Hj.
  - intros b _. unfold handle. now rewrite Hb.
Qed.

Lemma same_store_within_footprint jd w w' :
  same_store w w' -> within_footprint s rmds jd w w'.
Proof.
  intros (Hb & Hf & _ & Hj & _). apply within_footprint_files.
  - now split.
  - intros q _ _ _. now rewrite Hf.
Qed.

Lemma SerializeToFile_files d p w r w' q :
  SerializeToFile d p w = (r, w') -> q <> p -> files w' q = files w q.
Proof.
  unfold SerializeToFile. destruct (find _ _); intros H Hq; inversion H.
  - reflexivity.
  - simpl. now apply fn_lookup_insert_ne.
Qed.

(** [putMDLocked] writes no file but the one at the path of the object's
    content address. *)
Lemma putMDLocked_files w r w' q :
  putMDLocked s rmds w = (r, w') ->
  (forall id, MakeMdID (crypto s) (MD rmds) = Ok id -> mdPath s id <> Ok q) ->
  files w' q = files w q.
Proof.
  intros H Hq. unfold putMDLocked in H.
  apply bind_inv in H as [(id & w0 & Hid & H) | [(e & Hid & _) | (msg & Hid & _)]];
    apply lift_inv in Hid as [Hid ->]; try reflexivity.
  specialize (Hq id Hid).
  set (R := fun a b : World => files b q = files a q).
  assert (Hrefl : forall a, R a a) by reflexivity.
  assert (Htrans : forall a b c, R a b -> R b c -> R a c)
    by (unfold R; intros; congruence).
  assert (Hread : forall op a, is_read op = true -> R a (logged op a))
    by reflexivity.
  assert (Hget : forall o w1, attempt (getMDReadLocked s id) w = (o, w1) ->
                              files w1 q = files w q).
  { intros o w1 Hg.
    exact (respects_attempt R _
             (respects_getMDReadLocked s R Hrefl Htrans Hread id) _ _ _ Hg). }
  apply bind_inv in H as [(g & w1 & Hg & H) | [(e & Hg & _) | (msg & Hg & _)]];
    try (eapply Hget; eassumption).
  rewrite <- (Hget _ _ Hg).
  destruct g as [err | stored]; [ | now apply ret_inv in H as [_ ->]].
  destruct (os_IsNotExist err); [ | now inversion H].
  apply bind_inv in H as [(b & w2 & Hb & H) | [(e & Hb & _) | (msg & Hb & _)]];
    apply lift_inv in Hb as [Hb ->]; try reflexivity.
  apply bind_inv in H as [(t & wt & Ht & H) | [(e & Ht & _) | (msg & Ht & _)]];
    inversion Ht; subst; clear Ht.
  apply bind_inv in H as [(p & wp & Hp & H) | [(e & Hp & _) | (msg & Hp & _)]];
    apply lift_inv in Hp as [Hp ->]; try reflexivity.
  assert (Hne : q <> p) by congruence.
  apply bind_inv in H as [([] & ws & Hs & H) | [(e & Hs & _) | (msg & Hs & _)]].
  - apply ret_inv in H as [_ ->]. eapply SerializeToFile_files; eassumption.
  - eapply SerializeToFile_files; eassumption.
  - eapply SerializeToFile_files; eassumption.
Qed.

(** [putExtraMetadataLocked] writes no file but the two at the paths of the
    bundle ids the object names. *)
Lemma putExtraMetadataLocked_files extra w r w' q :
  putExtraMetadataLocked s rmds extra w = (r, w') ->
  q <> writerKeyBundleV3Path s (GetTLFWriterKeyBundleID (MD rmds)) ->
  q <> readerKeyBundleV3Path s (GetTLFReaderKeyBundleID (MD rmds)) ->
  files w' q = files w q.
Proof.
  intros H Hw Hr. unfold putExtraMetadataLocked in H.
  destruct extra as [ex | ]; [ | now inversion H].
  destruct (String.eqb _ ""); [now inversion H | ].
  destruct (String.eqb _ ""); [now inversion H | ].
  destruct ex as [wkb rkb | ]; [ | now inversion H].
  set (R := fun a b : World => files b q = files a q).
  assert (Hrefl : forall a, R a a) by reflexivity.
  assert (Htrans : forall a b c, R a b -> R b c -> R a c)
    by (unfold R; intros; congruence).
  pose proof (respects_checkKeyBundlesV3 R Hrefl Htrans (crypto s)
                (GetTLFWriterKeyBundleID (MD rmds))
                (GetTLFReaderKeyBundleID (MD rmds)) wkb rkb) as Hck.
  apply bind_inv in H as [([] & w1 & Hc & H) | [(e & Hc & _) | (msg & Hc & _)]];
    try (eapply Hck; eassumption).
  rewrite <- (Hck _ _ _ Hc).
  apply bind_inv in H as [([] & w2 & Hs & H) | [(e & Hs & _) | (msg & Hs & _)]];
    try (eapply SerializeToFile_files; eassumption).
  rewrite <- (SerializeToFile_files _ _ _ _ _ q Hs Hw).
  eapply SerializeToFile_files; eassumption.
Qed.

Lemma getOrCreateBranchJournalLocked_files bid w r w' :
  getOrCreateBranchJournalLocked s bid w = (r, w') -> files w' = files w.
Proof.
  unfold getOrCreateBranchJournalLocked. intros H.
  apply bind_inv in H as [(jo & w0 & Hl & H) | [(e & Hl & _) | (msg & Hl & _)]];
    [ | inversion Hl | inversion Hl].
  assert (w0 = w) as -> by (now inversion Hl). clear Hl.
  destruct jo as [j | ]; [now apply ret_inv in H as [_ ->] | ].
  assert (Hmk : forall o w1, MkdirAll (filepath_Join (branchJournalsPath s) [bid]) w
                             = (o, w1) -> files w1 = files w).
  { intros o w1 Hm. unfold MkdirAll in Hm. now destruct (find _ _); inversion Hm. }
  apply bind_inv in H as [([] & w1 & Hm & H) | [(e & Hm & _) | (msg & Hm & _)]];
    try (eapply Hmk; eassumption).
  rewrite <- (Hmk _ _ Hm).
  apply bind_inv in H as [([] & w2 & Hst & H) | [(e & Hst & _) | (msg & Hst & _)]];
    unfold storeBranchJournal in Hst; destruct (branchJournals w1);
    inversion Hst; subst; try reflexivity.
  now apply ret_inv in H as [_ ->].
Qed.

(** The handle [getOrCreateBranchJournalLocked] returns names the directory
    [branch_dir] gives for the world it started in; handles of other
    branches, journals and files stay. *)
Lemma getOrCreateBranchJournalLocked_footprint w r w' :
  getOrCreateBranchJournalLocked s (BID (MD rmds)) w = (r, w') ->
  within_footprint s rmds (branch_dir s w (BID (MD rmds))) w w' /\
  (forall j, r = Ok j -> jdir j = branch_dir s w (BID (MD rmds))).
Proof.
  intros H. pose proof (getOrCreateBranchJournalLocked_files _ _ _ _ H) as Hf.
  pose proof (getOrCreateBranchJournalLocked_inv s _ _ _ _ H) as [Hj Hh].
  split.
  - split; [ | split].
    + intros q _ _ _. now rewrite Hf.
    + intros d _. now rewrite Hj.
    + intros b Hb. destruct Hh as [(j & _ & _ & Ho) | [_ Hbj]].
      * now apply Ho.
      * unfold handle. now rewrite Hbj.
  - intros j ->.
    apply getOrCreateBranchJournalLocked_Ok_inv in H
      as (_ & _ & [Hold | [Hnew ->]] & _).
    + unfold branch_dir. now rewrite Hold.
    + unfold branch_dir. now rewrite Hnew.
Qed.

Lemma journal_append_footprint j r e w o w' :
  journal_append j r e w = (o, w') -> within_footprint s rmds (jdir j) w w'.
Proof.
  unfold journal_append. intros H.
  destruct (jEntries (journal_data w j)); [ | destruct (_ =? _)];
    inversion H; (split; [ | split]); intros; try reflexivity;
    simpl; now apply fn_lookup_insert_ne.
Qed.

Lemma same_journals_branch_dir w w' bid :
  same_journals w w' -> branch_dir s w' bid = branch_dir s w bid.
Proof. intros [Hb _]. unfold branch_dir, handle. now rewrite Hb. Qed.

Lemma put_persist_footprint extra w r w' :
  put_persist s rmds extra w = (r, w') ->
  within_footprint s rmds (branch_dir s w (BID (MD rmds))) w w'.
Proof.
  intros H. unfold put_persist in H.
  set (jd := branch_dir s w (BID (MD rmds))).
  assert (Hmd : forall o w1, mapErr MDServerError (putMDLocked s rmds) w = (o, w1) ->
                  within_footprint s rmds jd w w1 /\ same_journals w w1).
  { intros o w1 Hm.
    assert (exists o', putMDLocked s rmds w = (o', w1)) as [o' Hm'].
    { apply mapErr_inv in Hm as [(a & Hm & _) | [(e & Hm & _) | (m & Hm & _)]];
        eauto. }
    pose proof (putMDLocked_same_journals s rmds _ _ _ Hm') as Hsj.
    split; [ | exact Hsj]. apply within_footprint_files; [exact Hsj | ].
    intros q _ _ Hq. eapply putMDLocked_files; eassumption. }
  apply bind_inv in H as [(id & w1 & H1 & H) | [(e & H1 & _) | (msg & H1 & _)]];
    try (eapply Hmd; eassumption).
  destruct (Hmd _ _ H1) as [Hfp1 Hsj1].
  apply (within_footprint_trans _ _ _ _ Hfp1).
  assert (Hex : forall o w2,
            mapErr MDServerError (putExtraMetadataLocked s rmds extra) w1 = (o, w2) ->
            within_footprint s rmds jd w1 w2 /\ same_journals w1 w2).
  { intros o w2 Hm.
    assert (exists o', putExtraMetadataLocked s rmds extra w1 = (o', w2))
      as [o' Hm'].
    { apply mapErr_inv in Hm as [(a & Hm & _) | [(e & Hm & _) | (m & Hm & _)]];
        eauto. }
    pose proof (putExtraMetadataLocked_same_journals s rmds extra _ _ _ Hm') as Hsj.
    split; [ | exact Hsj]. apply within_footprint_files; [exact Hsj | ].
    intros q Hw Hr _. eapply putExtraMetadataLocked_files; eassumption. }
  apply bind_inv in H as [([] & w2 & H2 & H) | [(e & H2 & _) | (msg & H2 & _)]];
    try (eapply Hex; eassumption).
  destruct (Hex _ _ H2) as [Hfp2 Hsj2].
  apply (within_footprint_trans _ _ _ _ Hfp2).
  assert (Hjd : branch_dir s w2 (BID (MD rmds)) = jd).
  { unfold jd. rewrite (same_journals_branch_dir _ _ _ Hsj2).
    apply (same_journals_branch_dir _ _ _ Hsj1). }
  apply bind_inv in H as [(j & w3 & H3 & H) | [(e & H3 & _) | (msg & H3 & _)]];
    destruct (getOrCreateBranchJournalLocked_footprint _ _ _ H3) as [Hfp3 Hdir];
    rewrite Hjd in Hfp3; try exact Hfp3.
  apply (within_footprint_trans _ _ _ _ Hfp3).
  rewrite <- Hjd, <- (Hdir j eq_refl).
  apply mapErr_inv in H as [(a & H & _) | [(e & H & _) | (m & H & _)]];
    eapply journal_append_footprint; eassumption.
Qed.

(** X19.  Whatever its outcome, [put] changes no file but the one at the path of
    the object's content address and the two at the paths of the bundle ids
    the object names, no journal but the one of the object's branch, and no
    handle but that branch's. *)
Theorem put_footprint uid key extra w r w' :
  put pkg s uid key rmds extra w = (r, w') ->
  within_footprint s rmds (branch_dir s w (BID (MD rmds))) w w'.
Proof.
  intros H. unfold put in H.
  pose proof same_store_refl as Hrefl.
  pose proof same_store_trans as Htrans.
  pose proof same_store_read as Hread.
  apply bind_inv in H as [(sd & wa & Hsd & H) | [(e & Hsd & _) | (msg & Hsd & _)]];
    inversion Hsd; subst wa; clear Hsd.
  destruct sd; [inversion H; apply within_footprint_refl | ].
  assert (Hres : forall o w1,
            put_resolve pkg s uid key rmds extra w = (o, w1) -> same_store w w1).
  { intros o w1. apply (respects_put_resolve pkg s _ Hrefl Htrans Hread). }
  apply bind_inv in H as [(st & w1 & Hr1 & H) | [(e & Hr1 & _) | (msg & Hr1 & _)]];
    try (eapply same_store_within_footprint, Hres; eassumption).
  pose proof (Hres _ _ Hr1) as Hs1.
  assert (Hsucc : forall o w2,
            put_checkSuccessor pkg s (fst (snd st)) rmds w1 = (o, w2) ->
            same_store w1 w2).
  { intros o w2. apply (respects_put_checkSuccessor pkg s _ Hrefl Htrans). }
  apply bind_inv in H as [([] & w2 & Hr2 & H) | [(e & Hr2 & _) | (msg & Hr2 & _)]];
    try (eapply same_store_within_footprint, Htrans;
         [exact Hs1 | eapply Hsucc; eassumption]).
  pose proof (Htrans _ _ _ Hs1 (Hsucc _ _ Hr2)) as Hs2.
  apply (within_footprint_trans _ _ _ _ (same_store_within_footprint _ _ _ Hs2)).
  assert (Hjd : branch_dir s w2 (BID (MD rmds)) = branch_dir s w (BID (MD rmds))).
  { apply same_journals_branch_dir. destruct Hs2 as (Hb & _ & _ & Hj & _).
    now split. }
  rewrite <- Hjd.
  apply bind_inv in H as [([] & w3 & Hr3 & H) | [(e & Hr3 & _) | (msg & Hr3 & _)]];
    try (eapply put_persist_footprint; eassumption).
  apply ret_inv in H as [_ ->]. eapply put_persist_footprint; eassumption.
Qed.

End PutFootprint.

Lemma put_footprint_witness :
  within_footprint Example.s0 (Example.signed Example.md2k)
    (branch_dir Example.s0 Example.w1
       (BID (MD (Example.signed Example.md2k))))
    Example.w1
    (after (put Example.pkg0 Example.s0 "alice" "key"
              (Example.signed Example.md2k) (Some Example.extra0))
       Example.w1).
Proof.
  apply (put_footprint Example.pkg0 Example.s0 (Example.signed Example.md2k)
           "alice" "key" (Some Example.extra0) Example.w1 (Ok false)).
  apply run_eq. vm_compute. reflexivity.
Defined.

(** ** Objects and their bundles *)

Section PutBundles.

Variable pkg : Package.
Variable s : mdServerTlfStorage.

Lemma getExtraMetadataReadLocked_None_inv wkbID rkbID w w' :
  getExtraMetadataReadLocked s wkbID rkbID w = (Ok None, w') ->
  wkbID = "" /\ rkbID = "".
Proof.
  unfold getExtraMetadataReadLocked. intros H.
  apply bind_inv_Ok in H as (o & w1 & Hk & H).
  destruct o as [[wkb rkb] | ].
  - apply ret_inv in H as [H _]. discriminate.
  - apply getKeyBundlesReadLocked_Ok_inv in Hk as (Hw & Hr & _). now split.
Qed.

(** X20.  Referential integrity of the bundles: after a successful [put] of
    an object that names a writer or a reader bundle, [getKeyBundles] finds
    a verified pair under the two ids the object names, whether the caller
    supplied the bundles or [put] looked them up; bundles the caller
    supplied are the ones found. *)
Theorem put_bundles_available uid key rmds extra w r w' :
  put pkg s uid key rmds extra w = (Ok r, w') ->
  GetTLFWriterKeyBundleID (MD rmds) <> "" \/
  GetTLFReaderKeyBundleID (MD rmds) <> "" ->
  exists wkb rkb,
    fst (getKeyBundles s (GetTLFWriterKeyBundleID (MD rmds))
           (GetTLFReaderKeyBundleID (MD rmds)) w') = Ok (Some (wkb, rkb)) /\
    (forall ex, extra = Some ex -> ex = ExtraMetadataV3 wkb rkb).
Proof.
  intros H Hids.
  apply put_Ok_inv in H as (st & w1 & w2 & _ & Hres & _ & Hpers & _).
  destruct (put_resolve_extra _ _ _ _ _ _ _ _ _ Hres) as (wx & Hrex).
  apply put_persist_Ok_inv in Hpers as (id & w3 & w4 & j & w5 & _ & Hex & Hj & Ha).
  apply getOrCreateBranchJournalLocked_Ok_inv in Hj as (_ & _ & _ & Hf5 & _).
  apply journal_append_Ok_inv in Ha as (_ & _ & Hf' & _).
  apply putExtraMetadataLocked_Ok_inv in Hex
    as [[Hnone _] | (wkb & rkb & Hst & Hw & Hr & Cw & Cr & Hf4 & _)].
  - exfalso. rewrite Hnone in Hrex. unfold put_resolveExtra in Hrex.
    destruct extra as [ex | ].
    + apply ret_inv in Hrex as [Hrex _]. discriminate.
    + apply mapErr_inv_Ok, getExtraMetadataReadLocked_None_inv in Hrex
        as [Hw Hr].
      destruct Hids; contradiction.
  - exists wkb, rkb. split.
    + apply getKeyBundlesReadLocked_stored; try assumption.
      * rewrite Hf', Hf5, Hf4, fn_lookup_insert_ne, fn_lookup_insert;
          [reflexivity | ].
        intros E. symmetry in E. revert E. apply writer_reader_paths_differ.
      * rewrite Hf', Hf5, Hf4. apply fn_lookup_insert.
    + intros ex ->. unfold put_resolveExtra in Hrex.
      apply ret_inv in Hrex as [Hrex _]. congruence.
Qed.

End PutBundles.

Lemma put_bundles_available_witness :
  let rmds := Example.signed Example.md2k in
  let w' := after (put Example.pkg0 Example.s0 "alice" "key" rmds
                     (Some Example.extra0)) Example.w1 in
  exists wkb rkb,
    fst (getKeyBundles Example.s0 (GetTLFWriterKeyBundleID (MD rmds))
           (GetTLFReaderKeyBundleID (MD rmds)) w') = Ok (Some (wkb, rkb)) /\
    (forall ex, Some Example.extra0 = Some ex -> ex = ExtraMetadataV3 wkb rkb).
Proof.
  apply (put_bundles_available Example.pkg0 Example.s0 "alice" "key"
           (Example.signed Example.md2k) (Some Example.extra0) Example.w1 false).
  - apply run_eq. vm_compute. reflexivity.
  - left. discriminate.
Defined.
